(** * Punkbrew: paginated extraction, fallback, caching and deduplication

    A shallow embedding of the extraction, caching and deduplication code
    of the Punk Brewery pipeline, with the properties its specification
    states about them.

    - [PunkAPIExtractor]   src/src/extract/punk_api_extractor.py
    - [FullDatasetLoader]  src/load_full_dataset.py
    - [MultiAPIExtractor]  src/src/extract/multi_api_extractor.py
    - [LocalCacheService]  src/local_cache_service.py
    - [EnhancedAPIService] src/enhanced_api_service.py
    - [ApiServer]          src/api_server.py
    - [RemoveDuplicates]   src/remove_duplicates.py *)

From Stdlib Require Import ZArith QArith Lqa Lia.
From Stdlib Require Import Ascii String DecimalString.
From stdpp Require Import base option list sorting gmap strings.

#[local] Set Warnings "-register-all".

Local Open Scope Z_scope.
Local Open Scope list_scope.

(** ** Decoded JSON values

    What [response.json()] and [json.load] hand to the Python code.  A
    Python [dict] decoded from JSON is an insertion-ordered mapping with
    string keys; it is kept as an association list whose first binding of
    a key is the one [dict.get] sees. *)

Inductive json : Type :=
| JNull
| JBool (b : bool)
| JInt (n : Z)
| JFloat (x : Q)
| JStr (s : string)
| JList (items : list json)
| JDict (fields : list (string * json)).

(** [d.get(key)] on the fields of a dict: [None] stands for an absent key. *)
Fixpoint dict_lookup (key : string) (fields : list (string * json)) : option json :=
  match fields with
  | [] => None
  | (k, v) :: rest => if String.eqb k key then Some v else dict_lookup key rest
  end.

(** [d.get(key, default)]. *)
Definition dict_get (key : string) (default : json) (fields : list (string * json)) : json :=
  match dict_lookup key fields with
  | Some v => v
  | None => default
  end.

(** [v.get(key)] when [v] is a dict; [None] also when [v] is not one. *)
Definition json_field (key : string) (v : json) : option json :=
  match v with
  | JDict fields => dict_lookup key fields
  | _ => None
  end.

(** ** Python builtins on decoded values *)

(** [bool(v)]: the truth value of a decoded JSON value. *)
Definition truthy (v : json) : bool :=
  match v with
  | JNull => false
  | JBool b => b
  | JInt n => negb (n =? 0)
  | JFloat x => negb (Qeq_bool x 0)
  | JStr s => negb (String.eqb s "")
  | JList items => match items with [] => false | _ => true end
  | JDict fields => match fields with [] => false | _ => true end
  end.

(** [needle in hay] on strings. *)
Fixpoint contains (needle hay : string) : bool :=
  String.prefix needle hay
  || match hay with
     | EmptyString => false
     | String _ rest => contains needle rest
     end.

(** [str(n)] of an [int]. *)
Definition str_of_int (n : Z) : string := NilZero.string_of_int (Z.to_int n).

(** The builtins whose result depends on Unicode tables or on the
    rendering of floats and containers are taken as given: [repr] is
    [str()] of a float, list or dict, [lower] is [str.lower], [strip] is
    [str.strip()] without argument, and [isoformat] is
    [datetime.isoformat()] of a clock reading. *)
Class PyBuiltins : Type := {
  repr : json -> string;
  lower : string -> string;
  strip : string -> string;
  isoformat : Q -> string
}.

(** [str(v)], which is also how an f-string renders [v]. *)
Definition py_str `{PyBuiltins} (v : json) : string :=
  match v with
  | JNull => "None"
  | JBool true => "True"
  | JBool false => "False"
  | JInt n => str_of_int n
  | JStr s => s
  | _ => repr v
  end.

(** The value a dict literal with string keys binds to [key]. *)
Fixpoint assoc {A} (key : string) (table : list (string * A)) : option A :=
  match table with
  | [] => None
  | (k, v) :: rest => if String.eqb k key then Some v else assoc key rest
  end.

(** [table.get(key, default)] for a table with string keys, once [key] is
    known to be hashable: only a string can be a key of the table. *)
Definition table_get {A} (table : list (string * A)) (key : json) (default : A) : A :=
  match key with
  | JStr s => match assoc s table with Some v => v | None => default end
  | _ => default
  end.

(** [mapping.get(key, default)] for a table with string keys and a key
    that is any decoded value: a list or a dict is unhashable and the
    lookup raises ([None]). *)
Definition mapping_get {A} (mapping : list (string * A)) (key : json) (default : A)
    : option A :=
  match key with
  | JList _ | JDict _ => None
  | _ => Some (table_get mapping key default)
  end.

(** [s.strip(chars)]: characters of [chars] are dropped at both ends. *)
Definition in_chars (c : ascii) (chars : list ascii) : bool :=
  existsb (Ascii.eqb c) chars.

Fixpoint lstrip_chars (chars : list ascii) (s : string) : string :=
  match s with
  | EmptyString => EmptyString
  | String c rest => if in_chars c chars then lstrip_chars chars rest else s
  end.

Fixpoint rstrip_chars (chars : list ascii) (s : string) : string :=
  match s with
  | EmptyString => EmptyString
  | String c rest =>
      match rstrip_chars chars rest with
      | EmptyString => if in_chars c chars then EmptyString else String c EmptyString
      | kept => String c kept
      end
  end.

Definition strip_chars (chars : list ascii) (s : string) : string :=
  rstrip_chars chars (lstrip_chars chars s).

(** [sep.join(parts)]. *)
Fixpoint join (sep : string) (parts : list string) : string :=
  match parts with
  | [] => ""
  | [p] => p
  | p :: rest => p +:+ sep +:+ join sep rest
  end.

(** ** HTTP as the extractors see it *)

(** A query-string value: the code passes [int]s and [str]s. *)
Inductive param : Type :=
| PInt (n : Z)
| PStr (s : string).

Record request : Type := Get {
  url : string;
  params : list (string * param)
}.

Fixpoint param_lookup (key : string) (ps : list (string * param)) : option param :=
  match ps with
  | [] => None
  | (k, v) :: rest => if String.eqb k key then Some v else param_lookup key rest
  end.

(** The integer sent under [key], if any. *)
Definition int_param (key : string) (r : request) : option Z :=
  match param_lookup key (params r) with
  | Some (PInt n) => Some n
  | _ => None
  end.

(** The outcome of one GET.  [Http status body]: a response arrived;
    [body] is what decoding it as JSON gives ([None]: decoding raises).
    [Timeout] and [NetworkError] are the exceptions the client raises. *)
Inductive response (B : Type) : Type :=
| Http (status : Z) (body : option B)
| Timeout
| NetworkError.
Arguments Http {B} status body.
Arguments Timeout {B}.
Arguments NetworkError {B}.

(** Observable effects of a run, most recent first. *)
Inductive event : Type :=
| EvGet (r : request)
| EvSleep (seconds : Q).

Definition trace := list event.

Definition is_get (e : event) : bool :=
  match e with EvGet _ => true | EvSleep _ => false end.

(** Number of GETs issued so far. *)
Definition requests_issued (t : trace) : nat := length (List.filter is_get t).

(** A paginated source: the reply to the [n]-th GET of a run (counting
    from 0) for request [r].  Pages are JSON arrays of records. *)
Definition server := nat -> request -> response (list json).

(** Page [page] (counted from 1) of [records] cut in pages of [per_page]. *)
Definition page_of (records : list json) (page per_page : Z) : list json :=
  take (Z.to_nat per_page) (drop (Z.to_nat ((page - 1) * per_page)) records).

(** The mock source of the pagination properties: it holds [records] and
    serves every request the page it asks for, with status 200. *)
Definition mock_source (records : list json) : server :=
  fun _ r =>
    match int_param "page" r, int_param "per_page" r with
    | Some page, Some per_page => Http 200 (Some (page_of records page per_page))
    | _, _ => Http 200 (Some records)
    end.

(** A small state monad over the trace. *)
Definition IO (A : Type) : Type := trace -> A * trace.

Definition ret {A} (a : A) : IO A := fun t => (a, t).
Definition bind {A B} (m : IO A) (k : A -> IO B) : IO B :=
  fun t => let (a, t') := m t in k a t'.
Definition http_get (srv : server) (r : request) : IO (response (list json)) :=
  fun t => (srv (requests_issued t) r, EvGet r :: t).
Definition sleep (seconds : Q) : IO unit :=
  fun t => (tt, EvSleep seconds :: t).

Declare Scope io_scope.
Delimit Scope io_scope with io.
Notation "x <- m ;; k" := (bind m (fun x => k))
  (at level 100, m at next level, right associativity) : io_scope.
Notation "m ;;; k" := (bind m (fun _ => k))
  (at level 100, right associativity) : io_scope.

(** ** src/src/extract/punk_api_extractor.py *)
Module PunkAPIExtractor.

(** The fields of [config.api] the extractor copies in [__init__]. *)
Record extractor : Type := {
  base_url : string;
  timeout : Z;
  retry_attempts : Z;
  rate_limit_delay : Q
}.

(** What the body of the [try] in one attempt does: either the function
    returns the page, or the attempt falls through to the backoff. *)
Inductive attempt_result : Type :=
| Return (data : list json)
| FallThrough.

(** One pass through the [try ... except] of [_fetch_page_with_retry]. *)
Definition try_attempt (srv : server) (r : request) (attempt : Z) : IO attempt_result :=
  (resp <- http_get srv r ;;
   match resp with
   | Http status body =>
       if status =? 200 then
         match body with
         | Some data => ret (Return data)
         | None => ret FallThrough              (* except Exception *)
         end
       else if status =? 429 then
         (sleep (inject_Z (2 ^ attempt)) ;;; ret FallThrough)
       else ret FallThrough                     (* logger.warning("HTTP ...") *)
   | Timeout => ret FallThrough                 (* except asyncio.TimeoutError *)
   | NetworkError => ret FallThrough            (* except Exception *)
   end)%io.

(** [for attempt in range(self.retry_attempts)], from [attempt] on with
    [todo] iterations left; after the loop the function returns []. *)
Fixpoint attempts (self : extractor) (srv : server) (r : request)
    (todo : nat) (attempt : Z) : IO (list json) :=
  match todo with
  | O => ret []
  | S todo' =>
      (res <- try_attempt srv r attempt ;;
       match res with
       | Return data => ret data
       | FallThrough =>
           (if attempt <? retry_attempts self - 1
            then sleep (inject_Z (2 ^ attempt))
            else ret tt) ;;;
           attempts self srv r todo' (attempt + 1)
       end)%io
  end.

Definition _fetch_page_with_retry (self : extractor) (srv : server) (r : request)
    : IO (list json) :=
  attempts self srv r (Z.to_nat (retry_attempts self)) 0.

(** The request of one iteration of [_extract_async]. *)
Definition page_request (self : extractor) (start_date end_date : option string)
    (page page_size : Z) : request :=
  Get (base_url self +:+ "/beers")
      ([("page", PInt page); ("per_page", PInt page_size)]
         ++ match start_date with
            | Some d => if String.eqb d "" then [] else [("brewed_after", PStr d)]
            | None => []
            end
         ++ match end_date with
            | Some d => if String.eqb d "" then [] else [("brewed_before", PStr d)]
            | None => []
            end).

(** The [while True] loop of [_extract_async].  Nothing in the loop
    bounds the number of iterations, so the model takes [fuel]: [None]
    means the loop was still running when the fuel ran out. *)
Fixpoint extract_loop (self : extractor) (srv : server)
    (start_date end_date : option string) (page_size : Z)
    (fuel : nat) (page : Z) (all_beers : list json) (t : trace)
    : option (list json * trace) :=
  match fuel with
  | O => None
  | S fuel' =>
      let (page_data, t1) :=
        _fetch_page_with_retry self srv
          (page_request self start_date end_date page page_size) t in
      match page_data with
      | [] => Some (all_beers, t1)                         (* if not page_data: break *)
      | _ :: _ =>
          let all_beers' := all_beers ++ page_data in
          if Z.of_nat (length page_data) <? page_size
          then Some (all_beers', t1)                         (* last page: break *)
          else
            let (_, t2) := sleep (rate_limit_delay self) t1 in
            extract_loop self srv start_date end_date page_size
              fuel' (page + 1) all_beers' t2
      end
  end.

Definition _extract_async (self : extractor) (srv : server)
    (start_date end_date : option string) (page_size : Z) (fuel : nat)
    : option (list json * trace) :=
  extract_loop self srv start_date end_date page_size fuel 1 [] [].

(** [_extract_beer_by_id_async]: [data[0] if data else None] on status
    200, [None] on any other status and on any exception. *)
Definition _extract_beer_by_id_async (self : extractor) (srv : server) (beer_id : Z)
    : IO (option json) :=
  (resp <- http_get srv (Get (base_url self +:+ "/beers/" +:+ str_of_int beer_id) []) ;;
   match resp with
   | Http status body =>
       if status =? 200 then
         match body with
         | Some (first :: _) => ret (Some first)
         | Some [] => ret None
         | None => ret None                         (* except Exception *)
         end
       else ret None
   | Timeout => ret None
   | NetworkError => ret None
   end)%io.

(** The request of one iteration of [_extract_random_beers_async]. *)
Definition random_request (self : extractor) : request :=
  Get (base_url self +:+ "/beers/random") [].

(** One iteration of the [for _ in range(count)] of
    [_extract_random_beers_async]: the rate-limit sleep is inside the
    [try], so an iteration that raises skips it. *)
Definition random_step (self : extractor) (srv : server) (beers : list json)
    : IO (list json) :=
  (resp <- http_get srv (random_request self) ;;
   match resp with
   | Http status body =>
       if status =? 200 then
         match body with
         | Some (first :: _) => sleep (rate_limit_delay self) ;;; ret (beers ++ [first])
         | Some [] => sleep (rate_limit_delay self) ;;; ret beers
         | None => ret beers                        (* except Exception *)
         end
       else (sleep (rate_limit_delay self) ;;; ret beers)
   | Timeout => ret beers
   | NetworkError => ret beers
   end)%io.

Fixpoint random_loop (self : extractor) (srv : server) (todo : nat)
    (beers : list json) : IO (list json) :=
  match todo with
  | O => ret beers
  | S todo' =>
      (beers' <- random_step self srv beers ;;
       random_loop self srv todo' beers')%io
  end.

Definition _extract_random_beers_async (self : extractor) (srv : server) (count : Z)
    : IO (list json) :=
  random_loop self srv (Z.to_nat count) [].

End PunkAPIExtractor.

(** [response.raise_for_status()] of the [requests] library raises for
    client and server error statuses. *)
Definition raises_for_status (status : Z) : bool :=
  (400 <=? status) && (status <? 600).

(** ** src/load_full_dataset.py: pagination *)
Module FullDatasetLoader.

Record loader : Type := {
  base_url : string;
  timeout : Z;
  batch_size : Z;
  total_expected : Z
}.

Definition init : loader := {|
  base_url := "https://api.openbrewerydb.org/v1/breweries";
  timeout := 30;
  batch_size := 200;
  total_expected := 8408
|}.

Definition page_request (self : loader) (page : Z) : request :=
  Get (base_url self) [("page", PInt page); ("per_page", PInt (batch_size self))].

(** What the [try] block of one iteration ends in. *)
Inductive step : Type :=
| Break (all_breweries : list json)
| NextPage (all_breweries : list json)
| Raised.

(** The [try] block of one iteration of [extract_all_breweries]. *)
Definition try_page (self : loader) (srv : server) (page : Z)
    (all_breweries : list json) : IO step :=
  (resp <- http_get srv (page_request self page) ;;
   match resp with
   | Http status body =>
       if raises_for_status status then ret Raised
       else
         match body with
         | None => ret Raised
         | Some [] => ret (Break all_breweries)              (* if not breweries *)
         | Some breweries =>
             let all_breweries' := all_breweries ++ breweries in
             sleep (1 # 2) ;;;
             if Z.of_nat (length breweries) <? batch_size self
             then ret (Break all_breweries')                 (* last page *)
             else ret (NextPage all_breweries')
         end
   | Timeout => ret Raised
   | NetworkError => ret Raised
   end)%io.

(** The [while True] loop of [extract_all_breweries].  Both the normal
    path and the [except] path end with [page += 1] and the safety check
    [if page > 50: break]. *)
Fixpoint extract_loop (self : loader) (srv : server)
    (fuel : nat) (page : Z) (all_breweries : list json) (t : trace)
    : option (list json * trace) :=
  match fuel with
  | O => None
  | S fuel' =>
      let (s, t1) := try_page self srv page all_breweries t in
      match s with
      | Break all_breweries' => Some (all_breweries', t1)
      | NextPage all_breweries' =>
          let page' := page + 1 in
          if page' >? 50 then Some (all_breweries', t1)
          else extract_loop self srv fuel' page' all_breweries' t1
      | Raised =>
          let page' := page + 1 in
          if page' >? 50 then Some (all_breweries, t1)
          else extract_loop self srv fuel' page' all_breweries t1
      end
  end.

(** The request of [get_total_count]: the URL is a literal of its own and
    there are no parameters. *)
Definition meta_request : request :=
  Get "https://api.openbrewerydb.org/v1/breweries/meta" [].

(** [meta_data.get('total', 0)]; [None] when [meta_data] has no [get]. *)
Definition total_of (meta_data : json) : option json :=
  match meta_data with
  | JDict fields => Some (dict_get "total" (JInt 0) fields)
  | _ => None
  end.

(** [get_total_count]: one GET, and [total_expected] when anything in
    the [try] raises.  The body a [server] replies with is an array, so
    against a source of this model the call to [meta_data.get] raises;
    the count is only printed by the caller. *)
Definition get_total_count (self : loader) (srv : server) : IO json :=
  (resp <- http_get srv meta_request ;;
   match resp with
   | Http status body =>
       if raises_for_status status then ret (JInt (total_expected self))
       else
         match body with
         | Some meta_data =>
             match total_of (JList meta_data) with
             | Some total => ret total
             | None => ret (JInt (total_expected self))
             end
         | None => ret (JInt (total_expected self))
         end
   | Timeout => ret (JInt (total_expected self))
   | NetworkError => ret (JInt (total_expected self))
   end)%io.

(** [extract_all_breweries]: the count is asked for first, then the
    pages from page 1 on. *)
Definition extract_all_breweries (self : loader) (srv : server) (fuel : nat)
    : option (list json * trace) :=
  let (total_count, t) := get_total_count self srv [] in
  extract_loop self srv fuel 1 [] t.

(** *** The adapter [transform_brewery_to_beer] and its helpers *)
Section WithBuiltins.
Context `{PyBuiltins}.

Definition category_mapping : list (string * string) :=
  [("micro", "ale"); ("nano", "ale"); ("regional", "lager");
   ("brewpub", "ale"); ("large", "lager"); ("planning", "other");
   ("bar", "other"); ("contract", "other"); ("proprietor", "other");
   ("closed", "other"); ("taproom", "ale"); ("beergarden", "lager")].

Definition abv_estimates : list (string * Q) :=
  [("micro", 58 # 10); ("nano", 62 # 10); ("regional", 49 # 10);
   ("brewpub", 54 # 10); ("large", 46 # 10);
   ("ale", 55 # 10); ("lager", 48 # 10); ("other", 5 # 1)].

Definition ibu_estimates : list (string * Z) :=
  [("micro", 42); ("nano", 38); ("regional", 28); ("brewpub", 35);
   ("large", 22); ("ale", 35); ("lager", 25); ("other", 30)].

Definition craft_beer_states : list string :=
  ["california"; "colorado"; "oregon"; "washington"; "vermont"; "maine"].

Definition _generate_description (b : list (string * json)) (category : string)
    : string :=
  let name := py_str (dict_get "name" (JStr "Unknown Brewery") b) in
  let city := py_str (dict_get "city" (JStr "Unknown") b) in
  let state := py_str (dict_get "state" (JStr "Unknown") b) in
  let brewery_type := py_str (dict_get "brewery_type" (JStr "brewery") b) in
  table_get
    [("ale",
      "A well-crafted ale from " +:+ name
        +:+ ", showcasing the traditional brewing heritage of " +:+ city
        +:+ ", " +:+ state +:+ ". This " +:+ brewery_type
        +:+ " specializes in hop-forward ales with a perfect balance of malt sweetness and hop bitterness.");
     ("lager",
      "A crisp, clean lager from " +:+ name +:+ " in " +:+ city
        +:+ ", " +:+ state +:+ ". This " +:+ brewery_type
        +:+ " focuses on traditional lager brewing techniques, producing smooth and refreshing beers perfect for any occasion.");
     ("other",
      "A unique specialty beer from " +:+ name
        +:+ ", representing the innovative spirit of " +:+ city
        +:+ ", " +:+ state +:+ ". This " +:+ brewery_type
        +:+ " experiments with various styles and ingredients to create distinctive brews.")]
    (JStr category)
    ("A quality beer from " +:+ name +:+ " brewery in " +:+ city
       +:+ ", " +:+ state +:+ ".").

(** [', '.join(...)] raises on a part that is not a string. *)
Definition as_str (v : json) : option string :=
  match v with JStr s => Some s | _ => None end.

Definition _format_address (b : list (string * json)) : option string :=
  let parts := [dict_get "street" (JStr "") b; dict_get "city" (JStr "") b;
                dict_get "state" (JStr "") b; dict_get "postal_code" (JStr "") b] in
  match mapM as_str (List.filter truthy parts) with
  | Some kept => Some (strip_chars ["," ; " "]%char (join ", " kept))
  | None => None
  end.

Definition _generate_food_pairing (category : string) : list string :=
  table_get
    [("ale", ["Grilled burgers"; "Spicy wings"; "Sharp cheddar"; "BBQ ribs"]);
     ("lager", ["Fish and chips"; "Light salads"; "Grilled chicken"; "Soft pretzels"]);
     ("other", ["Artisanal cheese"; "Charcuterie"; "Seasonal dishes";
                "Experimental cuisine"])]
    (JStr category)
    ["Pub food"; "Casual dining"].

(** [random.choice(tips)]: [pick] is the index the generator draws. *)
Definition _generate_brewers_tips (pick : nat) (b : list (string * json)) : string :=
  let name := py_str (dict_get "name" (JStr "this brewery") b) in
  let city := py_str (dict_get "city" (JStr "the area") b) in
  let tips :=
    ["Visit " +:+ name +:+ " to experience their full range of beers on tap.";
     "Check out the local beer scene in " +:+ city +:+ " for more great breweries.";
     "Follow " +:+ name +:+ " on social media for seasonal releases and events.";
     "Ask about brewery tours and tasting flights when visiting " +:+ name +:+ "."] in
  nth (pick mod 4) tips "".

(** [transform_brewery_to_beer]; [None] where the Python raises.  The
    estimates are multiples of 0.1 and whole numbers, which
    [round(base_abv, 1)] and [int(base_ibu)] keep. *)
Definition transform_brewery_to_beer (pick : nat) (brewery : json) : option json :=
  match brewery with
  | JDict b =>
      let brewery_type := dict_get "brewery_type" (JStr "unknown") b in
      match mapping_get category_mapping brewery_type "other" with
      | Some category =>
          let base_abv :=
            table_get abv_estimates brewery_type
              (table_get abv_estimates (JStr category) (5 # 1)) in
          let base_ibu :=
            table_get ibu_estimates brewery_type
              (table_get ibu_estimates (JStr category) 30) in
          match dict_get "state" (JStr "") b with
          | JStr state_value =>
              let state := lower state_value in
              let craft := existsb (String.eqb state) craft_beer_states in
              let base_abv := if craft then Qred (base_abv + (3 # 10)) else base_abv in
              let base_ibu := if craft then base_ibu + 5 else base_ibu in
              match _format_address b with
              | Some address =>
                  Some (JDict
                    [("beer_id", JStr ("brewery_" +:+ py_str (dict_get "id" JNull b)));
                     ("name", JStr (py_str (dict_get "name" (JStr "Unknown") b)
                                      +:+ " House Beer"));
                     ("tagline",
                      JStr ("Signature beer from "
                              +:+ py_str (dict_get "name" (JStr "Unknown Brewery") b)));
                     ("description", JStr (_generate_description b category));
                     ("image_url", JNull);
                     ("first_brewed", JNull);
                     ("abv", JFloat base_abv);
                     ("ibu", JInt base_ibu);
                     ("target_fg", JNull);
                     ("target_og", JNull);
                     ("ebc", JNull);
                     ("srm", JNull);
                     ("ph", JNull);
                     ("attenuation_level", JNull);
                     ("volume", JNull);
                     ("boil_volume", JNull);
                     ("category", JStr category);
                     ("subcategory", brewery_type);
                     ("category_confidence", JFloat (7 # 10));
                     ("ingredients", JDict []);
                     ("method", JDict []);
                     ("food_pairing",
                      JList (map JStr (_generate_food_pairing category)));
                     ("brewers_tips", JStr (_generate_brewers_tips pick b));
                     ("contributed_by", JStr "Open Brewery DB");
                     ("brewery_info",
                      JDict
                        [("name", dict_get "name" JNull b);
                         ("brewery_type", dict_get "brewery_type" JNull b);
                         ("address", JStr address);
                         ("country", dict_get "country" JNull b);
                         ("state", dict_get "state" JNull b);
                         ("city", dict_get "city" JNull b);
                         ("postal_code", dict_get "postal_code" JNull b);
                         ("phone", dict_get "phone" JNull b);
                         ("website_url", dict_get "website_url" JNull b);
                         ("latitude", dict_get "latitude" JNull b);
                         ("longitude", dict_get "longitude" JNull b)]);
                     ("data_source", JStr "openbrewery_db")])
              | None => None                       (* ', '.join raises *)
              end
          | _ => None                              (* .lower() raises *)
          end
      | None => None                               (* category_mapping.get raises *)
      end
  | _ => None                                      (* brewery.get raises *)
  end.

End WithBuiltins.

End FullDatasetLoader.

(** The replies of the network to the stateless calls of the [requests]
    library: each request of a run is sent once. *)
Definition network := request -> response json.

(** ** src/src/extract/multi_api_extractor.py *)
Module MultiAPIExtractor.
Section WithBuiltins.
Context `{PyBuiltins}.
Variable http : network.

Definition punk_base_url : string := "https://api.punkapi.com/v2".
Definition openbrewery_base_url : string := "https://api.openbrewerydb.org/v1".

(** The URL [test_api_connectivity] probes; [None]: the lookup
    [self.apis[api_name]] raises, or [url] is left unbound. *)
Definition probe_url (api_name : string) : option string :=
  if String.eqb api_name "punk" then Some (punk_base_url +:+ "/beers/1")
  else if String.eqb api_name "openbrewery"
       then Some (openbrewery_base_url +:+ "/breweries?per_page=1")
       else None.

Definition test_api_connectivity (api_name : string) : bool :=
  match probe_url api_name with
  | Some u =>
      match http (Get u []) with
      | Http status _ => status =? 200
      | Timeout | NetworkError => false                       (* except Exception *)
      end
  | None => false
  end.

(** The category rule of [_transform_punk_beer]. *)
Definition yeast_category (yeast_name : string) : string :=
  if contains "ale" yeast_name || contains "cerevisiae" yeast_name then "ale"
  else if contains "lager" yeast_name || contains "pastorianus" yeast_name then "lager"
  else "other".

(** [yeast_name]; [None] where [.get] or [.lower] is called on a value
    that has no such method. *)
Definition yeast_name_of (yeast : json) : option string :=
  match yeast with
  | JList (first :: _) =>
      match first with
      | JDict fields =>
          match dict_get "name" (JStr "") fields with
          | JStr s => Some (lower s)
          | _ => None
          end
      | _ => Some (lower (py_str first))
      end
  | _ => Some (lower (py_str yeast))
  end.

(** [_transform_punk_beer]; [None] where the Python raises. *)
Definition _transform_punk_beer (beer : json) : option json :=
  match beer with
  | JDict b =>
      match dict_get "ingredients" (JDict []) b with
      | JDict ingredients =>
          match yeast_name_of (dict_get "yeast" (JStr "") ingredients) with
          | Some yeast_name =>
              Some (JDict
                [("beer_id", dict_get "id" JNull b);
                 ("name", dict_get "name" JNull b);
                 ("tagline", dict_get "tagline" JNull b);
                 ("description", dict_get "description" JNull b);
                 ("image_url", dict_get "image_url" JNull b);
                 ("first_brewed", dict_get "first_brewed" JNull b);
                 ("abv", dict_get "abv" JNull b);
                 ("ibu", dict_get "ibu" JNull b);
                 ("target_fg", dict_get "target_fg" JNull b);
                 ("target_og", dict_get "target_og" JNull b);
                 ("ebc", dict_get "ebc" JNull b);
                 ("srm", dict_get "srm" JNull b);
                 ("ph", dict_get "ph" JNull b);
                 ("attenuation_level", dict_get "attenuation_level" JNull b);
                 ("volume", dict_get "volume" JNull b);
                 ("boil_volume", dict_get "boil_volume" JNull b);
                 ("category", JStr (yeast_category yeast_name));
                 ("subcategory", JStr yeast_name);
                 ("category_confidence", JFloat (8 # 10));
                 ("ingredients", JDict ingredients);
                 ("method", dict_get "method" JNull b);
                 ("food_pairing", dict_get "food_pairing" (JList []) b);
                 ("brewers_tips", dict_get "brewers_tips" JNull b);
                 ("contributed_by", dict_get "contributed_by" JNull b);
                 ("data_source", JStr "punk_api")])
          | None => None
          end
      | _ => None                                  (* ingredients.get raises *)
      end
  | _ => None                                      (* beer.get raises *)
  end.

(** [category_mapping] of [_transform_brewery_to_beer]. *)
Definition category_mapping : list (string * string) :=
  [("micro", "ale"); ("nano", "ale"); ("regional", "lager");
   ("brewpub", "ale"); ("large", "lager"); ("planning", "other");
   ("bar", "other"); ("contract", "other"); ("proprietor", "other")].

Definition _estimate_abv_by_category (category : string) : Q :=
  table_get [("ale", 52 # 10); ("lager", 48 # 10); ("other", 5 # 1)]
    (JStr category) (5 # 1).

Definition _estimate_ibu_by_category (category : string) : Z :=
  table_get [("ale", 35); ("lager", 25); ("other", 30)] (JStr category) 30.

(** [_transform_brewery_to_beer]; [None] where the Python raises. *)
Definition _transform_brewery_to_beer (brewery : json) : option json :=
  match brewery with
  | JDict b =>
      let get key default := py_str (dict_get key default b) in
      let brewery_type := dict_get "brewery_type" (JStr "unknown") b in
      match mapping_get category_mapping brewery_type "other" with
      | Some category =>
          Some (JDict
            [("beer_id", JStr ("brewery_" +:+ get "id" JNull));
             ("name", JStr (get "name" (JStr "Unknown") +:+ " House Beer"));
             ("tagline", JStr ("Signature beer from "
                                 +:+ get "name" (JStr "Unknown Brewery")));
             ("description",
              JStr ("A " +:+ category +:+ " beer from " +:+ get "name" JNull
                      +:+ " brewery located in " +:+ get "city" (JStr "Unknown")
                      +:+ ", " +:+ get "state" (JStr "Unknown")));
             ("image_url", JNull);
             ("first_brewed", JNull);
             ("abv", JFloat (_estimate_abv_by_category category));
             ("ibu", JInt (_estimate_ibu_by_category category));
             ("target_fg", JNull);
             ("target_og", JNull);
             ("ebc", JNull);
             ("srm", JNull);
             ("ph", JNull);
             ("attenuation_level", JNull);
             ("volume", JNull);
             ("boil_volume", JNull);
             ("category", JStr category);
             ("subcategory", brewery_type);
             ("category_confidence", JFloat (6 # 10));
             ("ingredients", JDict []);
             ("method", JDict []);
             ("food_pairing", JList []);
             ("brewers_tips",
              JStr ("Visit " +:+ get "name" JNull +:+ " at "
                      +:+ get "street" (JStr "") +:+ " " +:+ get "city" (JStr "")
                      +:+ ", " +:+ get "state" (JStr "")));
             ("contributed_by", JStr "Open Brewery DB");
             ("brewery_info",
              JDict
                [("name", dict_get "name" JNull b);
                 ("brewery_type", dict_get "brewery_type" JNull b);
                 ("address",
                  JStr (strip (get "street" (JStr "") +:+ " " +:+ get "city" (JStr "")
                                 +:+ ", " +:+ get "state" (JStr "") +:+ " "
                                 +:+ get "postal_code" (JStr ""))));
                 ("country", dict_get "country" JNull b);
                 ("phone", dict_get "phone" JNull b);
                 ("website_url", dict_get "website_url" JNull b);
                 ("latitude", dict_get "latitude" JNull b);
                 ("longitude", dict_get "longitude" JNull b)]);
             ("data_source", JStr "openbrewery_db")])
      | None => None                          (* category_mapping.get raises *)
      end
  | _ => None                                 (* brewery.get raises *)
  end.

(** The loop [for x in payload: out.append(transform(x))] inside the
    [try] of the two extraction functions: [None] when it raises.  A
    payload that is not a list either cannot be iterated or yields
    strings, on which the transform raises; the empty string and the
    empty dict run the loop zero times. *)
Definition transform_all (transform : json -> option json) (payload : json)
    : option (list json) :=
  match payload with
  | JList items => mapM transform items
  | JStr "" | JDict [] => Some []
  | _ => None
  end.

(** The [try] of the two extraction functions; [None] when it raises. *)
Definition fetch_and_transform (r : request) (transform : json -> option json)
    : option (list json) :=
  match http r with
  | Http status body =>
      if raises_for_status status then None
      else
        match body with
        | Some payload => transform_all transform payload
        | None => None
        end
  | Timeout | NetworkError => None
  end.

(** The request of [extract_punk_api_data]. *)
Definition punk_request (limit : Z) : request :=
  Get (punk_base_url +:+ "/beers") [("per_page", PInt (Z.min limit 80))].

Definition extract_punk_api_data (limit : Z) : list json :=
  match fetch_and_transform (punk_request limit) _transform_punk_beer with
  | Some transformed_beers => transformed_beers
  | None => []                                       (* except Exception *)
  end.

(** The request of [extract_openbrewery_data]. *)
Definition openbrewery_request (limit : Z) : request :=
  Get (openbrewery_base_url +:+ "/breweries")
      [("per_page", PInt (Z.min limit 200));
       ("by_type", PStr "micro,nano,regional,brewpub")].

Definition extract_openbrewery_data (limit : Z) : list json :=
  match fetch_and_transform (openbrewery_request limit) _transform_brewery_to_beer with
  | Some transformed_beers => transformed_beers
  | None => []                                       (* except Exception *)
  end.

(** [if data:] on a list. *)
Definition non_empty (data : list json) : bool :=
  match data with [] => false | _ :: _ => true end.

Definition extract_with_fallback (limit : Z) : list json :=
  let fallback :=
    if test_api_connectivity "openbrewery" then
      let data := extract_openbrewery_data limit in
      if non_empty data then data else []
    else [] in
  if test_api_connectivity "punk" then
    let data := extract_punk_api_data limit in
    if non_empty data then data else fallback
  else fallback.

End WithBuiltins.
End MultiAPIExtractor.

(** ** Vocabulary of the pagination properties *)

(** A GET that asks for a page: it carries a [page] parameter. *)
Definition is_page_request (e : event) : bool :=
  match e with
  | EvGet r => match int_param "page" r with Some _ => true | None => false end
  | EvSleep _ => false
  end.

(** Page requests of a run: the GETs that ask for a page. *)
Definition page_requests (t : trace) : Z :=
  Z.of_nat (length (List.filter is_page_request t)).

(** Page requests of a finished run. *)
Definition issued (run : option (list json * trace)) : option Z :=
  match run with
  | Some (_, t) => Some (page_requests t)
  | None => None
  end.

(** Records returned by a finished run. *)
Definition collected (run : option (list json * trace)) : option (list json) :=
  match run with
  | Some (out, _) => Some out
  | None => None
  end.


(** The extractor as [ConfigManager] configures it by default. *)
Definition default_extractor : PunkAPIExtractor.extractor := {|
  PunkAPIExtractor.base_url := "https://api.punkapi.com/v2";
  PunkAPIExtractor.timeout := 30;
  PunkAPIExtractor.retry_attempts := 3;
  PunkAPIExtractor.rate_limit_delay := 1
|}.

(** A source that holds [records] but answers every request for page
    [bad_page] with [failure]. *)
Definition failing_page_source (records : list json) (bad_page : Z)
    (failure : response (list json)) : server :=
  fun n r =>
    match int_param "page" r with
    | Some page => if page =? bad_page then failure else mock_source records n r
    | None => mock_source records n r
    end.

(** [n] distinguishable records. *)
Definition numbered (n : nat) : list json :=
  map (fun i => JInt (Z.of_nat i)) (seq 1 n).

(** A reply that does not deliver a page: anything but a decodable 200. *)
Definition failed (resp : response (list json)) : bool :=
  match resp with
  | Http status (Some _) => negb (status =? 200)
  | _ => true
  end.

(** What [_fetch_page_with_retry] leaves in the trace, most recent event
    first, when each of its [todo] remaining attempts, numbered from
    [attempt], gets a status that is neither 200 nor 429: a GET per
    attempt and a backoff of [2 ** attempt] seconds after each attempt but
    the last of the [retry_attempts]. *)
Fixpoint retry_trace (retry_attempts : Z) (r : request) (todo : nat) (attempt : Z)
    : trace :=
  match todo with
  | O => []
  | S todo' =>
      retry_trace retry_attempts r todo' (attempt + 1)
        ++ (if attempt <? retry_attempts - 1
            then [EvSleep (inject_Z (2 ^ attempt))]
            else [])
        ++ [EvGet r]
  end.

(** ** Clock readings

    [time.time()] and file modification times are seconds since the epoch;
    they are kept as rationals. *)

(** [x < y] on clock readings. *)
Definition Qltb (x y : Q) : bool := negb (Qle_bool y x).

(** ** Files

    The file cache keeps its entries in the file system.  Which file a
    path names is the file system's business: [cache/./a.json] and
    [cache/a.json] name one file, and [cache/../a.json] names a file that
    is not in [cache].  The two operations of [pathlib] that the cache
    uses are taken as given: [joinpath dir name] is the file that
    [Path(dir) / name] names, as a canonical path, and [glob_json dir path]
    tells whether [Path(dir).glob("*.json")] lists the file at [path]. *)
Class FileSystem : Type := {
  joinpath : string -> string -> string;
  glob_json : string -> string -> bool
}.

(** ** src/local_cache_service.py *)
Module LocalCacheService.
Section WithBuiltins.
Context `{PyBuiltins} `{FileSystem}.

(** A file: what [json.load] makes of it ([None] when it does not parse)
    and its modification time. *)
Record file : Type := {
  content : option json;
  st_mtime : Q
}.

(** The files there are, by canonical path. *)
Definition files := gmap string file.

Record service : Type := {
  cache_dir : string;
  cache_ttl : list (string * Z)                       (* in seconds *)
}.

(** [LocalCacheService(cache_dir)]. *)
Definition init (cache_dir : string) : service := {|
  cache_dir := cache_dir;
  cache_ttl := [("analytics_summary", 3600); ("brewery_analytics", 1800);
                ("system_status", 300); ("geographic_data", 7200)]
|}.

(** The global instance [local_cache = LocalCacheService()]. *)
Definition local_cache : service := init "cache".

(** [self.cache_dir / f"{cache_key}.json"]. *)
Definition _get_cache_file (self : service) (cache_key : string) : string :=
  joinpath (cache_dir self) (cache_key +:+ ".json").

(** [self.cache_ttl.get(cache_key, 3600)]: the TTL goes by the key, not
    by the file. *)
Definition ttl_of (self : service) (cache_key : string) : Z :=
  table_get (cache_ttl self) (JStr cache_key) 3600.

Definition _is_cache_valid (self : service) (fs : gmap string file) (now : Q)
    (cache_key : string) : bool :=
  let cache_file := _get_cache_file self cache_key in
  match fs !! cache_file with
  | None => false                                   (* not cache_file.exists() *)
  | Some f =>
      let file_age := (now - st_mtime f)%Q in
      Qltb file_age (inject_Z (ttl_of self cache_key))
  end.

Definition get (self : service) (fs : gmap string file) (now : Q)
    (cache_key : string) : option json :=
  if negb (_is_cache_valid self fs now cache_key) then None
  else
    match fs !! _get_cache_file self cache_key with
    | Some f => content f                            (* json.load, or except *)
    | None => None
    end.

(** What [set] writes. *)
Definition cache_data (self : service) (now : Q) (cache_key : string) (data : json)
    : json :=
  JDict [("data", data);
         ("cached_at", JStr (isoformat now));
         ("cache_key", JStr cache_key);
         ("ttl_seconds", JInt (ttl_of self cache_key))].

(** [set], when the write goes through: the file is replaced and its
    modification time is the time of the write. *)
Definition set (self : service) (fs : gmap string file) (now : Q)
    (cache_key : string) (data : json) : gmap string file :=
  <[_get_cache_file self cache_key :=
      {| content := Some (cache_data self now cache_key data);
         st_mtime := now |}]> fs.

Definition invalidate (self : service) (fs : gmap string file) (cache_key : string)
    : gmap string file :=
  delete (_get_cache_file self cache_key) fs.

(** [clear_all]: the files that the glob lists are unlinked. *)
Definition clear_all (self : service) (fs : gmap string file) : gmap string file :=
  filter (fun entry : string * file => glob_json (cache_dir self) entry.1 = false) fs.

End WithBuiltins.
End LocalCacheService.

(** The comparison of [sorted] on the items of a parameter dict: tuples
    compare by their first component, and the keys of a dict differ. *)
Definition item_le (a b : string * param) : Prop :=
  String.leb (fst a) (fst b) = true.

#[global] Instance item_le_dec (a b : string * param) : Decision (item_le a b).
Proof. unfold item_le. apply _. Defined.

(** [f"{v}"] of a parameter value. *)
Definition param_str (v : param) : string :=
  match v with
  | PInt n => str_of_int n
  | PStr s => s
  end.

(** ** src/enhanced_api_service.py *)
Module EnhancedAPIService.

(** A value of [self.cache]: [{'data': ..., 'timestamp': ...}]. *)
Record cache_entry : Type := {
  data : json;
  timestamp : Q
}.

Record service : Type := {
  open_brewery_base_url : string;
  cache : gmap string cache_entry;
  cache_ttl : Q;
  last_request_time : Q;
  min_request_interval : Q
}.

Definition init : service := {|
  open_brewery_base_url := "https://api.openbrewerydb.org/v1/breweries";
  cache := ∅;
  cache_ttl := 300%Q;
  last_request_time := 0%Q;
  min_request_interval := (1 # 10)%Q
|}.

(** [params] is the list of items of the dict, in insertion order; the
    empty list also stands for [None]. *)
Definition _get_cache_key (endpoint : string) (params : list (string * param))
    : string :=
  match params with
  | [] => endpoint
  | _ :: _ =>
      let param_str_ :=
        join "&" (map (fun kv => fst kv +:+ "=" +:+ param_str (snd kv))
                      (merge_sort item_le params)) in
      endpoint +:+ "?" +:+ param_str_
  end.

Definition _is_cache_valid (self : service) (now : Q) (entry : cache_entry) : bool :=
  Qltb (now - timestamp entry)%Q (cache_ttl self).

(** [_rate_limit] called at [now]: the time at which it returns and the
    new state. *)
Definition _rate_limit (self : service) (now : Q) : Q * service :=
  let time_since_last := (now - last_request_time self)%Q in
  let after :=
    if Qltb time_since_last (min_request_interval self)
    then (now + (min_request_interval self - time_since_last))%Q
    else now in
  (after, {| open_brewery_base_url := open_brewery_base_url self;
             cache := cache self;
             cache_ttl := cache_ttl self;
             last_request_time := after;
             min_request_interval := min_request_interval self |}).

Definition store (self : service) (cache_key : string) (entry : cache_entry)
    : service :=
  {| open_brewery_base_url := open_brewery_base_url self;
     cache := <[cache_key := entry]> (cache self);
     cache_ttl := cache_ttl self;
     last_request_time := last_request_time self;
     min_request_interval := min_request_interval self |}.

(** The outcome of [_make_request]: the value returned, the requests
    that went to the network, and the new state. *)
Record outcome : Type := {
  returned : json;
  sent : list request;
  after : service
}.

(** [_make_request] called at [now] against [http], the reply taking
    [latency] seconds. *)
Definition _make_request (self : service) (http : network) (now latency : Q)
    (endpoint : string) (params : list (string * param)) : outcome :=
  let cache_key := _get_cache_key endpoint params in
  let hit :=
    match cache self !! cache_key with
    | Some entry => if _is_cache_valid self now entry then Some (data entry) else None
    | None => None
    end in
  match hit with
  | Some payload => {| returned := payload; sent := []; after := self |}
  | None =>
      let (started, self1) := _rate_limit self now in
      let r := Get (open_brewery_base_url self +:+ endpoint) params in
      match http r with
      | Http status (Some payload) =>
          if raises_for_status status
          then {| returned := JList []; sent := [r]; after := self1 |}
          else
            {| returned := payload; sent := [r];
               after := store self1 cache_key
                          {| data := payload; timestamp := (started + latency)%Q |} |}
      | _ => {| returned := JList []; sent := [r]; after := self1 |}
      end
  end.

Definition search_breweries (self : service) (http : network) (now latency : Q)
    (query : string) (limit : Z) : outcome :=
  _make_request self http now latency "/search"
    [("query", PStr query); ("per_page", PInt (Z.min limit 50))].

(** [result if isinstance(result, dict) else {}]. *)
Definition dict_or_empty (result : json) : json :=
  match result with
  | JDict _ => result
  | _ => JDict []
  end.

Definition get_brewery_by_id (self : service) (http : network) (now latency : Q)
    (brewery_id : string) : json * outcome :=
  let o := _make_request self http now latency ("/" +:+ brewery_id) [] in
  (dict_or_empty (returned o), o).

Definition get_metadata (self : service) (http : network) (now latency : Q)
    : json * outcome :=
  let o := _make_request self http now latency "/meta" [] in
  (dict_or_empty (returned o), o).

Definition get_random_brewery (self : service) (http : network) (now latency : Q)
    : json * outcome :=
  let o := _make_request self http now latency "/random" [] in
  (match returned o with
   | JList (first :: _) => first
   | JDict fields => JDict fields
   | _ => JDict []
   end, o).

(** [clear_cache]. *)
Definition clear_cache (self : service) : service :=
  {| open_brewery_base_url := open_brewery_base_url self;
     cache := ∅;
     cache_ttl := cache_ttl self;
     last_request_time := last_request_time self;
     min_request_interval := min_request_interval self |}.

End EnhancedAPIService.

(** ** src/api_server.py: the cached status endpoint *)
Module ApiServer.
Section WithBuiltins.
Context `{PyBuiltins} `{FileSystem}.

(** The status [system_status] computes at [now]. *)
Definition fresh_status (now : Q) : json :=
  JDict [("server", JStr "development");
         ("backend", JStr "flask_api");
         ("frontend", JStr "react_dev");
         ("architecture", JStr "option_2");
         ("status", JStr "healthy");
         ("timestamp", JStr (isoformat now))].

(** [system_status()] called at [now]: the body of the response ([None]
    when [cached_status['data']] raises) and the files afterwards. *)
Definition system_status (fs : gmap string LocalCacheService.file) (now : Q)
    : option json * gmap string LocalCacheService.file :=
  let local_cache := LocalCacheService.local_cache in
  match LocalCacheService.get local_cache fs now "system_status" with
  | Some cached_status =>
      if truthy cached_status then (json_field "data" cached_status, fs)
      else
        (Some (fresh_status now),
         LocalCacheService.set local_cache fs now "system_status" (fresh_status now))
  | None =>
      (Some (fresh_status now),
       LocalCacheService.set local_cache fs now "system_status" (fresh_status now))
  end.

End WithBuiltins.
End ApiServer.

(** ** src/remove_duplicates.py

    The deduplication is a BigQuery statement.  A table is a bag of rows;
    the list that stands for it here is one enumeration of the bag. *)
Module RemoveDuplicates.

(** A row of [staging_beers]: the two columns of the partition key, the
    ordering column (a TIMESTAMP, in microseconds) and the remaining
    columns, which [SELECT *] carries along.  [beer_id] is only ever
    compared for equality. *)
Record row : Type := {
  beer_id : string;
  name : string;
  processed_at : Z;
  columns : list (string * json)
}.

(** [PARTITION BY beer_id, name] / [GROUP BY beer_id, name]. *)
Definition dedup_key (r : row) : string * string := (beer_id r, name r).

Definition same_key (k : string * string) (r : row) : bool :=
  bool_decide (dedup_key r = k).

(** The keys of a list of rows, with repetitions. *)
Definition keys (rows : list row) : list (string * string) := map dedup_key rows.

(** [COUNT( * )] of the group of key [k]. *)
Definition count_key (k : string * string) (rows : list row) : nat :=
  length (List.filter (same_key k) rows).

(** [duplicate_check_query] returns at least one group:
    [GROUP BY beer_id, name HAVING COUNT( * ) > 1]. *)
Definition duplicates_found (table : list row) : bool :=
  existsb (fun r => 1 <? count_key (dedup_key r) table)%nat table.

(** [ORDER BY processed_at DESC] inside each partition: the statement
    gives no further ordering column, so rows of one partition with equal
    [processed_at] may be numbered in either order.  [window] is the
    table as the engine orders it for the window function; it is a legal
    order when a row never comes before a row of its partition with a
    later [processed_at]. *)
Fixpoint ordered_desc (window : list row) : bool :=
  match window with
  | [] => true
  | r :: rest =>
      forallb (fun r' => implb (same_key (dedup_key r) r')
                           (processed_at r' <=? processed_at r)) rest
      && ordered_desc rest
  end.

Definition window_order (table window : list row) : Prop :=
  Permutation table window /\ ordered_desc window = true.

(** [ROW_NUMBER() OVER (PARTITION BY beer_id, name ORDER BY processed_at
    DESC) AS row_num]: one more than the number of rows of the same
    partition that come earlier in the window order ([seen]). *)
Fixpoint row_numbers (seen window : list row) : list (row * nat) :=
  match window with
  | [] => []
  | r :: rest =>
      (r, S (count_key (dedup_key r) seen)) :: row_numbers (r :: seen) rest
  end.

(** [SELECT * EXCEPT(row_num) FROM (...) WHERE row_num = 1]. *)
Definition select_first (numbered_rows : list (row * nat)) : list row :=
  map fst (List.filter (fun p => (snd p =? 1)%nat) numbered_rows).

Definition dedup_query (window : list row) : list row :=
  select_first (row_numbers [] window).

(** [remove_duplicates()] as a function of the table, given the order
    [window] the engine uses: nothing is rewritten when the check finds
    no duplicate group; otherwise the table is replaced by the result of
    [dedup_query]. *)
Definition remove_duplicates (window table : list row) : list row :=
  if negb (duplicates_found table) then table
  else dedup_query window.

End RemoveDuplicates.

(** ** The Deduplicator as the specification words it

    Group by key; in each group the record with the greatest timestamp,
    the first seen among equals; groups in first-seen order of their
    keys. *)
Module SpecDeduplicator.
Import RemoveDuplicates.

(** The keys of [rows] in first-seen order. *)
Fixpoint first_seen_keys (seen : list (string * string)) (rows : list row)
    : list (string * string) :=
  match rows with
  | [] => []
  | r :: rest =>
      if bool_decide (dedup_key r ∈ seen) then first_seen_keys seen rest
      else dedup_key r :: first_seen_keys (dedup_key r :: seen) rest
  end.

(** The record with the greatest timestamp, the first seen among equals. *)
Fixpoint first_latest (group : list row) : option row :=
  match group with
  | [] => None
  | r :: rest =>
      match first_latest rest with
      | Some m => if processed_at r <? processed_at m then Some m else Some r
      | None => Some r
      end
  end.

Definition deduplicate (records : list row) : list row :=
  omap (fun k => first_latest (List.filter (same_key k) records))
       (first_seen_keys [] records).

End SpecDeduplicator.

(** ** Vocabulary of the adapter properties *)

(** The values the category field may take. *)
Definition categories : list string := ["ale"; "lager"; "other"].

(** The record carries a category out of [categories]. *)
Definition has_category (record : json) : Prop :=
  exists c, json_field "category" record = Some (JStr c) /\ c ∈ categories.

(** The record carries the category [c]. *)
Definition category_is (c : string) (record : json) : Prop :=
  json_field "category" record = Some (JStr c).

(** The yeast name by which [_transform_punk_beer] classifies a beer:
    the lowercased name of the first yeast of its ingredients, or the
    lowercased rendering of what stands there instead. *)
Definition punk_yeast_name `{PyBuiltins} (beer : json) : option string :=
  match beer with
  | JDict b =>
      match dict_get "ingredients" (JDict []) b with
      | JDict ingredients =>
          MultiAPIExtractor.yeast_name_of (dict_get "yeast" (JStr "") ingredients)
      | _ => None
      end
  | _ => None
  end.

(** The brewery type by which the two brewery adapters classify a
    brewery. *)
Definition brewery_type_of (brewery : json) : json :=
  match brewery with
  | JDict b => dict_get "brewery_type" (JStr "unknown") b
  | _ => JNull
  end.

(** The record carries the source tag [tag]. *)
Definition has_source (tag : string) (record : json) : Prop :=
  json_field "data_source" record = Some (JStr tag).

(** ** Sample data *)

(** Builtins to run the model on ASCII text: [lower] and [strip] agree
    with Python there; [repr] and [isoformat] are placeholders that no
    example depends on. *)
Definition ascii_lower_char (c : ascii) : ascii :=
  let n := nat_of_ascii c in
  if ((65 <=? n) && (n <=? 90))%nat then ascii_of_nat (n + 32) else c.

Fixpoint ascii_lower (s : string) : string :=
  match s with
  | EmptyString => EmptyString
  | String c rest => String (ascii_lower_char c) (ascii_lower rest)
  end.

Definition ascii_whitespace : list ascii :=
  map ascii_of_nat [32; 9; 10; 11; 12; 13]%nat.

Definition sample_builtins : PyBuiltins := {|
  repr := fun _ => "<repr>";
  lower := ascii_lower;
  strip := strip_chars ascii_whitespace;
  isoformat := fun _ => "<isoformat>"
|}.

(** Enough of a POSIX file system to run the model on sample keys: a
    leading [./] of a name is dropped, and the glob lists the [.json]
    files directly under the directory. *)
Definition drop_dot_slash (name : string) : string :=
  match name with
  | String "."%char (String "/"%char rest) => rest
  | _ => name
  end.

Definition ends_with (suffix s : string) : bool :=
  (String.length suffix <=? String.length s)%nat
  && String.eqb (substring (String.length s - String.length suffix)
                           (String.length suffix) s) suffix.

Definition sample_file_system : FileSystem := {|
  joinpath := fun dir name => dir +:+ "/" +:+ drop_dot_slash name;
  glob_json := fun dir path =>
    String.prefix (dir +:+ "/") path
    && ends_with ".json" path
    && negb (contains "/" (substring (String.length dir + 1)
                                     (String.length path) path))
|}.

(** A beer of the Punk API, as far as the adapter reads it. *)
Definition sample_beer : json :=
  JDict [("id", JInt 1); ("name", JStr "Buzz");
         ("ingredients",
          JDict [("yeast", JStr "Wyeast 1056 - American Ale")])].

(** A brewery of Open Brewery DB. *)
Definition sample_brewery : json :=
  JDict [("id", JStr "5128df48"); ("name", JStr "Stone Brewing");
         ("brewery_type", JStr "regional");
         ("street", JStr "1999 Citracado Pkwy"); ("city", JStr "Escondido");
         ("state", JStr "California"); ("postal_code", JStr "92029")].

(** A network on which the Punk API is gone (its host no longer resolves)
    and Open Brewery DB serves one brewery. *)
Definition punk_down : network :=
  fun r =>
    if String.prefix "https://api.openbrewerydb.org" (url r)
    then Http 200 (Some (JList [sample_brewery]))
    else NetworkError.

(** A network on which nothing answers. *)
Definition all_down : network := fun _ => NetworkError.

(** A network on which both sources answer. *)
Definition all_up : network :=
  fun r =>
    if String.prefix "https://api.openbrewerydb.org" (url r)
    then Http 200 (Some (JList [sample_brewery]))
    else Http 200 (Some (JList [sample_beer])).

(** A network on which each source rejects a [per_page] above its
    maximum, 80 for the Punk API and 200 for Open Brewery DB, with a 400,
    and answers like [all_up] otherwise. *)
Definition strict_sources : network :=
  fun r =>
    let maximum :=
      if String.prefix "https://api.openbrewerydb.org" (url r) then 200 else 80 in
    match int_param "per_page" r with
    | Some per_page => if per_page >? maximum then Http 400 None else all_up r
    | None => all_up r
    end.

(** A beer whose yeast carries none of the marker words, and a brewery
    whose type is not in the mapping. *)
Definition kveik_beer : json :=
  JDict [("id", JInt 2); ("name", JStr "Fjord");
         ("ingredients", JDict [("yeast", JStr "Voss Kveik")])].
Definition taproom_brewery : json :=
  JDict [("id", JStr "9c5a66c8"); ("name", JStr "Tap Haus");
         ("brewery_type", JStr "taproom"); ("state", JStr "Oregon")].

(** A page request of the extractor under its default configuration. *)
Definition sample_page_request : request :=
  PunkAPIExtractor.page_request default_extractor None None 1 80.

(** The parameters of [search("stone", limit=5)], in two insertion orders. *)
Definition search_params : list (string * param) :=
  [("query", PStr "stone"); ("per_page", PInt 5)].
Definition search_params_swapped : list (string * param) :=
  [("per_page", PInt 5); ("query", PStr "stone")].

(** The system status that [initialize_cache] stores. *)
Definition sample_status : json :=
  JDict [("server", JStr "development"); ("status", JStr "healthy")].

(** ** Sample rows *)

Definition sample_row (id nm : string) (ts : Z) (version : string)
    : RemoveDuplicates.row := {|
  RemoveDuplicates.beer_id := id;
  RemoveDuplicates.name := nm;
  RemoveDuplicates.processed_at := ts;
  RemoveDuplicates.columns := [("data_version", JStr version)]
|}.

(** Two loads of the same beer with the same [processed_at], and an older
    third one. *)
Definition buzz_v1 := sample_row "1" "Buzz" 20 "v1.0_punk_api".
Definition buzz_v2 := sample_row "1" "Buzz" 20 "v2.0_punk_api".
Definition buzz_old := sample_row "1" "Buzz" 10 "v0.9_punk_api".
Definition trashy := sample_row "2" "Trashy Blonde" 15 "v1.0_punk_api".

(** ** Vocabulary of the trace properties *)

(** What a reply hands to [_fetch_page_with_retry]: the body of a
    decodable 200. *)
Definition punk_delivers (resp : response (list json)) : list json :=
  match resp with
  | Http status (Some data) => if status =? 200 then data else []
  | _ => []
  end.

(** What a reply hands to [extract_all_breweries]: the body of a decodable
    reply whose status [raise_for_status] lets through. *)
Definition loader_delivers (resp : response (list json)) : list json :=
  match resp with
  | Http status (Some data) => if raises_for_status status then [] else data
  | _ => []
  end.

(** The records the replies to the GETs of a trace delivered, in the order
    of the requests. *)
Fixpoint delivered (delivers : response (list json) -> list json) (srv : server)
    (t : trace) : list json :=
  match t with
  | [] => []
  | EvGet r :: earlier =>
      delivered delivers srv earlier ++ delivers (srv (requests_issued earlier) r)
  | EvSleep _ :: earlier => delivered delivers srv earlier
  end.

(** The same for the page requests of a trace alone: a GET without a
    [page] parameter counts as a request of the run and delivers nothing. *)
Fixpoint delivered_pages (delivers : response (list json) -> list json)
    (srv : server) (t : trace) : list json :=
  match t with
  | [] => []
  | EvGet r :: earlier =>
      delivered_pages delivers srv earlier
        ++ (if is_page_request (EvGet r)
            then delivers (srv (requests_issued earlier) r)
            else [])
  | EvSleep _ :: earlier => delivered_pages delivers srv earlier
  end.

(** The page numbers the GETs of a trace asked for, in the order of the
    requests. *)
Fixpoint requested_pages (t : trace) : list Z :=
  match t with
  | [] => []
  | EvGet r :: earlier =>
      requested_pages earlier
        ++ match int_param "page" r with Some page => [page] | None => [] end
  | EvSleep _ :: earlier => requested_pages earlier
  end.

(** Pages [first], [first + 1], ... ([count] of them). *)
Fixpoint pages_from (first : Z) (count : nat) : list Z :=
  match count with
  | O => []
  | S count' => first :: pages_from (first + 1) count'
  end.

(** The estimate fields of a record. *)
Definition abv_of (record : json) : option Q :=
  match json_field "abv" record with
  | Some (JFloat x) => Some x
  | _ => None
  end.

Definition ibu_of (record : json) : option Z :=
  match json_field "ibu" record with
  | Some (JInt n) => Some n
  | _ => None
  end.

(** A reply on which the [try] of [extract_all_breweries] raises. *)
Definition loader_raises (resp : response (list json)) : bool :=
  match resp with
  | Http status (Some _) => raises_for_status status
  | _ => true
  end.

(** A source that answers 429 to the first [failures] GETs of a run and
    serves [records] from then on. *)
Definition throttled_source (failures : nat) (records : list json) : server :=
  fun n r => if (n <? failures)%nat then Http 429 None else mock_source records n r.

(** A source whose pages are always full, whatever page is asked for. *)
Definition endless_source (page : list json) : server :=
  fun _ _ => Http 200 (Some page).

(** The extractor configured with no attempt at all. *)
Definition no_retry_extractor : PunkAPIExtractor.extractor := {|
  PunkAPIExtractor.base_url := "https://api.punkapi.com/v2";
  PunkAPIExtractor.timeout := 30;
  PunkAPIExtractor.retry_attempts := 0;
  PunkAPIExtractor.rate_limit_delay := 1
|}.

(** A source that answers 503 to everything. *)
Definition unavailable_source : server := fun _ _ => Http 503 None.

(** ** Vocabulary of the adapter failures *)

Definition is_str (v : json) : bool :=
  match v with JStr _ => true | _ => false end.

(** A value that cannot be a dict key. *)
Definition unhashable (v : json) : bool :=
  match v with JList _ | JDict _ => true | _ => false end.

(** A truthy value that is not a string: what [', '.join] rejects among
    the address parts it is given. *)
Definition bad_part (v : json) : bool := truthy v && negb (is_str v).

(** The breweries on which [FullDatasetLoader.transform_brewery_to_beer]
    raises: a value that is not a dict, an unhashable [brewery_type], a
    [state] that is present and not a string, or a street, city or postal
    code that is neither empty nor a string. *)
Definition loader_transform_raises (brewery : json) : bool :=
  match brewery with
  | JDict b =>
      unhashable (dict_get "brewery_type" (JStr "unknown") b)
      || negb (is_str (dict_get "state" (JStr "") b))
      || bad_part (dict_get "street" (JStr "") b)
      || bad_part (dict_get "city" (JStr "") b)
      || bad_part (dict_get "postal_code" (JStr "") b)
  | _ => true
  end.

(** A network that serves one well-formed and one malformed beer. *)
Definition one_bad_beer : network :=
  fun _ => Http 200 (Some (JList [sample_beer; JDict [("ingredients", JNull)]])).

(** A brewery whose state is null, as Open Brewery DB has them. *)
Definition stateless_brewery : json :=
  JDict [("id", JStr "0759476d"); ("name", JStr "Galway Bay Brewery");
         ("brewery_type", JStr "micro"); ("state", JNull)].

(** The requests by which [test_api_connectivity] probes the two sources. *)
Definition punk_probe : request :=
  Get (MultiAPIExtractor.punk_base_url +:+ "/beers/1") [].
Definition openbrewery_probe : request :=
  Get (MultiAPIExtractor.openbrewery_base_url +:+ "/breweries?per_page=1") [].

(** A reply on which the [try] of [_make_request] raises. *)
Definition request_fails (resp : response json) : bool :=
  match resp with
  | Http status (Some _) => raises_for_status status
  | _ => true
  end.

(** The request [_make_request] sends for an endpoint and its parameters. *)
Definition api_request (self : EnhancedAPIService.service) (endpoint : string)
    (params : list (string * param)) : request :=
  Get (EnhancedAPIService.open_brewery_base_url self +:+ endpoint) params.

(** A network that finds one brewery for every search. *)
Definition one_result : network :=
  fun _ => Http 200 (Some (JList [sample_brewery])).

(** Seconds slept in a trace. *)
Fixpoint slept (t : trace) : Q :=
  match t with
  | [] => 0
  | EvSleep seconds :: earlier => seconds + slept earlier
  | EvGet _ :: earlier => slept earlier
  end.

(** The most [_fetch_page_with_retry] can sleep over its [todo] remaining
    attempts, numbered from [attempt]: [2 ** attempt] when throttled, and
    [2 ** attempt] again before the next attempt, at each of them. *)
Fixpoint backoff_bound (retry_attempts : Z) (todo : nat) (attempt : Z) : Z :=
  match todo with
  | O => 0
  | S todo' =>
      2 ^ attempt
      + (if attempt <? retry_attempts - 1 then 2 ^ attempt else 0)
      + backoff_bound retry_attempts todo' (attempt + 1)
  end.

(** * Properties *)

(** ** Pagination against a mock source *)
Section MockPagination.

Variable records : list json.

Lemma page_of_nat (k : nat) (per_page : Z) :
  0 < per_page ->
  page_of records (Z.of_nat k + 1) per_page
  = take (Z.to_nat per_page) (drop (k * Z.to_nat per_page) records).
Proof.
  intros Hpp. unfold page_of. do 2 f_equal.
  replace (Z.of_nat k + 1 - 1) with (Z.of_nat k) by lia.
  rewrite Z2Nat.inj_mul by lia. now rewrite Nat2Z.id.
Qed.

Lemma page_of_length (k : nat) (per_page : Z) :
  0 < per_page ->
  length (page_of records (Z.of_nat k + 1) per_page)
  = Nat.min (Z.to_nat per_page) (length records - k * Z.to_nat per_page).
Proof.
  intros Hpp. rewrite page_of_nat by done.
  now rewrite length_take, length_drop.
Qed.

Lemma take_page_of (k : nat) (per_page : Z) :
  0 < per_page ->
  take (k * Z.to_nat per_page) records ++ page_of records (Z.of_nat k + 1) per_page
  = take (S k * Z.to_nat per_page) records.
Proof.
  intros Hpp. rewrite page_of_nat by done.
  rewrite take_take_drop. f_equal. lia.
Qed.

End MockPagination.

Lemma page_requests_get (r : request) (page : Z) (t : trace) :
  int_param "page" r = Some page ->
  page_requests (EvGet r :: t) = page_requests t + 1.
Proof.
  intros Hpage. unfold page_requests. cbn [List.filter is_page_request].
  rewrite Hpage. cbn [length]. lia.
Qed.

Lemma page_requests_other (r : request) (t : trace) :
  int_param "page" r = None ->
  page_requests (EvGet r :: t) = page_requests t.
Proof.
  intros Hpage. unfold page_requests. cbn [List.filter is_page_request].
  now rewrite Hpage.
Qed.

Lemma page_requests_sleep (s : Q) (t : trace) :
  page_requests (EvSleep s :: t) = page_requests t.
Proof. reflexivity. Qed.

Section PunkMockRun.
Import PunkAPIExtractor.

Variable self : extractor.
Variable records : list json.
Variables start_date end_date : option string.
Variable page_size : Z.
Hypothesis retry_once : 1 <= retry_attempts self.
Hypothesis page_size_pos : 0 < page_size.

Let P := Z.to_nat page_size.
Let run := extract_loop self (mock_source records) start_date end_date page_size.


Lemma requests_issued_get (r : request) (t : trace) :
  requests_issued (EvGet r :: t) = S (requests_issued t).
Proof. reflexivity. Qed.

Lemma requests_issued_sleep (s : Q) (t : trace) :
  requests_issued (EvSleep s :: t) = requests_issued t.
Proof. reflexivity. Qed.



End PunkMockRun.

Section LoaderMockRun.
Import FullDatasetLoader.

Variable self : loader.
Variable records : list json.
Hypothesis batch_size_pos : 0 < batch_size self.

Let P := Z.to_nat (batch_size self).
Let run := extract_loop self (mock_source records).



End LoaderMockRun.

Section LoaderAnySource.
Import FullDatasetLoader.

Variable self : loader.
Variable srv : server.

Lemma try_page_requests (page : Z) (all_breweries : list json) (t : trace) :
  requests_issued (snd (try_page self srv page all_breweries t))
  = S (requests_issued t).
Proof.
  unfold try_page, bind, http_get. cbn.
  destruct (srv _ _) as [status [[|x l]|]| |]; cbn;
    repeat (destruct (_ : bool); cbn); reflexivity.
Qed.

Lemma try_page_page_requests (page : Z) (all_breweries : list json) (t : trace) :
  page_requests (snd (try_page self srv page all_breweries t))
  = page_requests t + 1.
Proof.
  assert (Hget : page_requests (EvGet (page_request self page) :: t)
                 = page_requests t + 1)
    by now apply (page_requests_get _ page).
  unfold try_page, bind, http_get.
  destruct (srv _ _) as [status [[|x l]|]| |]; cbn [snd ret sleep];
    repeat (destruct (_ : bool); cbn [snd ret sleep]);
    rewrite ?page_requests_sleep; exact Hget.
Qed.

(** [get_total_count] sends one GET, which is not a page request. *)
Lemma get_total_count_trace (t : trace) :
  snd (get_total_count self srv t) = EvGet meta_request :: t.
Proof.
  unfold get_total_count, bind, http_get.
  destruct (srv _ _) as [status [meta_data|]| |]; cbn [snd ret];
    try destruct (raises_for_status status); reflexivity.
Qed.

Lemma extract_all_breweries_loop (fuel : nat) :
  extract_all_breweries self srv fuel
  = extract_loop self srv fuel 1 [] [EvGet meta_request].
Proof.
  unfold extract_all_breweries.
  pose proof (get_total_count_trace []) as Htrace.
  destruct (get_total_count self srv []) as [total_count t].
  cbn [snd] in Htrace. now rewrite Htrace.
Qed.


End LoaderAnySource.





(** ** Failing pages *)
Section FailingAttempts.
Import PunkAPIExtractor.

Variable self : extractor.
Variable srv : server.
Variable r : request.

Lemma try_attempt_failed (attempt : Z) (t : trace) :
  failed (srv (requests_issued t) r) = true ->
  exists t',
    try_attempt srv r attempt t = (FallThrough, t')
    /\ requests_issued t' = S (requests_issued t).
Proof.
  unfold try_attempt, bind, http_get, failed.
  destruct (srv (requests_issued t) r) as [status [data|]| |]; cbn; intros Hfail.
  - destruct (status =? 200); [done|]. destruct (status =? 429); cbn; eauto.
  - destruct (status =? 200); [eauto|]. destruct (status =? 429); cbn; eauto.
  - eauto.
  - eauto.
Qed.

(** A page whose every attempt fails costs one GET per attempt and comes
    back as the empty list: the failure is not raised. *)
Lemma attempts_all_failed (todo : nat) :
  (forall n, failed (srv n r) = true) ->
  forall (attempt : Z) (t : trace),
  exists t',
    attempts self srv r todo attempt t = ([], t')
    /\ requests_issued t' = (requests_issued t + todo)%nat.
Proof.
  intros Hfail. induction todo as [|todo IH]; intros attempt t.
  - exists t. split; [done|lia].
  - cbn [attempts]. unfold bind at 1.
    destruct (try_attempt_failed attempt t (Hfail _)) as (t1 & -> & Hreq1).
    unfold bind at 1.
    destruct (attempt <? retry_attempts self - 1); cbn [sleep ret].
    + destruct (IH (attempt + 1) (EvSleep (inject_Z (2 ^ attempt)) :: t1))
        as (t' & -> & Hreq).
      exists t'. split; [done|]. rewrite Hreq, requests_issued_sleep. lia.
    + destruct (IH (attempt + 1) t1) as (t' & -> & Hreq).
      exists t'. split; [done|]. lia.
Qed.

(** The trace of a page that gets the same non-200, non-429 status on
    every attempt. *)
Lemma attempts_status_trace (status : Z) (todo : nat) :
  status <> 200 -> status <> 429 ->
  (forall n, exists body, srv n r = Http status body) ->
  forall (attempt : Z) (t : trace),
    attempts self srv r todo attempt t
    = ([], retry_trace (retry_attempts self) r todo attempt ++ t).
Proof.
  intros H200 H429 Hsrv. induction todo as [|todo IH]; intros attempt t; [done|].
  cbn [attempts retry_trace]. unfold bind at 1.
  unfold try_attempt, bind, http_get.
  destruct (Hsrv (requests_issued t)) as [body ->].
  destruct (Z.eqb_spec status 200); [done|].
  destruct (Z.eqb_spec status 429); [done|].
  cbn [ret]. destruct (attempt <? retry_attempts self - 1); cbn [sleep ret].
  - rewrite IH. f_equal. now rewrite <- !app_assoc.
  - rewrite IH. f_equal. now rewrite <- !app_assoc.
Qed.

Lemma retry_trace_requests (R : Z) (todo : nat) (attempt : Z) :
  requests_issued (retry_trace R r todo attempt) = todo.
Proof.
  revert attempt. induction todo as [|todo IH]; intros attempt; [done|].
  cbn [retry_trace]. unfold requests_issued in *.
  rewrite !List.filter_app, !length_app, IH.
  destruct (attempt <? R - 1); cbn; lia.
Qed.

End FailingAttempts.

(** C6 (as amended).  A page request that gets an HTTP 4xx status other
    than 429 on every attempt is retried like any other non-200 reply:
    [_fetch_page_with_retry] issues [retry_attempts] GETs for it, sleeping
    [2 ** attempt] seconds after each attempt but the last, and then hands
    back the empty list instead of raising. *)
Theorem client_error_is_retried
    (self : PunkAPIExtractor.extractor) (srv : server) (r : request)
    (status : Z) (t : trace) :
  400 <= status < 500 ->
  status <> 429 ->
  (forall n, exists body, srv n r = Http status body) ->
  let attempts := Z.to_nat (PunkAPIExtractor.retry_attempts self) in
  let retries := retry_trace (PunkAPIExtractor.retry_attempts self) r attempts 0 in
  PunkAPIExtractor._fetch_page_with_retry self srv r t = ([], retries ++ t)
  /\ requests_issued retries = attempts.
Proof.
  intros Hclient H429 Hsrv attempts retries. split.
  - unfold PunkAPIExtractor._fetch_page_with_retry.
    apply (attempts_status_trace self srv r status); [lia|done|done].
  - apply retry_trace_requests.
Qed.

(** A 404 under the default configuration: three GETs, with backoffs of
    one and two seconds between them. *)
Lemma client_error_is_retried_witness :
  (400 <= 404 < 500 /\ 404 <> 429)
  /\ PunkAPIExtractor._fetch_page_with_retry default_extractor
       (fun _ _ => Http 404 None) sample_page_request []
     = ([], [EvGet sample_page_request; EvSleep 2;
             EvGet sample_page_request; EvSleep 1;
             EvGet sample_page_request]).
Proof.
  split; [lia|].
  apply (client_error_is_retried default_extractor (fun _ _ => Http 404 None)
           sample_page_request 404 []);
    [lia|lia|intros n; exists None; reflexivity].
Defined.

(** C6 as stated fails: a page that keeps answering 404 is requested
    [retry_attempts] times, not once; and in [_extract_async] the empty
    result then ends the collection, so that page 2 is never asked for. *)
Lemma client_error_is_retried_counterexample :
  requests_issued
    (snd (PunkAPIExtractor._fetch_page_with_retry default_extractor
            (fun _ _ => Http 404 None)
            (PunkAPIExtractor.page_request default_extractor None None 1 80) []))
  = 3%nat
  /\ PunkAPIExtractor._extract_async default_extractor
       (failing_page_source (numbered 4) 1 (Http 404 None)) None None 2 10
     = Some ([], let r := PunkAPIExtractor.page_request default_extractor None None 1 2 in
                 [EvGet r; EvSleep 2; EvGet r; EvSleep 1; EvGet r]).
Proof. split; vm_compute; reflexivity. Qed.

Section PunkFailingPage.
Import PunkAPIExtractor.

Variable self : extractor.
Variable records : list json.
Variables start_date end_date : option string.
Variable page_size : Z.
Variable bad_page : nat.
Variable failure : response (list json).
Hypothesis retry_once : 1 <= retry_attempts self.
Hypothesis page_size_pos : 0 < page_size.
Hypothesis failure_fails : failed failure = true.

Let P := Z.to_nat page_size.
Let source := failing_page_source records (Z.of_nat bad_page) failure.
Let run := extract_loop self source start_date end_date page_size.

Lemma fetch_other_page (page : Z) (t : trace) :
  page <> Z.of_nat bad_page ->
  _fetch_page_with_retry self source
    (page_request self start_date end_date page page_size) t
  = (page_of records page page_size,
     EvGet (page_request self start_date end_date page page_size) :: t).
Proof.
  intros Hother. unfold _fetch_page_with_retry.
  destruct (Z.to_nat (retry_attempts self)) as [|n] eqn:E; [lia|].
  cbn [attempts]. unfold bind, try_attempt, http_get, bind, source, failing_page_source.
  cbn. destruct (Z.eqb_spec page (Z.of_nat bad_page)); [done|]. reflexivity.
Qed.

Lemma fetch_bad_page (t : trace) :
  fst (_fetch_page_with_retry self source
         (page_request self start_date end_date (Z.of_nat bad_page) page_size) t)
  = [].
Proof.
  unfold _fetch_page_with_retry.
  destruct (attempts_all_failed self source
              (page_request self start_date end_date (Z.of_nat bad_page) page_size)
              (Z.to_nat (retry_attempts self))) with (attempt := 0) (t := t)
    as (t' & -> & _); [|done].
  intros n. unfold source, failing_page_source. cbn.
  now rewrite Z.eqb_refl.
Qed.

(** With the first [k] pages collected and [j] full pages left before the
    failing one, the loop returns the pages before the failing one and
    nothing after it. *)
Lemma failing_extract_loop (j : nat) :
  forall (k fuel : nat) (t : trace),
    (k + j + 1 = bad_page)%nat -> ((k + j) * P <= length records)%nat ->
    (j < fuel)%nat ->
    collected (run fuel (Z.of_nat k + 1) (take (k * P) records) t)
    = Some (take ((bad_page - 1) * P) records).
Proof.
  assert (HP : (0 < P)%nat) by (subst P; lia).
  induction j as [|j IH]; intros k fuel t Hbad Hlen Hfuel;
    (destruct fuel as [|fuel]; [lia|]); subst run; cbn [extract_loop].
  - replace (Z.of_nat k + 1) with (Z.of_nat bad_page) by lia.
    pose proof (fetch_bad_page t) as Hfetch.
    destruct (_fetch_page_with_retry _ _ _ t) as [page_data t1].
    cbn in Hfetch. subst page_data. cbn.
    now replace (bad_page - 1)%nat with k by lia.
  - rewrite fetch_other_page by lia.
    pose proof (page_of_length records k page_size page_size_pos) as Hpl.
    fold P in Hpl.
    assert (Hfull : length (page_of records (Z.of_nat k + 1) page_size) = P) by nia.
    destruct (page_of records (Z.of_nat k + 1) page_size) as [|x l] eqn:Epage;
      [simpl in Hfull; lia|].
    destruct (Z.ltb_spec (Z.of_nat (length (x :: l))) page_size) as [Hlt|_]; [lia|].
    cbn [sleep]. rewrite <- Epage.
    pose proof (take_page_of records k page_size page_size_pos) as Htake.
    fold P in Htake. rewrite Htake.
    replace (Z.of_nat k + 1 + 1) with (Z.of_nat (S k) + 1) by lia.
    apply IH; lia.
Qed.

(** Whatever the source holds after a page that fails on every attempt,
    [_extract_async] returns the pages before it only. *)
Lemma extract_async_stops_at_failed_page (fuel : nat) :
  (1 <= bad_page)%nat -> ((bad_page - 1) * P <= length records)%nat ->
  (bad_page <= fuel)%nat ->
  collected (_extract_async self source start_date end_date page_size fuel)
  = Some (take ((bad_page - 1) * P) records).
Proof.
  intros Hbad Hlen Hfuel. unfold _extract_async.
  apply (failing_extract_loop (bad_page - 1) 0 fuel []); [lia| |lia].
  now replace (0 + (bad_page - 1))%nat with (bad_page - 1)%nat by lia.
Qed.

End PunkFailingPage.

(** C2 at the failing input.  Five pages of two records, page 3 failing on
    every attempt: [_extract_async] takes the empty result of page 3 for the
    end of the data and returns pages 1 and 2 only, never asking for pages
    4 and 5.  [extract_all_breweries], on five pages of 200 with the same
    failure, skips page 3 and returns pages 1, 2, 4 and 5. *)
Theorem failed_page_ends_extract_async :
  Forall (fun failure =>
     let run := PunkAPIExtractor._extract_async default_extractor
                  (failing_page_source (numbered 10) 3 failure) None None 2 10 in
     collected run = Some (take 4 (numbered 10)) /\ issued run = Some 5)
    [Http 500 None; Http 404 None; Timeout; NetworkError]
  /\ Forall (fun failure =>
        let run := FullDatasetLoader.extract_all_breweries FullDatasetLoader.init
                     (failing_page_source (numbered 1000) 3 failure) 50 in
        collected run = Some (take 400 (numbered 1000) ++ drop 600 (numbered 1000))
        /\ issued run = Some 6)
       [Http 500 None; Http 404 None; Timeout; NetworkError].
Proof.
  split; repeat constructor; vm_compute; reflexivity.
Qed.

(** ** Deduplication *)
Section Dedup.
Import RemoveDuplicates.

Implicit Types (r : row) (k : string * string) (seen window table : list row).

Lemma same_key_true k r : same_key k r = true <-> dedup_key r = k.
Proof. unfold same_key. apply bool_decide_eq_true. Qed.

Lemma count_key_zero k rows : count_key k rows = 0%nat <-> k ∉ keys rows.
Proof.
  unfold count_key, keys. induction rows as [|x rows IH]; cbn.
  - split; [intros _; apply not_elem_of_nil|done].
  - rewrite not_elem_of_cons. destruct (same_key k x) eqn:E; cbn.
    + apply same_key_true in E. split; [lia|intros [Hne _]; congruence].
    + rewrite IH. split; [|now intros [_ ?]]. intros Hnin. split; [|done].
      intros ->. rewrite <- Bool.not_true_iff_false in E. apply E.
      now apply same_key_true.
Qed.

Lemma count_key_nodup k rows : NoDup (keys rows) -> (count_key k rows <= 1)%nat.
Proof.
  unfold keys. induction rows as [|x rows IH]; cbn; [intros _; unfold count_key; cbn; lia|].
  rewrite NoDup_cons. intros [Hnin Hnd]. specialize (IH Hnd).
  unfold count_key in *. cbn. destruct (same_key k x) eqn:E; cbn; [|lia].
  apply same_key_true in E. subst k.
  apply count_key_zero in Hnin. unfold count_key in Hnin. lia.
Qed.

Lemma select_first_cons seen r window :
  select_first (row_numbers seen (r :: window))
  = if (count_key (dedup_key r) seen =? 0)%nat
    then r :: select_first (row_numbers (r :: seen) window)
    else select_first (row_numbers (r :: seen) window).
Proof.
  unfold select_first. cbn.
  now destruct (count_key (dedup_key r) seen).
Qed.

(** A row that is kept was in the window and opens its partition. *)
Lemma select_first_elem window :
  forall seen r,
    r ∈ select_first (row_numbers seen window) ->
    r ∈ window /\ dedup_key r ∉ keys seen.
Proof.
  induction window as [|x window IH]; intros seen r Hin.
  - cbn in Hin. now apply elem_of_nil in Hin.
  - rewrite select_first_cons in Hin.
    assert (Hrest : r ∈ select_first (row_numbers (x :: seen) window) ->
                    r ∈ x :: window /\ dedup_key r ∉ keys seen).
    { intros H. apply IH in H as [Hw Hk]. split; [now right|].
      unfold keys in *. cbn in Hk. rewrite not_elem_of_cons in Hk. exact (proj2 Hk). }
    destruct (Nat.eqb_spec (count_key (dedup_key x) seen) 0) as [E|E]; [|auto].
    apply elem_of_cons in Hin as [->|Hin]; [|auto].
    split; [now left|]. now apply count_key_zero.
Qed.

(** At most one row per key is kept. *)
Lemma select_first_nodup window :
  forall seen, NoDup (keys (select_first (row_numbers seen window))).
Proof.
  induction window as [|x window IH]; intros seen; [constructor|].
  rewrite select_first_cons.
  destruct (count_key (dedup_key x) seen =? 0)%nat; [|apply IH].
  unfold keys. cbn. apply NoDup_cons. split; [|apply IH].
  intros Hin. apply list_elem_of_fmap in Hin as (r & Hk & Hr).
  apply select_first_elem in Hr as [_ Hnin]. apply Hnin.
  unfold keys. cbn. rewrite <- Hk. now left.
Qed.

Lemma ordered_desc_cons r window :
  ordered_desc (r :: window) = true <->
  (forall r', r' ∈ window -> dedup_key r' = dedup_key r ->
              processed_at r' <= processed_at r)
  /\ ordered_desc window = true.
Proof.
  cbn. rewrite andb_true_iff, forallb_forall.
  split; intros [Hall Hrest]; (split; [|done]).
  - intros r' Hin Hk. apply list_elem_of_In in Hin. specialize (Hall r' Hin).
    apply same_key_true in Hk. rewrite Hk in Hall. cbn in Hall. lia.
  - intros r' Hin. apply list_elem_of_In in Hin.
    destruct (same_key (dedup_key r) r') eqn:E; [|done]. cbn.
    apply same_key_true in E. specialize (Hall r' Hin E). lia.
Qed.

(** A kept row has the greatest timestamp of its partition. *)
Lemma select_first_latest window :
  forall seen r,
    ordered_desc window = true ->
    r ∈ select_first (row_numbers seen window) ->
    forall r', r' ∈ window -> dedup_key r' = dedup_key r ->
               processed_at r' <= processed_at r.
Proof.
  induction window as [|x window IH]; intros seen r Hord Hin r' Hin' Hk.
  - now apply elem_of_nil in Hin'.
  - apply ordered_desc_cons in Hord as [Hx Hord].
    rewrite select_first_cons in Hin.
    assert (Hrest : r ∈ select_first (row_numbers (x :: seen) window) ->
                    processed_at r' <= processed_at r).
    { intros H. pose proof (select_first_elem _ _ _ H) as [_ Hnin].
      unfold keys in Hnin. cbn in Hnin. rewrite not_elem_of_cons in Hnin.
      apply elem_of_cons in Hin' as [->|Hin']; [destruct Hnin as [Hne _]; congruence|].
      now apply (IH (x :: seen) r). }
    destruct (count_key (dedup_key x) seen =? 0)%nat; [|auto].
    apply elem_of_cons in Hin as [->|Hin]; [|auto].
    apply elem_of_cons in Hin' as [->|Hin']; [lia|auto].
Qed.

(** Every partition not yet opened keeps a row. *)
Lemma select_first_covers window :
  forall seen r,
    r ∈ window -> dedup_key r ∉ keys seen ->
    exists r', r' ∈ select_first (row_numbers seen window)
               /\ dedup_key r' = dedup_key r.
Proof.
  induction window as [|x window IH]; intros seen r Hin Hnin.
  - now apply elem_of_nil in Hin.
  - rewrite select_first_cons.
    destruct (decide (dedup_key r = dedup_key x)) as [Heq|Hne].
    + rewrite <- Heq. apply count_key_zero in Hnin. rewrite Hnin. cbn.
      exists x. split; [now left|done].
    + apply elem_of_cons in Hin as [->|Hin]; [done|].
      destruct (IH (x :: seen) r Hin) as (r' & Hr' & Hk).
      { unfold keys in *. cbn. rewrite not_elem_of_cons. now split. }
      exists r'. split; [|done].
      destruct (count_key (dedup_key x) seen =? 0)%nat; [now right|done].
Qed.

(** With one row per partition every row has number 1. *)
Lemma select_first_id window :
  forall seen,
    NoDup (keys window) -> (forall r, r ∈ window -> dedup_key r ∉ keys seen) ->
    select_first (row_numbers seen window) = window.
Proof.
  induction window as [|x window IH]; intros seen Hnd Hfresh; [done|].
  rewrite select_first_cons.
  assert (Hx : count_key (dedup_key x) seen = 0%nat)
    by (apply count_key_zero, Hfresh; now left).
  rewrite Hx. cbn. f_equal.
  unfold keys in Hnd. cbn in Hnd. apply NoDup_cons in Hnd as [Hnin Hnd].
  apply IH; [done|]. intros r Hr. unfold keys. cbn. rewrite not_elem_of_cons.
  split; [|apply Hfresh; now right].
  intros Heq. apply Hnin. rewrite <- Heq. now apply list_elem_of_fmap_2.
Qed.

Lemma duplicates_found_nodup table :
  NoDup (keys table) -> duplicates_found table = false.
Proof.
  intros Hnd. unfold duplicates_found.
  apply Bool.not_true_iff_false. intros H.
  apply existsb_exists in H as (r & _ & Hgt).
  pose proof (count_key_nodup (dedup_key r) table Hnd).
  apply Nat.ltb_lt in Hgt. lia.
Qed.

(** The check of [remove_duplicates] finds nothing after a run. *)
Lemma remove_duplicates_clean window table :
  duplicates_found (remove_duplicates window table) = false.
Proof.
  unfold remove_duplicates.
  destruct (duplicates_found table) eqn:E; cbn; [|done].
  apply duplicates_found_nodup, select_first_nodup.
Qed.

End Dedup.

Section DedupTheorems.
Import RemoveDuplicates.

Implicit Types (r : row) (window table : list row).

Lemma count_key_cons k x rows :
  count_key k (x :: rows)
  = ((if same_key k x then 1 else 0) + count_key k rows)%nat.
Proof. unfold count_key. cbn. now destruct (same_key k x). Qed.

Lemma duplicates_found_false table :
  duplicates_found table = false -> NoDup (keys table).
Proof.
  unfold duplicates_found. intros H.
  assert (Hle : forall r, r ∈ table -> (count_key (dedup_key r) table <= 1)%nat).
  { intros r Hr. apply Nat.ltb_ge. apply Bool.not_true_iff_false. intros Hgt.
    apply Bool.not_true_iff_false in H. apply H, existsb_exists.
    exists r. split; [now apply list_elem_of_In|done]. }
  clear H. induction table as [|x table IH]; [constructor|].
  unfold keys. cbn. apply NoDup_cons. split.
  - apply count_key_zero.
    specialize (Hle x ltac:(now left)). rewrite count_key_cons in Hle.
    replace (same_key (dedup_key x) x) with true in Hle
      by (symmetry; now apply same_key_true). lia.
  - apply IH. intros r Hr. specialize (Hle r ltac:(now right)).
    rewrite count_key_cons in Hle. lia.
Qed.

Lemma nodup_keys_inj table r r' :
  NoDup (keys table) -> r ∈ table -> r' ∈ table ->
  dedup_key r' = dedup_key r -> r' = r.
Proof.
  unfold keys. induction table as [|x table IH]; intros Hnd Hr Hr' Hk.
  - now apply elem_of_nil in Hr.
  - cbn in Hnd. apply NoDup_cons in Hnd as [Hnin Hnd].
    apply elem_of_cons in Hr as [->|Hr]; apply elem_of_cons in Hr' as [->|Hr'].
    + done.
    + exfalso. apply Hnin. rewrite <- Hk. now apply list_elem_of_fmap_2.
    + exfalso. apply Hnin. rewrite Hk. now apply list_elem_of_fmap_2.
    + now apply IH.
Qed.

(** Every table has a legal window order: sorting the whole table by
    [processed_at], latest first, gives one. *)
Lemma window_order_exists table : exists window, window_order table window.
Proof.
  set (R := fun a b : row => processed_at b <= processed_at a).
  assert (Htot : Total R) by (intros a b; unfold R; lia).
  assert (Htrans : Transitive R) by (intros a b c; unfold R; lia).
  assert (Hdec : forall a b, Decision (R a b)) by (intros a b; unfold R; apply _).
  exists (merge_sort R table). split.
  - symmetry. apply merge_sort_Permutation.
  - pose proof (StronglySorted_merge_sort R table) as Hs.
    induction Hs as [|x l Hs IH Hall]; [done|].
    apply ordered_desc_cons. split; [|exact IH].
    intros r' Hr' _. rewrite Forall_forall in Hall. now apply Hall.
Qed.

(** C3 (as amended).  After [remove_duplicates], whatever legal order
    the engine numbers the rows in: at most one row per (beer_id, name)
    is left; every row left was in the table and no row of the table with
    its key has a later [processed_at]; and every key of the table still
    has its row.  Which of several rows tied at the latest [processed_at]
    is the one left is not fixed by the statement. *)
Theorem dedup_keeps_latest_per_key table window :
  window_order table window ->
  let result := remove_duplicates window table in
  NoDup (keys result)
  /\ (forall r, r ∈ result ->
        r ∈ table
        /\ forall r', r' ∈ table -> dedup_key r' = dedup_key r ->
                      processed_at r' <= processed_at r)
  /\ (forall r, r ∈ table ->
        exists r', r' ∈ result /\ dedup_key r' = dedup_key r).
Proof.
  intros [Hperm Hord] result. subst result. unfold remove_duplicates.
  destruct (duplicates_found table) eqn:Hdup; cbn [negb].
  - unfold dedup_query. split; [apply select_first_nodup|]. split.
    + intros r Hr. split.
      * apply select_first_elem in Hr as [Hr _]. now rewrite Hperm.
      * intros r' Hr' Hk. rewrite Hperm in Hr'.
        now apply (select_first_latest window [] r).
    + intros r Hr. rewrite Hperm in Hr.
      apply (select_first_covers window [] r Hr). apply not_elem_of_nil.
  - pose proof (duplicates_found_false table Hdup) as Hnd.
    split; [done|]. split.
    + intros r Hr. split; [done|]. intros r' Hr' Hk.
      rewrite (nodup_keys_inj table r r' Hnd Hr Hr' Hk). lia.
    + intros r Hr. now exists r.
Qed.

(** Three loads, two of the same beer: the later load of the beer and the
    other beer are left. *)
Lemma dedup_keeps_latest_per_key_witness :
  window_order [buzz_old; buzz_v1; trashy] [trashy; buzz_v1; buzz_old]
  /\ remove_duplicates [trashy; buzz_v1; buzz_old] [buzz_old; buzz_v1; trashy]
     = [trashy; buzz_v1]
  /\ NoDup (keys (remove_duplicates [trashy; buzz_v1; buzz_old]
                    [buzz_old; buzz_v1; trashy])).
Proof.
  assert (Hw : window_order [buzz_old; buzz_v1; trashy] [trashy; buzz_v1; buzz_old]).
  { split; [|reflexivity].
    change [buzz_old; buzz_v1; trashy] with ([buzz_old; buzz_v1] ++ [trashy]).
    rewrite (Permutation_app_comm [buzz_old; buzz_v1] [trashy]). cbn.
    apply perm_skip, perm_swap. }
  split; [exact Hw|]. split; [reflexivity|].
  exact (proj1 (dedup_keeps_latest_per_key _ _ Hw)).
Defined.

(** C3 as stated fails on the tie rule: [buzz_v1] and [buzz_v2] share key
    and [processed_at]; numbering [buzz_v2] first is a legal order for
    [ORDER BY processed_at DESC], and then [buzz_v2] is kept although
    [buzz_v1] comes first in the input, where the specification's
    Deduplicator keeps [buzz_v1]. *)
Lemma dedup_tie_counterexample :
  window_order [buzz_v1; buzz_v2] [buzz_v2; buzz_v1]
  /\ remove_duplicates [buzz_v2; buzz_v1] [buzz_v1; buzz_v2] = [buzz_v2]
  /\ SpecDeduplicator.deduplicate [buzz_v1; buzz_v2] = [buzz_v1]
  /\ buzz_v2 <> buzz_v1.
Proof.
  split; [split; [apply perm_swap|reflexivity]|].
  split; [reflexivity|]. split; [reflexivity|]. discriminate.
Qed.

(** C4.  [remove_duplicates] is idempotent: a second run, whatever order
    the engine then uses, leaves the table of the first run as it is; and
    the deduplication query itself, run on that table, returns the same
    bag of rows. *)
Theorem dedup_idempotent table window window' :
  window_order table window ->
  window_order (remove_duplicates window table) window' ->
  remove_duplicates window' (remove_duplicates window table)
  = remove_duplicates window table
  /\ Permutation (dedup_query window') (remove_duplicates window table).
Proof.
  intros Hw [Hperm' _].
  pose proof (remove_duplicates_clean window table) as Hclean. split.
  - unfold remove_duplicates at 1. now rewrite Hclean.
  - apply duplicates_found_false in Hclean.
    assert (Hnd : NoDup (keys window')).
    { unfold keys in *. now rewrite <- Hperm'. }
    unfold dedup_query. rewrite select_first_id; [now symmetry|done|].
    intros r _. apply not_elem_of_nil.
Qed.

(** The same three loads, deduplicated twice. *)
Lemma dedup_idempotent_witness :
  (window_order [buzz_old; buzz_v1; trashy] [trashy; buzz_v1; buzz_old]
   /\ window_order
        (remove_duplicates [trashy; buzz_v1; buzz_old] [buzz_old; buzz_v1; trashy])
        [buzz_v1; trashy])
  /\ remove_duplicates [buzz_v1; trashy]
       (remove_duplicates [trashy; buzz_v1; buzz_old] [buzz_old; buzz_v1; trashy])
     = remove_duplicates [trashy; buzz_v1; buzz_old] [buzz_old; buzz_v1; trashy]
  /\ remove_duplicates [trashy; buzz_v1; buzz_old] [buzz_old; buzz_v1; trashy]
     = [trashy; buzz_v1].
Proof.
  assert (Hw : window_order [buzz_old; buzz_v1; trashy] [trashy; buzz_v1; buzz_old]).
  { split; [|reflexivity].
    change [buzz_old; buzz_v1; trashy] with ([buzz_old; buzz_v1] ++ [trashy]).
    rewrite (Permutation_app_comm [buzz_old; buzz_v1] [trashy]). cbn.
    apply perm_skip, perm_swap. }
  assert (Hw' : window_order
                  (remove_duplicates [trashy; buzz_v1; buzz_old]
                     [buzz_old; buzz_v1; trashy])
                  [buzz_v1; trashy]).
  { split; [apply perm_swap|reflexivity]. }
  split; [auto|]. split; [|reflexivity].
  exact (proj1 (dedup_idempotent _ _ _ Hw Hw')).
Defined.

End DedupTheorems.

(** ** Cache keys *)
Section Fingerprint.

Lemma string_leb_trans (s1 s2 s3 : string) :
  String.leb s1 s2 = true -> String.leb s2 s3 = true -> String.leb s1 s3 = true.
Proof.
  unfold String.leb. revert s2 s3.
  induction s1 as [|c1 s1 IH]; intros [|c2 s2] [|c3 s3]; cbn; try done.
  unfold Ascii.compare.
  destruct (N.compare_spec (N_of_ascii c1) (N_of_ascii c2)) as [E12|L12|G12];
    destruct (N.compare_spec (N_of_ascii c2) (N_of_ascii c3)) as [E23|L23|G23];
    destruct (N.compare_spec (N_of_ascii c1) (N_of_ascii c3)) as [E13|L13|G13];
    try done; try lia.
  apply IH.
Qed.

#[local] Instance item_le_total : Total item_le.
Proof. intros a b. apply String.leb_total. Qed.

#[local] Instance item_le_trans : Transitive item_le.
Proof. intros a b c. apply string_leb_trans. Qed.

(** Items with distinct keys from one dict: equal when each is below the
    other. *)
Lemma item_le_antisym (items : list (string * param)) (a b : string * param) :
  NoDup (map fst items) -> a ∈ items -> b ∈ items ->
  item_le a b -> item_le b a -> a = b.
Proof.
  intros Hnd Ha Hb Hab Hba.
  pose proof (String.leb_antisym _ _ Hab Hba) as Hk.
  clear Hab Hba. induction items as [|x items IH]; [now apply elem_of_nil in Ha|].
  cbn in Hnd. apply NoDup_cons in Hnd as [Hnin Hnd].
  apply elem_of_cons in Ha as [->|Ha]; apply elem_of_cons in Hb as [->|Hb].
  - done.
  - exfalso. apply Hnin. rewrite Hk. now apply list_elem_of_fmap_2.
  - exfalso. apply Hnin. rewrite <- Hk. now apply list_elem_of_fmap_2.
  - now apply IH.
Qed.

(** [sorted] does not see the insertion order of a dict. *)
Lemma sorted_items_stable (p1 p2 : list (string * param)) :
  NoDup (map fst p1) -> Permutation p1 p2 ->
  merge_sort item_le p1 = merge_sort item_le p2.
Proof.
  intros Hnd Hperm.
  apply (StronglySorted_unique_strong item_le).
  - intros a b Ha Hb. rewrite merge_sort_Permutation in Ha, Hb.
    rewrite <- Hperm in Hb. now apply (item_le_antisym p1).
  - apply StronglySorted_merge_sort; apply _.
  - apply StronglySorted_merge_sort; apply _.
  - now rewrite !merge_sort_Permutation.
Qed.

(** C8.  Two parameter dicts with the same items, whatever the order in
    which the items were inserted, get the same cache key. *)
Theorem fingerprint_stable (endpoint : string) (p1 p2 : list (string * param)) :
  NoDup (map fst p1) ->
  Permutation p1 p2 ->
  EnhancedAPIService._get_cache_key endpoint p1
  = EnhancedAPIService._get_cache_key endpoint p2.
Proof.
  intros Hnd Hperm. unfold EnhancedAPIService._get_cache_key.
  destruct p1 as [|x1 p1], p2 as [|x2 p2]; [done| | |].
  - now apply Permutation_nil_cons in Hperm.
  - symmetry in Hperm. now apply Permutation_nil_cons in Hperm.
  - now rewrite (sorted_items_stable (x1 :: p1) (x2 :: p2) Hnd Hperm).
Qed.

(** The two insertion orders of the search parameters. *)
Lemma fingerprint_stable_witness :
  (NoDup (map fst search_params) /\ Permutation search_params search_params_swapped)
  /\ EnhancedAPIService._get_cache_key "/search" search_params
     = EnhancedAPIService._get_cache_key "/search" search_params_swapped
  /\ EnhancedAPIService._get_cache_key "/search" search_params_swapped
     = "/search?per_page=5&query=stone".
Proof.
  assert (Hnd : NoDup (map fst search_params)).
  { cbn. repeat constructor; rewrite ?elem_of_cons, ?elem_of_nil;
      intros Hin; repeat destruct Hin as [Hin|Hin]; done. }
  assert (Hperm : Permutation search_params search_params_swapped)
    by apply perm_swap.
  split; [auto|]. split; [|reflexivity].
  exact (fingerprint_stable "/search" _ _ Hnd Hperm).
Defined.

End Fingerprint.

(** ** Cache validity *)
Section CacheTTL.
Context `{PyBuiltins} `{FileSystem}.

Lemma Qltb_lt (x y : Q) : Qltb x y = true <-> (x < y)%Q.
Proof.
  unfold Qltb. rewrite negb_true_iff, <- Bool.not_true_iff_false, Qle_bool_iff.
  split; [apply Qnot_le_lt|apply Qlt_not_le].
Qed.

Lemma Qltb_ge (x y : Q) : Qltb x y = false <-> (y <= x)%Q.
Proof.
  unfold Qltb. rewrite negb_false_iff. apply Qle_bool_iff.
Qed.

Lemma age_below_ttl (written now ttl : Q) :
  Qltb (now - written) ttl = true <-> (now < written + ttl)%Q.
Proof. rewrite Qltb_lt. split; intros; lra. Qed.

Lemma age_reaches_ttl (written now ttl : Q) :
  Qltb (now - written) ttl = false <-> (written + ttl <= now)%Q.
Proof. rewrite Qltb_ge. split; intros; lra. Qed.

(** The file cache after a write at [written]. *)
Lemma local_cache_valid (cache : LocalCacheService.service)
    (fs : gmap string LocalCacheService.file)
    (key : string) (payload : json) (written now : Q) :
  LocalCacheService._is_cache_valid cache
    (LocalCacheService.set cache fs written key payload) now key
  = Qltb (now - written) (inject_Z (LocalCacheService.ttl_of cache key)).
Proof.
  unfold LocalCacheService._is_cache_valid, LocalCacheService.set. cbv zeta.
  now rewrite lookup_insert_eq.
Qed.

Lemma local_cache_get_after_set (cache : LocalCacheService.service)
    (fs : gmap string LocalCacheService.file)
    (key : string) (payload : json) (written now : Q) :
  LocalCacheService.get cache (LocalCacheService.set cache fs written key payload) now key
  = if Qltb (now - written) (inject_Z (LocalCacheService.ttl_of cache key))
    then Some (LocalCacheService.cache_data cache written key payload)
    else None.
Proof.
  unfold LocalCacheService.get. rewrite local_cache_valid.
  destruct (Qltb _ _); [|reflexivity]. cbn [negb].
  unfold LocalCacheService.set. now rewrite lookup_insert_eq.
Qed.

(** C7 (as amended).  An entry written at time [written] is served up
    to, and not including, [written + ttl].  [LocalCacheService.get] takes
    the TTL that [cache_ttl] gives the key (one hour when it gives none),
    and what it serves is the stored file, a wrapper that holds the
    payload under ['data'], not the payload.
    [EnhancedAPIService._make_request] takes the service's one
    [cache_ttl], whatever the endpoint and its parameters: before
    [written + cache_ttl] it returns the payload without a request, and
    from that time on the request goes to the network. *)
Theorem cache_ttl_boundary
    (cache : LocalCacheService.service) (fs : gmap string LocalCacheService.file)
    (self : EnhancedAPIService.service) (http : network) (latency : Q)
    (key endpoint : string) (params : list (string * param))
    (payload : json) (written now : Q) :
  let ttl := inject_Z (LocalCacheService.ttl_of cache key) in
  let fs' := LocalCacheService.set cache fs written key payload in
  let cache_key := EnhancedAPIService._get_cache_key endpoint params in
  let self' :=
    EnhancedAPIService.store self cache_key
      {| EnhancedAPIService.data := payload;
         EnhancedAPIService.timestamp := written |} in
  let reply := EnhancedAPIService._make_request self' http now latency endpoint params in
  ((now < written + ttl)%Q ->
     LocalCacheService.get cache fs' now key
     = Some (LocalCacheService.cache_data cache written key payload)
     /\ json_field "data" (LocalCacheService.cache_data cache written key payload)
        = Some payload
     /\ json_field "cache_key" (LocalCacheService.cache_data cache written key payload)
        = Some (JStr key)
     /\ json_field "ttl_seconds" (LocalCacheService.cache_data cache written key payload)
        = Some (JInt (LocalCacheService.ttl_of cache key)))
  /\ ((written + ttl <= now)%Q -> LocalCacheService.get cache fs' now key = None)
  /\ ((now < written + EnhancedAPIService.cache_ttl self)%Q ->
        EnhancedAPIService.returned reply = payload
        /\ EnhancedAPIService.sent reply = [])
  /\ ((written + EnhancedAPIService.cache_ttl self <= now)%Q ->
        EnhancedAPIService.sent reply
        = [Get (EnhancedAPIService.open_brewery_base_url self +:+ endpoint) params]).
Proof.
  intros ttl fs' cache_key self' reply.
  pose proof (local_cache_get_after_set cache fs key payload written now) as Hlocal.
  fold ttl fs' in Hlocal.
  assert (Hreply : reply
                   = if Qltb (now - written) (EnhancedAPIService.cache_ttl self)
                     then {| EnhancedAPIService.returned := payload;
                             EnhancedAPIService.sent := [];
                             EnhancedAPIService.after := self' |}
                     else reply).
  { subst reply. unfold EnhancedAPIService._make_request. fold cache_key.
    subst self'. unfold EnhancedAPIService._is_cache_valid.
    cbn [EnhancedAPIService.store EnhancedAPIService.cache
         EnhancedAPIService.cache_ttl EnhancedAPIService.timestamp
         EnhancedAPIService.data].
    rewrite lookup_insert_eq.
    cbn [EnhancedAPIService.timestamp EnhancedAPIService.data].
    now destruct (Qltb (now - written) (EnhancedAPIService.cache_ttl self)). }
  split; [|split; [|split]].
  - intros Hearly. apply age_below_ttl in Hearly. rewrite Hlocal, Hearly.
    repeat split.
  - intros Hlate. apply age_reaches_ttl in Hlate. now rewrite Hlocal, Hlate.
  - intros Hearly. apply age_below_ttl in Hearly. rewrite Hearly in Hreply.
    now rewrite Hreply.
  - intros Hlate. apply age_reaches_ttl in Hlate. clear Hreply.
    subst reply. unfold EnhancedAPIService._make_request. fold cache_key.
    subst self'. unfold EnhancedAPIService._is_cache_valid.
    cbn [EnhancedAPIService.store EnhancedAPIService.cache
         EnhancedAPIService.cache_ttl EnhancedAPIService.timestamp
         EnhancedAPIService.data].
    rewrite lookup_insert_eq.
    cbn [EnhancedAPIService.timestamp EnhancedAPIService.data].
    rewrite Hlate.
    cbn [EnhancedAPIService._rate_limit EnhancedAPIService.open_brewery_base_url].
    destruct (http _) as [status [body|]| |]; [|done..].
    now destruct (raises_for_status status).
Qed.

(** The TTLs are per key in the file cache: an hour for the analytics
    summary, five minutes for the system status, two hours for the
    geographic data, an hour for a key without an entry. *)
Lemma local_ttl_table :
  LocalCacheService.ttl_of LocalCacheService.local_cache "analytics_summary" = 3600
  /\ LocalCacheService.ttl_of LocalCacheService.local_cache "system_status" = 300
  /\ LocalCacheService.ttl_of LocalCacheService.local_cache "geographic_data" = 7200
  /\ LocalCacheService.ttl_of LocalCacheService.local_cache "brewery_analytics" = 1800
  /\ LocalCacheService.ttl_of LocalCacheService.local_cache "search:stone" = 3600.
Proof. repeat split. Qed.

End CacheTTL.

(** ** Adapters and fallback *)
Section Adapters.
Context `{PyBuiltins}.
Import MultiAPIExtractor.

Lemma assoc_In {A} (key : string) (table : list (string * A)) (v : A) :
  assoc key table = Some v -> In (key, v) table.
Proof.
  induction table as [|[k x] table IH]; cbn; [done|].
  destruct (String.eqb_spec k key) as [->|_]; [|auto].
  intros [= ->]. now left.
Qed.

Lemma table_get_values {A} (P : A -> Prop) (table : list (string * A))
    (key : json) (default : A) :
  Forall (fun kv => P (snd kv)) table -> P default ->
  P (table_get table key default).
Proof.
  intros Hall Hdef. destruct key; cbn; try done.
  destruct (assoc s table) as [v|] eqn:E; [|done].
  apply assoc_In in E. rewrite Forall_forall in Hall.
  apply (Hall (s, v)). now apply list_elem_of_In.
Qed.

Lemma mapping_get_values {A} (P : A -> Prop) (table : list (string * A))
    (key : json) (default v : A) :
  Forall (fun kv => P (snd kv)) table -> P default ->
  mapping_get table key default = Some v -> P v.
Proof.
  intros Hall Hdef.
  pose proof (table_get_values P table key default Hall Hdef) as Hget.
  unfold mapping_get. destruct key; intros Heq; try discriminate;
    injection Heq as <-; exact Hget.
Qed.

Lemma yeast_category_in (yeast_name : string) :
  yeast_category yeast_name ∈ categories.
Proof.
  unfold yeast_category, categories.
  destruct (_ || _); [set_solver|]. destruct (_ || _); set_solver.
Qed.

Lemma category_mapping_values :
  Forall (fun kv : string * string => snd kv ∈ categories) category_mapping.
Proof. unfold categories. repeat constructor; cbn; set_solver. Qed.

Lemma loader_category_mapping_values :
  Forall (fun kv : string * string => snd kv ∈ categories)
         FullDatasetLoader.category_mapping.
Proof. unfold categories. repeat constructor; cbn; set_solver. Qed.

Lemma punk_beer_category (beer record : json) :
  _transform_punk_beer beer = Some record ->
  has_category record /\ has_source "punk_api" record.
Proof.
  unfold _transform_punk_beer. destruct beer as [| | | | | |b]; try done.
  destruct (dict_get "ingredients" (JDict []) b) as [| | | | | |ingredients]; try done.
  destruct (yeast_name_of _) as [yeast_name|]; [|done].
  intros [= <-]. split; [|reflexivity].
  exists (yeast_category yeast_name). split; [reflexivity|apply yeast_category_in].
Qed.

Lemma brewery_category (brewery record : json) :
  _transform_brewery_to_beer brewery = Some record ->
  has_category record /\ has_source "openbrewery_db" record.
Proof.
  unfold _transform_brewery_to_beer. destruct brewery as [| | | | | |b]; try done.
  destruct (mapping_get category_mapping _ "other") as [category|] eqn:E; [|done].
  intros [= <-]. split; [|reflexivity].
  exists category. split; [reflexivity|].
  assert (Hother : "other" ∈ categories) by (unfold categories; set_solver).
  exact (mapping_get_values (fun c => c ∈ categories) _ _ _ _
           category_mapping_values Hother E).
Qed.

Lemma loader_brewery_category (pick : nat) (brewery record : json) :
  FullDatasetLoader.transform_brewery_to_beer pick brewery = Some record ->
  has_category record /\ has_source "openbrewery_db" record.
Proof.
  unfold FullDatasetLoader.transform_brewery_to_beer.
  destruct brewery as [| | | | | |b]; try done.
  destruct (mapping_get FullDatasetLoader.category_mapping _ "other")
    as [category|] eqn:E; [|done].
  destruct (dict_get "state" (JStr "") b) as [| | | |state| |]; try done.
  destruct (FullDatasetLoader._format_address b) as [address|]; [|done].
  intros [= <-]. split; [|reflexivity].
  exists category. split; [reflexivity|].
  assert (Hother : "other" ∈ categories) by (unfold categories; set_solver).
  exact (mapping_get_values (fun c => c ∈ categories) _ _ _ _
           loader_category_mapping_values Hother E).
Qed.

Lemma table_get_assoc {A} (table : list (string * A)) (key : json) (default : A) :
  table_get table key default
  = match key with
    | JStr s => match assoc s table with Some v => v | None => default end
    | _ => default
    end.
Proof. now destruct key. Qed.

(** C9.  Whatever a source hands to its adapter, a record that comes out
    has the category field, and its value is 'ale', 'lager' or 'other'.
    For a beer of the Punk API it goes by the yeast name: 'ale' when the
    name contains 'ale' or 'cerevisiae', else 'lager' when it contains
    'lager' or 'pastorianus', and 'other' when it contains none of the
    four.  For a brewery, with either brewery adapter, it is what the
    mapping gives the brewery type, and 'other' when the type is not a
    key of the mapping. *)
Theorem category_always_present (raw record : json) (pick : nat) :
  (_transform_punk_beer raw = Some record ->
   has_category record
   /\ exists yeast_name,
        punk_yeast_name raw = Some yeast_name
        /\ (contains "ale" yeast_name = true \/ contains "cerevisiae" yeast_name = true ->
            category_is "ale" record)
        /\ (contains "ale" yeast_name = false ->
            contains "cerevisiae" yeast_name = false ->
            contains "lager" yeast_name = true \/ contains "pastorianus" yeast_name = true ->
            category_is "lager" record)
        /\ (contains "ale" yeast_name = false ->
            contains "cerevisiae" yeast_name = false ->
            contains "lager" yeast_name = false ->
            contains "pastorianus" yeast_name = false ->
            category_is "other" record))
  /\ (_transform_brewery_to_beer raw = Some record ->
      has_category record
      /\ (forall s c, brewery_type_of raw = JStr s ->
                      assoc s category_mapping = Some c -> category_is c record)
      /\ ((forall s, brewery_type_of raw = JStr s -> assoc s category_mapping = None) ->
          category_is "other" record))
  /\ (FullDatasetLoader.transform_brewery_to_beer pick raw = Some record ->
      has_category record
      /\ (forall s c, brewery_type_of raw = JStr s ->
                      assoc s FullDatasetLoader.category_mapping = Some c ->
                      category_is c record)
      /\ ((forall s, brewery_type_of raw = JStr s ->
                     assoc s FullDatasetLoader.category_mapping = None) ->
          category_is "other" record)).
Proof.
  split; [|split].
  - intros Hp. split; [exact (proj1 (punk_beer_category raw record Hp))|].
    unfold _transform_punk_beer in Hp. unfold punk_yeast_name.
    destruct raw as [| | | | | |b]; try done.
    destruct (dict_get "ingredients" (JDict []) b) as [| | | | | |ingredients]; try done.
    destruct (yeast_name_of _) as [yeast_name|]; [|done].
    injection Hp as <-. exists yeast_name. split; [reflexivity|].
    unfold category_is.
    change (json_field "category" _) with (Some (JStr (yeast_category yeast_name))).
    unfold yeast_category. split; [|split].
    + intros [-> | ->]; [reflexivity|]. now rewrite orb_true_r.
    + intros -> -> [-> | ->]; [reflexivity|]. cbn [orb]. now rewrite orb_true_r.
    + now intros -> -> -> ->.
  - intros Hb. split; [exact (proj1 (brewery_category raw record Hb))|].
    unfold _transform_brewery_to_beer in Hb. unfold brewery_type_of.
    destruct raw as [| | | | | |b]; try done.
    destruct (mapping_get category_mapping _ "other") as [category|] eqn:E; [|done].
    injection Hb as <-. unfold category_is.
    change (json_field "category" _) with (Some (JStr category)).
    unfold mapping_get in E. rewrite table_get_assoc in E. split.
    + intros s c Hs Hc. rewrite Hs, Hc in E. now injection E as <-.
    + intros Hnone.
      destruct (dict_get "brewery_type" (JStr "unknown") b) as [| | | |s| |];
        try (now injection E as <-); try done.
      rewrite (Hnone s eq_refl) in E. now injection E as <-.
  - intros Hl. split; [exact (proj1 (loader_brewery_category pick raw record Hl))|].
    unfold FullDatasetLoader.transform_brewery_to_beer in Hl. unfold brewery_type_of.
    destruct raw as [| | | | | |b]; try done.
    destruct (mapping_get FullDatasetLoader.category_mapping _ "other")
      as [category|] eqn:E; [|done].
    destruct (dict_get "state" (JStr "") b) as [| | | |state| |]; try done.
    destruct (FullDatasetLoader._format_address b) as [address|]; [|done].
    injection Hl as <-. unfold category_is.
    change (json_field "category" _) with (Some (JStr category)).
    unfold mapping_get in E. rewrite table_get_assoc in E. split.
    + intros s c Hs Hc. rewrite Hs, Hc in E. now injection E as <-.
    + intros Hnone.
      destruct (dict_get "brewery_type" (JStr "unknown") b) as [| | | |s| |];
        try (now injection E as <-); try done.
      rewrite (Hnone s eq_refl) in E. now injection E as <-.
Qed.

Lemma transformed_sources (transform : json -> option json) (tag : string)
    (payload : json) (out : list json) :
  (forall raw record, transform raw = Some record -> has_source tag record) ->
  transform_all transform payload = Some out ->
  Forall (has_source tag) out.
Proof.
  intros Htag. unfold transform_all.
  destruct payload as [| | | |s|items|fields].
  1-3: done.
  - done.
  - destruct s; [|done]. intros [= <-]. constructor.
  - intros Hmap. apply mapM_Some_1 in Hmap.
    induction Hmap as [|raw record items out Hone _ IH]; constructor; eauto.
  - destruct fields; [|done]. intros [= <-]. constructor.
Qed.

(** Every record of the secondary source carries its tag. *)
Lemma openbrewery_data_source (http : network) (limit : Z) :
  Forall (has_source "openbrewery_db") (extract_openbrewery_data http limit).
Proof.
  unfold extract_openbrewery_data, fetch_and_transform.
  destruct (http _) as [status body| |]; [|constructor..].
  destruct (raises_for_status status); [constructor|].
  destruct body as [payload|]; [|constructor].
  destruct (transform_all _ payload) as [out|] eqn:E; [|constructor].
  apply (transformed_sources _ _ _ _ (fun raw record Hr =>
           proj2 (brewery_category raw record Hr)) E).
Qed.

Lemma non_empty_true (data : list json) : non_empty data = true <-> data <> [].
Proof. destruct data; cbn; split; congruence. Qed.

Lemma non_empty_false (data : list json) : non_empty data = false <-> data = [].
Proof. destruct data; cbn; split; congruence. Qed.

(** C5.  [extract_with_fallback] returns the primary's records when its
    probe succeeds and they are not empty; otherwise it probes the
    secondary and returns the secondary's records, each tagged
    'openbrewery_db'; and it returns the empty list when the secondary
    fails too. *)
Theorem fallback_extraction (http : network) (limit : Z) :
  let punk_ok := test_api_connectivity http "punk" in
  let primary := extract_punk_api_data http limit in
  let openbrewery_ok := test_api_connectivity http "openbrewery" in
  let secondary := extract_openbrewery_data http limit in
  let result := extract_with_fallback http limit in
  (punk_ok = true -> primary <> [] -> result = primary)
  /\ (punk_ok = false \/ primary = [] ->
        result = (if openbrewery_ok then secondary else [])
        /\ Forall (has_source "openbrewery_db") result)
  /\ (punk_ok = false \/ primary = [] ->
        openbrewery_ok = false \/ secondary = [] ->
        result = []).
Proof.
  intros punk_ok primary openbrewery_ok secondary result.
  assert (Hfallback :
            punk_ok = false \/ primary = [] ->
            result = if openbrewery_ok then secondary else []).
  { intros Hprimary. subst result. unfold extract_with_fallback.
    fold punk_ok primary openbrewery_ok secondary.
    assert (Hsec : (if openbrewery_ok
                    then if non_empty secondary then secondary else []
                    else []) = if openbrewery_ok then secondary else []).
    { destruct openbrewery_ok; [|done]. now destruct secondary. }
    destruct Hprimary as [->| ->]; [exact Hsec|].
    destruct punk_ok; cbn; exact Hsec. }
  split; [|split].
  - intros Hok Hdata. subst result. unfold extract_with_fallback.
    fold punk_ok primary. rewrite Hok.
    apply non_empty_true in Hdata. now rewrite Hdata.
  - intros Hprimary. rewrite (Hfallback Hprimary). split; [done|].
    destruct openbrewery_ok; [apply openbrewery_data_source|constructor].
  - intros Hprimary Hsecondary. rewrite (Hfallback Hprimary).
    destruct Hsecondary as [->| ->]; [done|]. now destruct openbrewery_ok.
Qed.

(** C10.  Whatever the limit, the one request [extract_punk_api_data]
    sends carries [per_page = min(limit, 80)] and the one request
    [extract_openbrewery_data] sends carries [per_page = min(limit, 200)]:
    the result is the same on any two networks that give that request the
    same reply, and it is empty when that request does not get through.
    The request of [search_breweries], when one goes out, carries
    [per_page = min(limit, 50)], and one goes out when the cache is
    empty.  No limit is rejected. *)
Theorem per_page_clamped (self : EnhancedAPIService.service) (http http' : network)
    (now latency : Q) (query : string) (limit : Z) :
  (http (Get "https://api.punkapi.com/v2/beers"
             [("per_page", PInt (Z.min limit 80))])
   = http' (Get "https://api.punkapi.com/v2/beers"
                [("per_page", PInt (Z.min limit 80))]) ->
   extract_punk_api_data http limit = extract_punk_api_data http' limit)
  /\ (http (Get "https://api.openbrewerydb.org/v1/breweries"
                [("per_page", PInt (Z.min limit 200));
                 ("by_type", PStr "micro,nano,regional,brewpub")])
      = http' (Get "https://api.openbrewerydb.org/v1/breweries"
                   [("per_page", PInt (Z.min limit 200));
                    ("by_type", PStr "micro,nano,regional,brewpub")]) ->
      extract_openbrewery_data http limit = extract_openbrewery_data http' limit)
  /\ (EnhancedAPIService.sent
        (EnhancedAPIService.search_breweries self http now latency query limit) = []
      \/ EnhancedAPIService.sent
           (EnhancedAPIService.search_breweries self http now latency query limit)
         = [Get (EnhancedAPIService.open_brewery_base_url self +:+ "/search")
                [("query", PStr query); ("per_page", PInt (Z.min limit 50))]])
  /\ (EnhancedAPIService.cache self = ∅ ->
      EnhancedAPIService.sent
        (EnhancedAPIService.search_breweries self http now latency query limit)
      = [Get (EnhancedAPIService.open_brewery_base_url self +:+ "/search")
             [("query", PStr query); ("per_page", PInt (Z.min limit 50))]])
  /\ (http (Get "https://api.punkapi.com/v2/beers"
                [("per_page", PInt (Z.min limit 80))]) = NetworkError ->
      extract_punk_api_data http limit = [])
  /\ (http (Get "https://api.openbrewerydb.org/v1/breweries"
                [("per_page", PInt (Z.min limit 200));
                 ("by_type", PStr "micro,nano,regional,brewpub")]) = NetworkError ->
      extract_openbrewery_data http limit = [])
  /\ Z.min limit 80 <= 80
  /\ Z.min limit 200 <= 200
  /\ Z.min limit 50 <= 50.
Proof.
  split; [|split; [|split; [|split; [|split; [|split; [|lia]]]]]].
  - intros Hsame. unfold extract_punk_api_data, fetch_and_transform, punk_request.
    change (punk_base_url +:+ "/beers") with "https://api.punkapi.com/v2/beers".
    now rewrite Hsame.
  - intros Hsame. unfold extract_openbrewery_data, fetch_and_transform, openbrewery_request.
    change (openbrewery_base_url +:+ "/breweries")
      with "https://api.openbrewerydb.org/v1/breweries".
    now rewrite Hsame.
  - unfold EnhancedAPIService.search_breweries, EnhancedAPIService._make_request.
    destruct (EnhancedAPIService.cache self !! _) as [entry|].
    + destruct (EnhancedAPIService._is_cache_valid self now entry); [now left|].
      right. cbn. destruct (http _) as [status [payload|]| |];
        try destruct (raises_for_status status); reflexivity.
    + right. cbn. destruct (http _) as [status [payload|]| |];
        try destruct (raises_for_status status); reflexivity.
  - intros Hempty.
    unfold EnhancedAPIService.search_breweries, EnhancedAPIService._make_request.
    rewrite Hempty, lookup_empty.
    cbn. destruct (http _) as [status [payload|]| |];
      try destruct (raises_for_status status); reflexivity.
  - intros Hdown. unfold extract_punk_api_data, fetch_and_transform, punk_request.
    change (punk_base_url +:+ "/beers") with "https://api.punkapi.com/v2/beers".
    now rewrite Hdown.
  - intros Hdown. unfold extract_openbrewery_data, fetch_and_transform, openbrewery_request.
    change (openbrewery_base_url +:+ "/breweries")
      with "https://api.openbrewerydb.org/v1/breweries".
    now rewrite Hdown.
Qed.

(** The request built is the only one the extraction depends on. *)
Lemma punk_data_request (http http' : network) (limit : Z) :
  http (punk_request limit) = http' (punk_request limit) ->
  extract_punk_api_data http limit = extract_punk_api_data http' limit.
Proof.
  intros Hsame. unfold extract_punk_api_data, fetch_and_transform.
  now rewrite Hsame.
Qed.

Lemma openbrewery_data_request (http http' : network) (limit : Z) :
  http (openbrewery_request limit) = http' (openbrewery_request limit) ->
  extract_openbrewery_data http limit = extract_openbrewery_data http' limit.
Proof.
  intros Hsame. unfold extract_openbrewery_data, fetch_and_transform.
  now rewrite Hsame.
Qed.

End Adapters.

(** ** The properties at sample inputs *)
Section Samples.
#[local] Existing Instance sample_builtins.
#[local] Existing Instance sample_file_system.
Import MultiAPIExtractor.

(** The system status written at 1000 s: served at 1299.5 s, gone at
    1300 s. *)
Lemma cache_ttl_boundary_witness :
  ((2599 # 2 < 1000 + inject_Z (LocalCacheService.ttl_of LocalCacheService.local_cache
                                  "system_status"))%Q
   /\ (1000 + inject_Z (LocalCacheService.ttl_of LocalCacheService.local_cache
                          "system_status") <= 1300)%Q)
  /\ LocalCacheService.get LocalCacheService.local_cache
       (LocalCacheService.set LocalCacheService.local_cache ∅ 1000
          "system_status" sample_status)
       (2599 # 2) "system_status"
     = Some (LocalCacheService.cache_data LocalCacheService.local_cache 1000
               "system_status" sample_status)
  /\ LocalCacheService.get LocalCacheService.local_cache
       (LocalCacheService.set LocalCacheService.local_cache ∅ 1000
          "system_status" sample_status)
       1300 "system_status"
     = None.
Proof.
  assert (Hearly : (2599 # 2
                    < 1000 + inject_Z (LocalCacheService.ttl_of
                                         LocalCacheService.local_cache
                                         "system_status"))%Q)
    by (vm_compute; reflexivity).
  assert (Hlate : (1000 + inject_Z (LocalCacheService.ttl_of
                                      LocalCacheService.local_cache "system_status")
                   <= 1300)%Q)
    by (vm_compute; discriminate).
  split; [auto|]. split.
  - exact (proj1 (proj1 (cache_ttl_boundary LocalCacheService.local_cache ∅
                           EnhancedAPIService.init
                           all_down 0 "system_status" "/meta" []
                           sample_status 1000 (2599 # 2)) Hearly)).
  - exact (proj1 (proj2 (cache_ttl_boundary LocalCacheService.local_cache ∅
                           EnhancedAPIService.init
                           all_down 0 "system_status" "/meta" []
                           sample_status 1000 1300)) Hlate).
Defined.

(** C7 as stated fails on both caches.  A hit of the file cache does not
    return the stored payload: it returns the wrapper that [set] wrote
    around it.  And the API service has no TTL per namespace: the analytics
    summary, which the file cache keeps for an hour, is gone from the
    service's cache after its one TTL of 300 seconds, like every other
    entry. *)
Lemma cache_ttl_boundary_counterexample :
  LocalCacheService.get LocalCacheService.local_cache
    (LocalCacheService.set LocalCacheService.local_cache ∅ 1000
       "system_status" sample_status)
    1001 "system_status"
  <> Some sample_status
  /\ LocalCacheService.get LocalCacheService.local_cache
       (LocalCacheService.set LocalCacheService.local_cache ∅ 1000
          "analytics_summary" sample_status)
       1300 "analytics_summary"
     <> None
  /\ EnhancedAPIService.sent
       (EnhancedAPIService._make_request
          (EnhancedAPIService.store EnhancedAPIService.init "analytics_summary"
             {| EnhancedAPIService.data := sample_status;
                EnhancedAPIService.timestamp := 1000 |})
          all_down 1300 0 "analytics_summary" [])
     <> [].
Proof.
  split; [|split]; intros Heq; vm_compute in Heq; discriminate Heq.
Qed.

(** An ale yeast makes an ale; a kveik, which none of the marker words
    describes, makes an 'other', and so does a taproom, which the mapping
    does not know. *)
Lemma category_always_present_witness :
  (exists record,
      _transform_punk_beer sample_beer = Some record
      /\ has_category record /\ category_is "ale" record)
  /\ (exists record,
        _transform_punk_beer kveik_beer = Some record
        /\ has_category record /\ category_is "other" record)
  /\ (exists record,
        _transform_brewery_to_beer taproom_brewery = Some record
        /\ has_category record /\ category_is "other" record).
Proof.
  split; [|split].
  - destruct (_transform_punk_beer sample_beer) as [record|] eqn:Hrecord;
      [|discriminate Hrecord].
    destruct (proj1 (category_always_present sample_beer record 0) Hrecord)
      as (Hcat & yeast_name & Hname & Hale & _).
    exists record. split; [reflexivity|]. split; [exact Hcat|].
    apply Hale. left. vm_compute in Hname. injection Hname as <-. reflexivity.
  - destruct (_transform_punk_beer kveik_beer) as [record|] eqn:Hrecord;
      [|discriminate Hrecord].
    destruct (proj1 (category_always_present kveik_beer record 0) Hrecord)
      as (Hcat & yeast_name & Hname & _ & _ & Hother).
    exists record. split; [reflexivity|]. split; [exact Hcat|].
    vm_compute in Hname. injection Hname as <-. now apply Hother.
  - destruct (_transform_brewery_to_beer taproom_brewery) as [record|] eqn:Hrecord;
      [|discriminate Hrecord].
    destruct (proj1 (proj2 (category_always_present taproom_brewery record 0)) Hrecord)
      as (Hcat & _ & Hother).
    exists record. split; [reflexivity|]. split; [exact Hcat|].
    apply Hother. intros s Hs. vm_compute in Hs. injection Hs as <-. reflexivity.
Defined.

(** A limit of 1000 against sources that reject an oversized [per_page]:
    the requests that go out are accepted, because they carry 80, 200 and
    50, where the limit itself would have been rejected. *)
Lemma per_page_clamped_witness :
  (strict_sources (Get "https://api.punkapi.com/v2/beers" [("per_page", PInt 1000)])
   = Http 400 None
   /\ strict_sources (Get "https://api.punkapi.com/v2/beers"
                         [("per_page", PInt (Z.min 1000 80))])
      = all_up (Get "https://api.punkapi.com/v2/beers"
                    [("per_page", PInt (Z.min 1000 80))]))
  /\ extract_punk_api_data strict_sources 1000 = extract_punk_api_data all_up 1000
  /\ length (extract_punk_api_data strict_sources 1000) = 1%nat
  /\ length (extract_openbrewery_data strict_sources 1000) = 1%nat
  /\ EnhancedAPIService.sent
       (EnhancedAPIService.search_breweries EnhancedAPIService.init strict_sources
          10 (1 # 2) "stone" 1000)
     = [Get "https://api.openbrewerydb.org/v1/breweries/search"
            [("query", PStr "stone"); ("per_page", PInt 50)]].
Proof.
  assert (Hsame : strict_sources (Get "https://api.punkapi.com/v2/beers"
                                      [("per_page", PInt (Z.min 1000 80))])
                  = all_up (Get "https://api.punkapi.com/v2/beers"
                                [("per_page", PInt (Z.min 1000 80))]))
    by reflexivity.
  split; [split; [reflexivity|exact Hsame]|].
  pose proof (per_page_clamped EnhancedAPIService.init strict_sources all_up
                10 (1 # 2) "stone" 1000) as (Hpunk & _ & _ & Hsearch & _).
  split; [exact (Hpunk Hsame)|]. split; [rewrite (Hpunk Hsame); reflexivity|].
  split; [reflexivity|]. exact (Hsearch eq_refl).
Defined.

(** With the Punk API gone the records come from Open Brewery DB. *)
Lemma fallback_extraction_witness :
  (test_api_connectivity punk_down "punk" = false
   \/ extract_punk_api_data punk_down 10 = [])
  /\ length (extract_with_fallback punk_down 10) = 1%nat
  /\ extract_with_fallback punk_down 10 = extract_openbrewery_data punk_down 10
  /\ Forall (has_source "openbrewery_db") (extract_with_fallback punk_down 10).
Proof.
  assert (Hdown : test_api_connectivity punk_down "punk" = false
                  \/ extract_punk_api_data punk_down 10 = [])
    by (left; reflexivity).
  split; [exact Hdown|]. split; [reflexivity|].
  destruct (proj1 (proj2 (fallback_extraction punk_down 10)) Hdown) as [Hresult Htag].
  split; [exact Hresult|exact Htag].
Defined.

End Samples.

(** * Further properties of the code *)

(** ** Retries *)
Section Retries.
Import PunkAPIExtractor.

Variable self : extractor.
Variable srv : server.
Variable r : request.

Lemma try_attempt_requests (attempt : Z) (t : trace) :
  requests_issued (snd (try_attempt srv r attempt t)) = S (requests_issued t).
Proof.
  unfold try_attempt, bind, http_get.
  destruct (srv (requests_issued t) r) as [status [data|]| |]; cbn;
    repeat (destruct (_ =? _); cbn); reflexivity.
Qed.

Lemma attempts_requests_bounded (todo : nat) :
  forall (attempt : Z) (t : trace),
  exists out t',
    attempts self srv r todo attempt t = (out, t')
    /\ (requests_issued t <= requests_issued t' <= requests_issued t + todo)%nat.
Proof.
  induction todo as [|todo IH]; intros attempt t.
  { exists [], t. split; [reflexivity|lia]. }
  cbn [attempts]. unfold bind at 1.
  pose proof (try_attempt_requests attempt t) as Hone.
  destruct (try_attempt srv r attempt t) as [[data|] t1]; cbn [snd] in Hone.
  - exists data, t1. split; [reflexivity|lia].
  - unfold bind at 1.
    destruct (attempt <? retry_attempts self - 1); cbn [sleep ret].
    + destruct (IH (attempt + 1) (EvSleep (inject_Z (2 ^ attempt)) :: t1))
        as (out & t' & -> & Hle).
      rewrite requests_issued_sleep in Hle. exists out, t'. split; [reflexivity|lia].
    + destruct (IH (attempt + 1) t1) as (out & t' & -> & Hle).
      exists out, t'. split; [reflexivity|lia].
Qed.

(** X1.  Whatever the source answers, [_fetch_page_with_retry] sends at
    most [retry_attempts] requests for a page (none when [retry_attempts]
    is zero or negative). *)
Theorem fetch_requests_bounded (t : trace) :
  (requests_issued t
   <= requests_issued (snd (_fetch_page_with_retry self srv r t))
   <= requests_issued t + Z.to_nat (retry_attempts self))%nat.
Proof.
  unfold _fetch_page_with_retry.
  destruct (attempts_requests_bounded (Z.to_nat (retry_attempts self)) 0 t)
    as (out & t' & -> & Hle). exact Hle.
Qed.

Lemma attempts_recover (k : nat) :
  forall (todo : nat) (attempt : Z) (t : trace) (data : list json),
    (k < todo)%nat ->
    (forall i, (i < k)%nat -> failed (srv (requests_issued t + i)%nat r) = true) ->
    srv (requests_issued t + k)%nat r = Http 200 (Some data) ->
    exists t',
      attempts self srv r todo attempt t = (data, t')
      /\ requests_issued t' = (requests_issued t + k + 1)%nat.
Proof.
  induction k as [|k IH]; intros todo attempt t data Hk Hfail Hok;
    (destruct todo as [|todo]; [lia|]); cbn [attempts]; unfold bind at 1.
  - unfold try_attempt, bind, http_get.
    rewrite Nat.add_0_r in Hok. rewrite Hok. cbn.
    eexists. split; [reflexivity|]. rewrite requests_issued_get. lia.
  - pose proof (Hfail 0%nat ltac:(lia)) as Hfirst. rewrite Nat.add_0_r in Hfirst.
    destruct (try_attempt_failed srv r attempt t Hfirst) as (t1 & -> & Hreq1).
    unfold bind at 1.
    assert (Hgo : forall t2, requests_issued t2 = S (requests_issued t) ->
              exists t', attempts self srv r todo (attempt + 1) t2 = (data, t')
                         /\ requests_issued t' = (requests_issued t + S k + 1)%nat).
    { intros t2 Hreq2.
      destruct (IH todo (attempt + 1) t2 data) as (t' & Hrun & Hreq); [lia| | |].
      - intros i Hi. rewrite Hreq2.
        replace (S (requests_issued t) + i)%nat with (requests_issued t + S i)%nat by lia.
        apply Hfail. lia.
      - rewrite Hreq2.
        now replace (S (requests_issued t) + k)%nat
          with (requests_issued t + S k)%nat by lia.
      - exists t'. split; [exact Hrun|]. lia. }
    destruct (attempt <? retry_attempts self - 1); cbn [sleep ret].
    + apply Hgo. now rewrite requests_issued_sleep.
    + now apply Hgo.
Qed.

(** X2.  When the first [k] replies to a page request fail, in any way,
    and the next one is a decodable 200, with [k] below [retry_attempts],
    [_fetch_page_with_retry] returns the data of that reply after [k + 1]
    requests. *)
Theorem fetch_recovers (k : nat) (t : trace) (data : list json) :
  Z.of_nat k < retry_attempts self ->
  (forall i, (i < k)%nat -> failed (srv (requests_issued t + i)%nat r) = true) ->
  srv (requests_issued t + k)%nat r = Http 200 (Some data) ->
  fst (_fetch_page_with_retry self srv r t) = data
  /\ requests_issued (snd (_fetch_page_with_retry self srv r t))
     = (requests_issued t + k + 1)%nat.
Proof.
  intros Hk Hfail Hok. unfold _fetch_page_with_retry.
  destruct (attempts_recover k (Z.to_nat (retry_attempts self)) 0 t data)
    as (t' & -> & Hreq); [lia|done|done|]. now split.
Qed.

End Retries.

(** Throttled twice, served at the third attempt. *)
Lemma fetch_recovers_witness :
  (Z.of_nat 2 < PunkAPIExtractor.retry_attempts default_extractor)
  /\ fst (PunkAPIExtractor._fetch_page_with_retry default_extractor
            (throttled_source 2 (numbered 3)) sample_page_request [])
     = numbered 3
  /\ requests_issued
       (snd (PunkAPIExtractor._fetch_page_with_retry default_extractor
               (throttled_source 2 (numbered 3)) sample_page_request []))
     = 3%nat.
Proof.
  assert (Hk : Z.of_nat 2 < PunkAPIExtractor.retry_attempts default_extractor)
    by (cbn; lia).
  split; [exact Hk|].
  apply (fetch_recovers default_extractor (throttled_source 2 (numbered 3))
           sample_page_request 2 [] (numbered 3) Hk).
  - intros i Hi. destruct i as [|[|i]]; [reflexivity|reflexivity|lia].
  - reflexivity.
Defined.

(** ** The collection loop of the Punk API extractor *)
Section PunkLoop.
Import PunkAPIExtractor.

Variable self : extractor.
Variable srv : server.
Variables start_date end_date : option string.
Variable page_size : Z.

(** X3.  With [retry_attempts] at zero or below the extraction sends no
    request and returns the empty list, whatever the source holds. *)
Theorem no_attempts_no_data (fuel : nat) :
  retry_attempts self <= 0 ->
  (0 < fuel)%nat ->
  _extract_async self srv start_date end_date page_size fuel = Some ([], []).
Proof.
  intros Hretry Hfuel. destruct fuel as [|fuel]; [lia|].
  unfold _extract_async. cbn [extract_loop]. unfold _fetch_page_with_retry.
  now replace (Z.to_nat (retry_attempts self)) with 0%nat by lia.
Qed.

Lemma fetch_full_page (page : list json) (r : request) (t : trace) :
  1 <= retry_attempts self ->
  srv (requests_issued t) r = Http 200 (Some page) ->
  _fetch_page_with_retry self srv r t = (page, EvGet r :: t).
Proof.
  intros Hretry Hreply. unfold _fetch_page_with_retry.
  destruct (Z.to_nat (retry_attempts self)) as [|n] eqn:E; [lia|].
  cbn [attempts]. unfold bind, try_attempt, http_get, bind.
  now rewrite Hreply.
Qed.

Lemma endless_loop (fuel : nat) :
  1 <= retry_attempts self ->
  (forall n r, exists page,
      srv n r = Http 200 (Some page) /\ page <> [] /\ page_size <= Z.of_nat (length page)) ->
  forall (page : Z) (all_beers : list json) (t : trace),
    extract_loop self srv start_date end_date page_size fuel page all_beers t = None.
Proof.
  intros Hretry Hfull. induction fuel as [|fuel IH]; intros page all_beers t; [done|].
  cbn [extract_loop].
  destruct (Hfull (requests_issued t)
              (page_request self start_date end_date page page_size))
    as (data & Hreply & Hne & Hlen).
  rewrite (fetch_full_page data _ t Hretry Hreply).
  destruct data as [|x data]; [done|].
  destruct (Z.ltb_spec (Z.of_nat (length (x :: data))) page_size); [lia|].
  cbn [sleep]. apply IH.
Qed.

(** X4.  Against a source whose every page is full, [_extract_async]
    never returns: the loop has no page ceiling, so no amount of fuel ends
    it. *)
Theorem extract_async_unbounded (fuel : nat) :
  1 <= retry_attempts self ->
  (forall n r, exists page,
      srv n r = Http 200 (Some page) /\ page <> [] /\ page_size <= Z.of_nat (length page)) ->
  _extract_async self srv start_date end_date page_size fuel = None.
Proof. intros Hretry Hfull. now apply endless_loop. Qed.

Lemma try_attempt_delivered (r : request) (attempt : Z) (t : trace) :
  delivered punk_delivers srv (snd (try_attempt srv r attempt t))
  = delivered punk_delivers srv t
      ++ match fst (try_attempt srv r attempt t) with
         | Return data => data
         | FallThrough => []
         end.
Proof.
  unfold try_attempt, bind, http_get.
  destruct (srv (requests_issued t) r) as [status body| |] eqn:E.
  - destruct (status =? 200) eqn:E200.
    + destruct body as [data|]; unfold ret; cbn [fst snd delivered];
        rewrite E; cbn [punk_delivers]; now rewrite ?E200.
    + destruct (status =? 429); unfold sleep, ret; cbn [fst snd delivered];
        rewrite E; cbn [punk_delivers]; destruct body; now rewrite ?E200.
  - unfold ret. cbn [fst snd delivered]. now rewrite E.
  - unfold ret. cbn [fst snd delivered]. now rewrite E.
Qed.

Lemma attempts_delivered (r : request) (todo : nat) :
  forall (attempt : Z) (t : trace),
  exists data t',
    attempts self srv r todo attempt t = (data, t')
    /\ delivered punk_delivers srv t' = delivered punk_delivers srv t ++ data.
Proof.
  induction todo as [|todo IH]; intros attempt t.
  { exists [], t. split; [reflexivity|now rewrite app_nil_r]. }
  cbn [attempts]. unfold bind at 1.
  pose proof (try_attempt_delivered r attempt t) as Hone.
  destruct (try_attempt srv r attempt t) as [[data|] t1]; cbn [fst snd] in Hone.
  - exists data, t1. split; [reflexivity|exact Hone].
  - rewrite app_nil_r in Hone. unfold bind at 1.
    destruct (attempt <? retry_attempts self - 1); cbn [sleep ret].
    + destruct (IH (attempt + 1) (EvSleep (inject_Z (2 ^ attempt)) :: t1))
        as (data & t' & -> & Hd).
      exists data, t'. split; [reflexivity|]. rewrite Hd. cbn. now rewrite Hone.
    + destruct (IH (attempt + 1) t1) as (data & t' & -> & Hd).
      exists data, t'. split; [reflexivity|]. now rewrite Hd, Hone.
Qed.

Lemma extract_loop_delivered (fuel : nat) :
  forall (page : Z) (all_beers out : list json) (t t' : trace),
    all_beers = delivered punk_delivers srv t ->
    extract_loop self srv start_date end_date page_size fuel page all_beers t
    = Some (out, t') ->
    out = delivered punk_delivers srv t'.
Proof.
  induction fuel as [|fuel IH]; intros page all_beers out t t' Hacc Hrun; [done|].
  cbn [extract_loop] in Hrun. unfold _fetch_page_with_retry in Hrun.
  destruct (attempts_delivered (page_request self start_date end_date page page_size)
              (Z.to_nat (retry_attempts self)) 0 t) as (data & t1 & Hfetch & Hd).
  rewrite Hfetch in Hrun. destruct data as [|x data].
  - injection Hrun as <- <-. now rewrite Hd, app_nil_r.
  - destruct (Z.of_nat (length (x :: data)) <? page_size).
    + injection Hrun as <- <-. now rewrite Hd, Hacc.
    + cbn [sleep] in Hrun.
      refine (IH _ _ _ _ _ _ Hrun). cbn [delivered]. now rewrite Hd, Hacc.
Qed.

(** X5.  What [_extract_async] returns is exactly what the decodable 200
    replies of the run delivered, in the order of the requests: nothing
    delivered is dropped, nothing is returned twice. *)
Theorem extract_async_returns_delivered (fuel : nat) (out : list json) (t : trace) :
  _extract_async self srv start_date end_date page_size fuel = Some (out, t) ->
  out = delivered punk_delivers srv t.
Proof. intros Hrun. now apply (extract_loop_delivered fuel 1 [] out [] t). Qed.

Lemma random_step_bound (beers : list json) (t : trace) :
  requests_issued (snd (random_step self srv beers t)) = S (requests_issued t)
  /\ (length (fst (random_step self srv beers t)) <= S (length beers))%nat
  /\ (length beers <= length (fst (random_step self srv beers t)))%nat.
Proof.
  unfold random_step, bind, http_get.
  destruct (srv (requests_issued t) (random_request self)) as [status [[|x l]|]| |];
    cbn [fst snd]; try (destruct (status =? 200)); cbn [fst snd sleep ret];
    rewrite ?length_app; cbn [length]; repeat split; try reflexivity; lia.
Qed.

Lemma random_loop_bound (todo : nat) :
  forall (beers : list json) (t : trace),
    requests_issued (snd (random_loop self srv todo beers t))
    = (requests_issued t + todo)%nat
    /\ (length beers <= length (fst (random_loop self srv todo beers t))
        <= length beers + todo)%nat.
Proof.
  induction todo as [|todo IH]; intros beers t;
    [cbn [random_loop]; unfold ret; cbn [fst snd]; lia|].
  cbn [random_loop]. unfold bind.
  pose proof (random_step_bound beers t) as (Hreq & Hle & Hge).
  destruct (random_step self srv beers t) as [beers1 t1]; cbn [fst snd] in *.
  destruct (IH beers1 t1) as (Hreq' & Hlen'). split; lia.
Qed.

(** X6.  [_extract_random_beers_async] sends exactly [count] requests and
    returns at most [count] beers; a request that fails just yields no
    beer. *)
Theorem random_beers_bounded (count : Z) (t : trace) :
  requests_issued (snd (_extract_random_beers_async self srv count t))
  = (requests_issued t + Z.to_nat count)%nat
  /\ (length (fst (_extract_random_beers_async self srv count t))
      <= Z.to_nat count)%nat.
Proof.
  unfold _extract_random_beers_async.
  destruct (random_loop_bound (Z.to_nat count) [] t) as (Hreq & Hlen).
  split; [exact Hreq|]. cbn [length] in Hlen. lia.
Qed.

End PunkLoop.

Lemma no_attempts_no_data_witness :
  (PunkAPIExtractor.retry_attempts no_retry_extractor <= 0 /\ (0 < 5)%nat)
  /\ PunkAPIExtractor._extract_async no_retry_extractor (mock_source (numbered 3))
       None None 2 5 = Some ([], []).
Proof.
  assert (H1 : PunkAPIExtractor.retry_attempts no_retry_extractor <= 0) by (cbn; lia).
  assert (H2 : (0 < 5)%nat) by lia.
  split; [auto|].
  exact (no_attempts_no_data no_retry_extractor (mock_source (numbered 3))
           None None 2 5 H1 H2).
Defined.

Lemma extract_async_unbounded_witness :
  1 <= PunkAPIExtractor.retry_attempts default_extractor
  /\ PunkAPIExtractor._extract_async default_extractor (endless_source (numbered 2))
       None None 2 1000 = None.
Proof.
  assert (H1 : 1 <= PunkAPIExtractor.retry_attempts default_extractor) by (cbn; lia).
  split; [exact H1|].
  apply (extract_async_unbounded default_extractor (endless_source (numbered 2))
           None None 2 1000 H1).
  intros n r. exists (numbered 2). repeat split; [discriminate|cbn; lia].
Defined.

Lemma extract_async_returns_delivered_witness :
  PunkAPIExtractor._extract_async default_extractor (throttled_source 2 (numbered 3))
    None None 2 5
  = Some (numbered 3,
          [EvGet (PunkAPIExtractor.page_request default_extractor None None 2 2);
           EvSleep 1;
           EvGet (PunkAPIExtractor.page_request default_extractor None None 1 2);
           EvSleep 2; EvSleep 2;
           EvGet (PunkAPIExtractor.page_request default_extractor None None 1 2);
           EvSleep 1; EvSleep 1;
           EvGet (PunkAPIExtractor.page_request default_extractor None None 1 2)])
  /\ numbered 3
     = delivered punk_delivers (throttled_source 2 (numbered 3))
         [EvGet (PunkAPIExtractor.page_request default_extractor None None 2 2);
          EvSleep 1;
          EvGet (PunkAPIExtractor.page_request default_extractor None None 1 2);
          EvSleep 2; EvSleep 2;
          EvGet (PunkAPIExtractor.page_request default_extractor None None 1 2);
          EvSleep 1; EvSleep 1;
          EvGet (PunkAPIExtractor.page_request default_extractor None None 1 2)].
Proof.
  assert (Hrun : PunkAPIExtractor._extract_async default_extractor
                   (throttled_source 2 (numbered 3)) None None 2 5
                 = Some (numbered 3,
          [EvGet (PunkAPIExtractor.page_request default_extractor None None 2 2);
           EvSleep 1;
           EvGet (PunkAPIExtractor.page_request default_extractor None None 1 2);
           EvSleep 2; EvSleep 2;
           EvGet (PunkAPIExtractor.page_request default_extractor None None 1 2);
           EvSleep 1; EvSleep 1;
           EvGet (PunkAPIExtractor.page_request default_extractor None None 1 2)]))
    by (vm_compute; reflexivity).
  split; [exact Hrun|].
  exact (extract_async_returns_delivered _ _ _ _ _ _ _ _ Hrun).
Defined.

(** ** The collection loop of the full dataset loader *)
Section LoaderLoop.
Import FullDatasetLoader.

Variable self : loader.
Variable srv : server.

Lemma page_request_page (page : Z) :
  int_param "page" (page_request self page) = Some page.
Proof. reflexivity. Qed.

(** What one pass through the [try] does to the trace and the accumulator. *)
Lemma try_page_effect (page : Z) (all_breweries : list json) (t : trace) :
  exists s t1,
    try_page self srv page all_breweries t = (s, t1)
    /\ requests_issued t1 = S (requests_issued t)
    /\ requested_pages t1 = requested_pages t ++ [page]
    /\ delivered_pages loader_delivers srv t1
       = delivered_pages loader_delivers srv t
           ++ loader_delivers (srv (requests_issued t) (page_request self page))
    /\ match s with
       | Break all' | NextPage all' =>
           all' = all_breweries
                    ++ loader_delivers (srv (requests_issued t) (page_request self page))
       | Raised =>
           loader_raises (srv (requests_issued t) (page_request self page)) = true
           /\ loader_delivers (srv (requests_issued t) (page_request self page)) = []
       end
    /\ (loader_raises (srv (requests_issued t) (page_request self page)) = true ->
        s = Raised).
Proof.
  assert (Hget : forall s : unit,
    requests_issued (EvGet (page_request self page) :: t) = S (requests_issued t)
    /\ requested_pages (EvGet (page_request self page) :: t) = requested_pages t ++ [page]
    /\ delivered_pages loader_delivers srv (EvGet (page_request self page) :: t)
       = delivered_pages loader_delivers srv t
           ++ loader_delivers (srv (requests_issued t) (page_request self page))).
  { intros _. cbn [requested_pages delivered_pages is_page_request]. now rewrite page_request_page. }
  assert (Hsleep : forall q : Q,
    requests_issued (EvSleep q :: EvGet (page_request self page) :: t)
    = S (requests_issued t)
    /\ requested_pages (EvSleep q :: EvGet (page_request self page) :: t)
       = requested_pages t ++ [page]
    /\ delivered_pages loader_delivers srv (EvSleep q :: EvGet (page_request self page) :: t)
       = delivered_pages loader_delivers srv t
           ++ loader_delivers (srv (requests_issued t) (page_request self page))).
  { intros q. cbn [requested_pages delivered_pages is_page_request]. now rewrite page_request_page. }
  destruct (Hget tt) as (Hg1 & Hg2 & Hg3).
  destruct (Hsleep (1 # 2)) as (Hs1 & Hs2 & Hs3).
  unfold try_page, bind, http_get.
  destruct (srv (requests_issued t) (page_request self page))
    as [status body| |] eqn:E.
  - destruct (raises_for_status status) eqn:Er.
    + exists Raised, (EvGet (page_request self page) :: t).
      split; [reflexivity|]. split; [exact Hg1|]. split; [exact Hg2|].
      split; [exact Hg3|]. cbn [loader_raises loader_delivers].
      destruct body; rewrite ?Er; auto.
    + destruct body as [[|x l]|].
      * exists (Break all_breweries), (EvGet (page_request self page) :: t).
        split; [reflexivity|]. split; [exact Hg1|]. split; [exact Hg2|].
        split; [exact Hg3|]. cbn [loader_raises loader_delivers]. rewrite Er.
        split; [now rewrite app_nil_r|discriminate].
      * unfold sleep, ret.
        destruct (Z.of_nat (length (x :: l)) <? batch_size self);
          eexists _, (EvSleep (1 # 2) :: EvGet (page_request self page) :: t);
          (split; [reflexivity|]); (split; [exact Hs1|]); (split; [exact Hs2|]);
          (split; [exact Hs3|]); cbn [loader_raises loader_delivers]; rewrite Er;
          (split; [reflexivity|discriminate]).
      * exists Raised, (EvGet (page_request self page) :: t).
        split; [reflexivity|]. split; [exact Hg1|]. split; [exact Hg2|].
        split; [exact Hg3|]. cbn [loader_raises loader_delivers]. auto.
  - exists Raised, (EvGet (page_request self page) :: t).
    split; [reflexivity|]. split; [exact Hg1|]. split; [exact Hg2|].
    split; [exact Hg3|]. cbn [loader_raises loader_delivers]. auto.
  - exists Raised, (EvGet (page_request self page) :: t).
    split; [reflexivity|]. split; [exact Hg1|]. split; [exact Hg2|].
    split; [exact Hg3|]. cbn [loader_raises loader_delivers]. auto.
Qed.

Lemma try_page_first_event (page : Z) (all_breweries : list json) (t : trace)
    (e : event) :
  last t = Some e ->
  last (snd (try_page self srv page all_breweries t)) = Some e.
Proof.
  intros Hlast.
  assert (Hget : last (EvGet (page_request self page) :: t) = Some e)
    by now rewrite last_cons, Hlast.
  assert (Hsleep : last (EvSleep (1 # 2) :: EvGet (page_request self page) :: t)
                   = Some e)
    by now rewrite last_cons, Hget.
  unfold try_page, bind, http_get.
  destruct (srv _ _) as [status [[|x l]|]| |]; cbn [snd ret sleep];
    repeat (destruct (_ : bool); cbn [snd ret sleep]); assumption.
Qed.

Lemma pages_from_snoc (first : Z) (count : nat) :
  pages_from first (S count) = pages_from first count ++ [first + Z.of_nat count].
Proof.
  revert first. induction count as [|count IH]; intros first.
  - cbn. now rewrite Z.add_0_r.
  - change (pages_from first (S (S count)))
      with (first :: pages_from (first + 1) (S count)).
    rewrite IH. cbn [pages_from app]. do 3 f_equal. lia.
Qed.

Lemma loader_loop_pages (fuel : nat) :
  forall (page : Z) (all_breweries out : list json) (t t' : trace),
    extract_loop self srv fuel page all_breweries t = Some (out, t') ->
    exists n,
      requested_pages t' = requested_pages t ++ pages_from page n
      /\ (1 <= n)%nat
      /\ Z.of_nat n <= Z.max 1 (51 - page)
      /\ requests_issued t' = (requests_issued t + n)%nat
      /\ page_requests t' = page_requests t + Z.of_nat n
      /\ (forall e, last t = Some e -> last t' = Some e).
Proof.
  induction fuel as [|fuel IH]; intros page all_breweries out t t' Hrun; [done|].
  cbn [extract_loop] in Hrun.
  pose proof (try_page_page_requests self srv page all_breweries t) as Hcount.
  pose proof (try_page_first_event page all_breweries t) as Hfirst.
  destruct (try_page_effect page all_breweries t)
    as (s & t1 & Htry & Hreq & Hpages & _).
  rewrite Htry in Hrun, Hcount, Hfirst. cbn [snd] in Hcount, Hfirst.
  assert (Hstop : exists n, requested_pages t1 = requested_pages t ++ pages_from page n
                            /\ (1 <= n)%nat /\ Z.of_nat n <= Z.max 1 (51 - page)
                            /\ requests_issued t1 = (requests_issued t + n)%nat
                            /\ page_requests t1 = page_requests t + Z.of_nat n
                            /\ (forall e, last t = Some e -> last t1 = Some e)).
  { exists 1%nat. cbn [pages_from]. repeat split; [done|lia|lia|lia|lia|exact Hfirst]. }
  assert (Hgo : forall acc,
             extract_loop self srv fuel (page + 1) acc t1 = Some (out, t') ->
             (page + 1 >? 50) = false ->
             exists n, requested_pages t' = requested_pages t ++ pages_from page n
                       /\ (1 <= n)%nat /\ Z.of_nat n <= Z.max 1 (51 - page)
                       /\ requests_issued t' = (requests_issued t + n)%nat
                       /\ page_requests t' = page_requests t + Z.of_nat n
                       /\ (forall e, last t = Some e -> last t' = Some e)).
  { intros acc Hrec Hle. apply IH in Hrec as (n & Hp & Hn1 & Hn & Hr & Hc & Hl).
    exists (S n). rewrite Hp, Hpages, <- app_assoc. cbn [pages_from app].
    repeat split; [lia|lia|lia|lia|]. intros e He. apply Hl, Hfirst, He. }
  destruct s as [acc|acc|].
  - injection Hrun as <- <-. exact Hstop.
  - destruct (page + 1 >? 50) eqn:E; [injection Hrun as <- <-; exact Hstop|eauto].
  - destruct (page + 1 >? 50) eqn:E; [injection Hrun as <- <-; exact Hstop|eauto].
Qed.

(** X7.  Whatever the source answers, [extract_all_breweries] first asks
    for the total count and then for pages 1, 2, ..., n in that order,
    once each and without a gap, for some n between 1 and 50: a page is
    never asked for twice, failed or not, and the run sends n + 1 requests
    in all. *)
Theorem loader_requests_each_page_once (fuel : nat) (out : list json) (t : trace) :
  extract_all_breweries self srv fuel = Some (out, t) ->
  exists n,
    requested_pages t = pages_from 1 n
    /\ (1 <= n <= 50)%nat
    /\ page_requests t = Z.of_nat n
    /\ requests_issued t = S n
    /\ last t = Some (EvGet meta_request).
Proof.
  rewrite extract_all_breweries_loop. intros Hrun.
  apply loader_loop_pages in Hrun as (n & Hp & Hn1 & Hn & Hr & Hc & Hl).
  exists n. change (page_requests [EvGet meta_request]) with 0 in Hc.
  repeat split; [exact Hp|lia|lia|lia|exact Hr|now apply Hl].
Qed.

Lemma loader_loop_delivered (fuel : nat) :
  forall (page : Z) (all_breweries out : list json) (t t' : trace),
    all_breweries = delivered_pages loader_delivers srv t ->
    extract_loop self srv fuel page all_breweries t = Some (out, t') ->
    out = delivered_pages loader_delivers srv t'.
Proof.
  induction fuel as [|fuel IH]; intros page all_breweries out t t' Hacc Hrun; [done|].
  cbn [extract_loop] in Hrun.
  destruct (try_page_effect page all_breweries t)
    as (s & t1 & Htry & _ & _ & Hd & Hs & _).
  rewrite Htry in Hrun. destruct s as [acc|acc|].
  - injection Hrun as <- <-. now rewrite Hd, Hs, Hacc.
  - destruct (page + 1 >? 50).
    + injection Hrun as <- <-. now rewrite Hd, Hs, Hacc.
    + refine (IH _ _ _ _ _ _ Hrun). now rewrite Hd, Hs, Hacc.
  - destruct Hs as [_ Hnone]. rewrite Hnone, app_nil_r in Hd.
    destruct (page + 1 >? 50).
    + injection Hrun as <- <-. now rewrite Hd.
    + refine (IH _ _ _ _ _ _ Hrun). now rewrite Hd.
Qed.

(** X8.  What [extract_all_breweries] returns is exactly what the replies
    to its page requests that did not raise delivered, in page order: a
    failed page costs its own records and nothing else, and the reply to
    the count request adds nothing, whatever it is. *)
Theorem loader_returns_delivered (fuel : nat) (out : list json) (t : trace) :
  extract_all_breweries self srv fuel = Some (out, t) ->
  out = delivered_pages loader_delivers srv t.
Proof.
  rewrite extract_all_breweries_loop. intros Hrun.
  now apply (loader_loop_delivered fuel 1 [] out [EvGet meta_request] t).
Qed.

Lemma loader_loop_all_raise (n : nat) :
  (forall i r, loader_raises (srv i r) = true) ->
  forall (page : Z) (all_breweries : list json) (t : trace) (fuel : nat),
    page = 51 - Z.of_nat (S n) -> (n < fuel)%nat ->
    exists t',
      extract_loop self srv fuel page all_breweries t = Some (all_breweries, t')
      /\ requests_issued t' = (requests_issued t + S n)%nat
      /\ page_requests t' = page_requests t + Z.of_nat (S n).
Proof.
  intros Hraise. induction n as [|n IH]; intros page all_breweries t fuel Hpage Hfuel;
    (destruct fuel as [|fuel]; [lia|]); cbn [extract_loop];
    pose proof (try_page_page_requests self srv page all_breweries t) as Hcount;
    destruct (try_page_effect page all_breweries t)
      as (s & t1 & Htry & Hreq & _ & _ & _ & Hs);
    rewrite Htry in Hcount |- *; cbn [snd] in Hcount;
    rewrite (Hs (Hraise _ _)).
  - destruct (Z.gtb_spec (page + 1) 50); [|lia].
    exists t1. split; [reflexivity|lia].
  - destruct (Z.gtb_spec (page + 1) 50); [lia|].
    destruct (IH (page + 1) all_breweries t1 fuel) as (t' & -> & Hreq' & Hcount');
      [lia|lia|].
    exists t'. split; [reflexivity|lia].
Qed.

(** X9.  Against a source on which every request fails,
    [extract_all_breweries] gives up only at the safety limit: it returns
    the empty list after 51 requests, one for the count and one for each
    of the pages 1 to 50. *)
Theorem loader_all_pages_fail :
  (forall i r, loader_raises (srv i r) = true) ->
  exists t,
    extract_all_breweries self srv 50 = Some ([], t)
    /\ requests_issued t = 51%nat
    /\ page_requests t = 50
    /\ requested_pages t = pages_from 1 50.
Proof.
  intros Hraise. rewrite extract_all_breweries_loop.
  destruct (loader_loop_all_raise 49 Hraise 1 [] [EvGet meta_request] 50)
    as (t & Hrun & Hreq & Hcount); [lia|lia|].
  exists t. split; [exact Hrun|]. split; [exact Hreq|]. split; [exact Hcount|].
  destruct (loader_loop_pages _ _ _ _ _ _ Hrun) as (n & Hp & _ & _ & Hr & _).
  rewrite Hp. replace n with 50%nat by (rewrite Hreq in Hr; lia). reflexivity.
Qed.

End LoaderLoop.

(** 450 breweries, the second page timing out: after the count, pages 1,
    2, 3 are asked for, once each, which makes four requests. *)
Lemma loader_requests_each_page_once_witness :
  exists out t n,
    FullDatasetLoader.extract_all_breweries FullDatasetLoader.init
      (failing_page_source (numbered 450) 2 Timeout) 50 = Some (out, t)
    /\ requested_pages t = pages_from 1 n
    /\ requests_issued t = S n
    /\ requested_pages t = [1; 2; 3]
    /\ requests_issued t = 4%nat.
Proof.
  destruct (FullDatasetLoader.extract_all_breweries FullDatasetLoader.init
              (failing_page_source (numbered 450) 2 Timeout) 50)
    as [[out t]|] eqn:Hrun; [|vm_compute in Hrun; discriminate Hrun].
  pose proof (loader_requests_each_page_once _ _ _ _ _ Hrun)
    as (n & Hpages & Hn & _ & Hreq & _).
  exists out, t, n. split; [reflexivity|]. split; [exact Hpages|].
  split; [exact Hreq|].
  vm_compute in Hrun. injection Hrun as <- <-. split; reflexivity.
Defined.

(** The same run returns pages 1 and 3, which is what was delivered; the
    450 records with which this source answers the count request are not
    part of it.  And when the first request of a run is throttled, it is
    the count request that is lost, not page 1. *)
Lemma loader_returns_delivered_witness :
  (exists out t,
      FullDatasetLoader.extract_all_breweries FullDatasetLoader.init
        (failing_page_source (numbered 450) 2 Timeout) 50 = Some (out, t)
      /\ out = delivered_pages loader_delivers
                 (failing_page_source (numbered 450) 2 Timeout) t
      /\ out = take 200 (numbered 450) ++ drop 400 (numbered 450))
  /\ collected (FullDatasetLoader.extract_all_breweries FullDatasetLoader.init
                  (throttled_source 1 (numbered 3)) 50)
     = Some (numbered 3).
Proof.
  split; [|vm_compute; reflexivity].
  destruct (FullDatasetLoader.extract_all_breweries FullDatasetLoader.init
              (failing_page_source (numbered 450) 2 Timeout) 50)
    as [[out t]|] eqn:Hrun; [|vm_compute in Hrun; discriminate Hrun].
  pose proof (loader_returns_delivered _ _ _ _ _ Hrun) as Hout.
  exists out, t. split; [reflexivity|]. split; [exact Hout|].
  vm_compute in Hrun. injection Hrun as <- <-. vm_compute. reflexivity.
Defined.

Lemma loader_all_pages_fail_witness :
  (forall i r, loader_raises (unavailable_source i r) = true)
  /\ exists t,
       FullDatasetLoader.extract_all_breweries FullDatasetLoader.init
         unavailable_source 50 = Some ([], t)
       /\ requests_issued t = 51%nat
       /\ page_requests t = 50
       /\ requested_pages t = pages_from 1 50.
Proof.
  assert (Hraise : forall i r, loader_raises (unavailable_source i r) = true)
    by reflexivity.
  split; [exact Hraise|].
  exact (loader_all_pages_fail FullDatasetLoader.init unavailable_source Hraise).
Defined.

(** ** More on the adapters *)
Section MoreAdapters.
Context `{PyBuiltins}.
Import MultiAPIExtractor.

Lemma mapM_as_str_None (parts : list json) :
  mapM FullDatasetLoader.as_str (List.filter truthy parts) = None
  <-> existsb bad_part parts = true.
Proof.
  rewrite mapM_None, Exists_exists, existsb_exists. unfold bad_part.
  split.
  - intros (v & Hin & Hv). exists v.
    apply list_elem_of_In, filter_In in Hin as [Hin Ht].
    split; [exact Hin|]. rewrite Ht. now destruct v.
  - intros (v & Hin & Hv). apply andb_true_iff in Hv as [Ht Hs]. exists v. split.
    + apply list_elem_of_In, filter_In. now split.
    + now destruct v.
Qed.

(** X10.  [transform_brewery_to_beer] of the full dataset loader raises on
    exactly these breweries: a value that is not a dict, an unhashable
    [brewery_type], a [state] that is present and not a string (a null
    state included), or a street, city or postal code that is neither
    empty nor a string.  On every other brewery it returns a record,
    whatever tip the random generator picks. *)
Theorem loader_transform_raises_iff (pick : nat) (brewery : json) :
  FullDatasetLoader.transform_brewery_to_beer pick brewery = None
  <-> loader_transform_raises brewery = true.
Proof.
  unfold FullDatasetLoader.transform_brewery_to_beer, loader_transform_raises.
  destruct brewery as [| | | | | |b]; try (split; reflexivity).
  unfold mapping_get.
  destruct (dict_get "brewery_type" (JStr "unknown") b) as [| | | | |l|d];
    cbn [unhashable orb]; try (split; reflexivity).
  all: destruct (dict_get "state" (JStr "") b) as [| | | |state| |] eqn:Estate;
    cbn [is_str negb orb]; try (split; reflexivity).
  all: assert (Haddr : FullDatasetLoader._format_address b = None
                       <-> bad_part (dict_get "street" (JStr "") b)
                           || bad_part (dict_get "city" (JStr "") b)
                           || bad_part (dict_get "postal_code" (JStr "") b) = true)
    by (unfold FullDatasetLoader._format_address;
        destruct (mapM _ _) as [kept|] eqn:Em;
        [ split; [discriminate|]; intros Hbad;
          assert (Hn : mapM FullDatasetLoader.as_str
                         (List.filter truthy
                            [dict_get "street" (JStr "") b; dict_get "city" (JStr "") b;
                             dict_get "state" (JStr "") b;
                             dict_get "postal_code" (JStr "") b]) = None)
            by (apply mapM_as_str_None; cbn [existsb]; rewrite Estate;
                change (bad_part (JStr state)) with (truthy (JStr state) && false);
                rewrite andb_false_r;
                destruct (bad_part (dict_get "street" (JStr "") b));
                destruct (bad_part (dict_get "city" (JStr "") b));
                destruct (bad_part (dict_get "postal_code" (JStr "") b)); done);
          congruence
        | split; [intros _|reflexivity];
          apply mapM_as_str_None in Em; cbn [existsb] in Em; rewrite Estate in Em;
          change (bad_part (JStr state)) with (truthy (JStr state) && false) in Em;
          rewrite andb_false_r in Em;
          destruct (bad_part (dict_get "street" (JStr "") b));
          destruct (bad_part (dict_get "city" (JStr "") b));
          destruct (bad_part (dict_get "postal_code" (JStr "") b)); done ]).
  all: rewrite <- Haddr;
    destruct (FullDatasetLoader._format_address b); split; try done.
Qed.

Lemma abv_estimates_range :
  Forall (fun kv : string * Q => (46 # 10 <= snd kv <= 62 # 10)%Q)
         FullDatasetLoader.abv_estimates.
Proof. repeat constructor; cbn; unfold Qle; cbn; lia. Qed.

Lemma ibu_estimates_range :
  Forall (fun kv : string * Z => 22 <= snd kv <= 42) FullDatasetLoader.ibu_estimates.
Proof. repeat constructor; cbn; lia. Qed.

(** X11.  Every record [transform_brewery_to_beer] of the full dataset
    loader produces has an ABV estimate between 4.6 and 6.5 and an IBU
    estimate between 22 and 47, whatever the brewery type and state. *)
Theorem loader_estimates_in_range (pick : nat) (brewery record : json) :
  FullDatasetLoader.transform_brewery_to_beer pick brewery = Some record ->
  (exists abv, abv_of record = Some abv /\ (46 # 10 <= abv <= 65 # 10)%Q)
  /\ (exists ibu, ibu_of record = Some ibu /\ 22 <= ibu <= 47).
Proof.
  unfold FullDatasetLoader.transform_brewery_to_beer.
  destruct brewery as [| | | | | |b]; try done.
  destruct (mapping_get FullDatasetLoader.category_mapping _ "other")
    as [category|]; [|done].
  destruct (dict_get "state" (JStr "") b) as [| | | |state| |]; try done.
  destruct (FullDatasetLoader._format_address b) as [address|]; [|done].
  set (brewery_type := dict_get "brewery_type" (JStr "unknown") b).
  set (base_abv := table_get FullDatasetLoader.abv_estimates brewery_type _).
  set (base_ibu := table_get FullDatasetLoader.ibu_estimates brewery_type _).
  set (craft := existsb _ FullDatasetLoader.craft_beer_states).
  assert (Habv : (46 # 10 <= base_abv <= 62 # 10)%Q).
  { apply (table_get_values (fun x => (46 # 10 <= x <= 62 # 10)%Q));
      [apply abv_estimates_range|].
    apply (table_get_values (fun x => (46 # 10 <= x <= 62 # 10)%Q));
      [apply abv_estimates_range|]. unfold Qle; cbn; lia. }
  assert (Hibu : 22 <= base_ibu <= 42).
  { apply (table_get_values (fun x => 22 <= x <= 42));
      [apply ibu_estimates_range|].
    apply (table_get_values (fun x => 22 <= x <= 42));
      [apply ibu_estimates_range|lia]. }
  clearbody base_abv base_ibu craft.
  intros [= <-]. unfold abv_of, ibu_of. split.
  - eexists. split; [reflexivity|].
    destruct craft; [rewrite Qred_correct|]; lra.
  - eexists. split; [reflexivity|]. destruct craft; lia.
Qed.

Lemma punk_data_source (http : network) (limit : Z) :
  Forall (has_source "punk_api") (extract_punk_api_data http limit).
Proof.
  unfold extract_punk_api_data, fetch_and_transform.
  destruct (http _) as [status body| |]; [|constructor..].
  destruct (raises_for_status status); [constructor|].
  destruct body as [payload|]; [|constructor].
  destruct (transform_all _ payload) as [out|] eqn:E; [|constructor].
  apply (transformed_sources _ _ _ _ (fun raw record Hr =>
           proj2 (punk_beer_category raw record Hr)) E).
Qed.

(** X12.  The records [extract_with_fallback] returns all come from one
    source: either every one is tagged 'punk_api' or every one is tagged
    'openbrewery_db'. *)
Theorem fallback_single_source (http : network) (limit : Z) :
  Forall (has_source "punk_api") (extract_with_fallback http limit)
  \/ Forall (has_source "openbrewery_db") (extract_with_fallback http limit).
Proof.
  unfold extract_with_fallback.
  assert (Hsecondary :
            Forall (has_source "openbrewery_db")
              (if test_api_connectivity http "openbrewery"
               then if non_empty (extract_openbrewery_data http limit)
                    then extract_openbrewery_data http limit else []
               else [])).
  { destruct (test_api_connectivity http "openbrewery"); [|constructor].
    destruct (non_empty _); [apply openbrewery_data_source|constructor]. }
  destruct (test_api_connectivity http "punk"); [|now right].
  destruct (non_empty (extract_punk_api_data http limit)); [|now right].
  left. apply punk_data_source.
Qed.

Lemma probe_punk (http : network) :
  test_api_connectivity http "punk"
  = match http punk_probe with
    | Http status _ => status =? 200
    | _ => false
    end.
Proof. reflexivity. Qed.

(** X13.  When the primary source answers its probe and yields records,
    the secondary source is not involved: the result is the same on any
    network that gives the same replies to the Punk API probe and to the
    Punk API request. *)
Theorem fallback_primary_only (http http' : network) (limit : Z) :
  http punk_probe = http' punk_probe ->
  http (punk_request limit) = http' (punk_request limit) ->
  test_api_connectivity http "punk" = true ->
  extract_punk_api_data http limit <> [] ->
  extract_with_fallback http limit = extract_punk_api_data http limit
  /\ extract_with_fallback http' limit = extract_with_fallback http limit.
Proof.
  intros Hprobe Hreq Hok Hdata.
  assert (Hok' : test_api_connectivity http' "punk" = true)
    by (rewrite probe_punk, <- Hprobe, <- probe_punk; exact Hok).
  pose proof (punk_data_request http http' limit Hreq) as Hsame.
  apply non_empty_true in Hdata.
  unfold extract_with_fallback.
  rewrite Hok, Hok', <- Hsame, Hdata. now split.
Qed.

(** The loop over a payload keeps one record per item or raises. *)
Lemma transform_all_length (transform : json -> option json) (items out : list json) :
  transform_all transform (JList items) = Some out -> length out = length items.
Proof.
  cbn [transform_all]. intros Hmap. apply mapM_Some_1 in Hmap.
  symmetry. exact (Forall2_length _ _ _ Hmap).
Qed.

Lemma transform_all_item_fails (transform : json -> option json) (items : list json)
    (item : json) :
  item ∈ items -> transform item = None ->
  transform_all transform (JList items) = None.
Proof.
  intros Hin Hnone. cbn [transform_all]. apply mapM_None, Exists_exists. eauto.
Qed.

(** X14.  The two extraction functions keep a batch whole or lose it
    whole: when the source replies with a list of items, the result has
    one record per item, in which case it is as long as the list, or it is
    empty; and one item on which the adapter raises empties the result. *)
Theorem batch_all_or_nothing (http : network) (limit status status' : Z)
    (beers breweries : list json) :
  http (punk_request limit) = Http status (Some (JList beers)) ->
  http (openbrewery_request limit) = Http status' (Some (JList breweries)) ->
  (extract_punk_api_data http limit = []
   \/ length (extract_punk_api_data http limit) = length beers)
  /\ (extract_openbrewery_data http limit = []
      \/ length (extract_openbrewery_data http limit) = length breweries)
  /\ (forall beer, beer ∈ beers -> _transform_punk_beer beer = None ->
        extract_punk_api_data http limit = [])
  /\ (forall brewery, brewery ∈ breweries ->
        _transform_brewery_to_beer brewery = None ->
        extract_openbrewery_data http limit = []).
Proof.
  intros Hpunk Hob. unfold extract_punk_api_data, extract_openbrewery_data,
    fetch_and_transform. rewrite Hpunk, Hob.
  repeat split.
  - destruct (raises_for_status status); [now left|].
    destruct (transform_all _ (JList beers)) as [out|] eqn:E; [|now left].
    right. now apply transform_all_length in E.
  - destruct (raises_for_status status'); [now left|].
    destruct (transform_all _ (JList breweries)) as [out|] eqn:E; [|now left].
    right. now apply transform_all_length in E.
  - intros beer Hin Hnone. destruct (raises_for_status status); [done|].
    now rewrite (transform_all_item_fails _ _ _ Hin Hnone).
  - intros brewery Hin Hnone. destruct (raises_for_status status'); [done|].
    now rewrite (transform_all_item_fails _ _ _ Hin Hnone).
Qed.

End MoreAdapters.

(** ** More on the API service *)
Section MoreService.
Import EnhancedAPIService.

(** X15.  [_rate_limit] keeps two consecutive requests at least
    [min_request_interval] apart: it returns no earlier than it was called
    and no earlier than [min_request_interval] after the request before,
    and it records the time at which it returns. *)
Theorem rate_limit_spacing (self : service) (now1 now2 : Q) :
  let first := _rate_limit self now1 in
  let second := _rate_limit (snd first) now2 in
  (now1 <= fst first)%Q
  /\ (last_request_time self + min_request_interval self <= fst first)%Q
  /\ (now2 <= fst second)%Q
  /\ (fst first + min_request_interval self <= fst second)%Q
  /\ last_request_time (snd second) = fst second.
Proof.
  cbn zeta. unfold _rate_limit.
  cbn [fst snd last_request_time min_request_interval].
  destruct (Qltb (now1 - last_request_time self) (min_request_interval self)) eqn:E1;
    [apply Qltb_lt in E1|apply Qltb_ge in E1].
  - destruct (Qltb _ (min_request_interval self)) eqn:E2;
      [apply Qltb_lt in E2|apply Qltb_ge in E2]; repeat split; lra.
  - destruct (Qltb _ (min_request_interval self)) eqn:E2;
      [apply Qltb_lt in E2|apply Qltb_ge in E2]; repeat split; lra.
Qed.

Lemma make_request_miss (self : service) (http : network) (now latency : Q)
    (endpoint : string) (params : list (string * param)) :
  sent (_make_request self http now latency endpoint params) <> [] ->
  _make_request self http now latency endpoint params
  = let started := fst (_rate_limit self now) in
    let self1 := snd (_rate_limit self now) in
    match http (api_request self endpoint params) with
    | Http status (Some payload) =>
        if raises_for_status status
        then {| returned := JList []; sent := [api_request self endpoint params];
                after := self1 |}
        else {| returned := payload; sent := [api_request self endpoint params];
                after := store self1 (_get_cache_key endpoint params)
                           {| data := payload; timestamp := (started + latency)%Q |} |}
    | _ => {| returned := JList []; sent := [api_request self endpoint params];
              after := self1 |}
    end.
Proof.
  unfold _make_request.
  destruct (cache self !! _get_cache_key endpoint params) as [entry|].
  - destruct (_is_cache_valid self now entry); [now intros []|]. reflexivity.
  - reflexivity.
Qed.

(** X16.  A request that went to the network and succeeded is answered
    from the cache when it is made again before its TTL has passed: the
    second call returns the same payload and sends nothing, whatever the
    network would reply. *)
Theorem repeated_request_served_from_cache
    (self : service) (http http' : network) (now1 latency now2 latency' : Q)
    (endpoint : string) (params : list (string * param))
    (status : Z) (payload : json) :
  let first := _make_request self http now1 latency endpoint params in
  let second := _make_request (after first) http' now2 latency' endpoint params in
  sent first <> [] ->
  http (api_request self endpoint params) = Http status (Some payload) ->
  raises_for_status status = false ->
  (now2 < fst (_rate_limit self now1) + latency + cache_ttl self)%Q ->
  returned first = payload
  /\ sent first = [api_request self endpoint params]
  /\ returned second = payload
  /\ sent second = [].
Proof.
  intros first second Hmiss Hreply Hstatus Hsoon. subst second.
  pose proof (make_request_miss self http now1 latency endpoint params Hmiss) as Hfirst.
  fold first in Hfirst. cbn zeta in Hfirst. rewrite Hreply, Hstatus in Hfirst.
  rewrite Hfirst. cbn [returned sent after]. split; [done|]. split; [done|].
  set (entry := {| data := payload;
                   timestamp := (fst (_rate_limit self now1) + latency)%Q |}).
  set (self2 := store (snd (_rate_limit self now1)) (_get_cache_key endpoint params) entry).
  assert (Hlookup : cache self2 !! _get_cache_key endpoint params = Some entry)
    by (subst self2; cbn [store cache]; apply lookup_insert_eq).
  assert (Hvalid : _is_cache_valid self2 now2 entry = true).
  { unfold _is_cache_valid.
    change (cache_ttl self2) with (cache_ttl self).
    subst entry. cbn [timestamp]. apply Qltb_lt. lra. }
  unfold _make_request. now rewrite Hlookup, Hvalid.
Qed.

(** X17.  A request that fails is not cached: the cache is as it was, so
    the next call goes to the network again; and what the caller gets is
    the empty list. *)
Theorem failed_request_not_cached
    (self : service) (http : network) (now latency : Q)
    (endpoint : string) (params : list (string * param)) :
  let reply := _make_request self http now latency endpoint params in
  request_fails (http (api_request self endpoint params)) = true ->
  cache (after reply) = cache self
  /\ (sent reply <> [] -> returned reply = JList []).
Proof.
  intros reply Hfails. split.
  - subst reply. unfold _make_request.
    destruct (cache self !! _get_cache_key endpoint params) as [entry|];
      [destruct (_is_cache_valid self now entry); [reflexivity|]|];
      cbn [_rate_limit]; fold (api_request self endpoint params);
      destruct (http (api_request self endpoint params)) as [status [payload|]| |];
      cbn [request_fails] in Hfails; rewrite ?Hfails; reflexivity.
  - intros Hmiss.
    pose proof (make_request_miss self http now latency endpoint params Hmiss) as Hr.
    fold reply in Hr. rewrite Hr. cbn zeta.
    destruct (http (api_request self endpoint params)) as [status [payload|]| |];
      cbn [request_fails] in Hfails; rewrite ?Hfails; reflexivity.
Qed.

(** X18.  When the cache has no valid entry for them, [get_brewery_by_id]
    and [get_metadata] hand the caller the reply of the network when the
    request succeeds and the reply is a dict, and the empty dict in every
    other case: a reply that is not a dict, an error status, a body that
    does not decode, a timeout, a network error. *)
Theorem lookups_return_dicts
    (self : service) (http : network) (now latency : Q) (brewery_id : string) :
  (forall entry, cache self !! ("/" +:+ brewery_id) = Some entry ->
                 _is_cache_valid self now entry = false) ->
  (forall entry, cache self !! "/meta" = Some entry ->
                 _is_cache_valid self now entry = false) ->
  fst (get_brewery_by_id self http now latency brewery_id)
  = match http (Get (open_brewery_base_url self +:+ ("/" +:+ brewery_id)) []) with
    | Http status (Some (JDict fields)) =>
        if raises_for_status status then JDict [] else JDict fields
    | _ => JDict []
    end
  /\ fst (get_metadata self http now latency)
     = match http (Get (open_brewery_base_url self +:+ "/meta") []) with
       | Http status (Some (JDict fields)) =>
           if raises_for_status status then JDict [] else JDict fields
       | _ => JDict []
       end.
Proof.
  intros Hid Hmeta.
  assert (Hmiss : forall endpoint,
            (forall entry, cache self !! endpoint = Some entry ->
                           _is_cache_valid self now entry = false) ->
            dict_or_empty (returned (_make_request self http now latency endpoint []))
            = match http (Get (open_brewery_base_url self +:+ endpoint) []) with
              | Http status (Some (JDict fields)) =>
                  if raises_for_status status then JDict [] else JDict fields
              | _ => JDict []
              end).
  { intros endpoint Hinvalid. unfold _make_request.
    cbn [_get_cache_key _rate_limit open_brewery_base_url].
    assert (Hnohit : match cache self !! endpoint with
                     | Some entry =>
                         if _is_cache_valid self now entry then Some (data entry) else None
                     | None => None
                     end = None).
    { destruct (cache self !! endpoint) as [entry|] eqn:E; [|reflexivity].
      now rewrite (Hinvalid entry eq_refl). }
    rewrite Hnohit.
    destruct (http _) as [status [payload|]| |]; try reflexivity.
    destruct (raises_for_status status); [now destruct payload|].
    now destruct payload. }
  unfold get_brewery_by_id, get_metadata. cbn [fst]. split; now apply Hmiss.
Qed.

End MoreService.

(** ** More on the file cache *)
Section MoreCache.
Context `{PyBuiltins} `{FileSystem}.

(** X19.  The entries of the file cache whose files differ do not
    disturb each other: writing or invalidating one key leaves what [get]
    returns for the other as it was.  An invalidated key misses at any
    time.  [clear_all] makes a key miss when the glob lists its file, and
    leaves what [get] returns for it as it was when the glob does not. *)
Theorem local_cache_keys_independent
    (cache : LocalCacheService.service) (fs : gmap string LocalCacheService.file)
    (key other : string) (payload : json) (written now : Q) :
  LocalCacheService._get_cache_file cache key
  <> LocalCacheService._get_cache_file cache other ->
  LocalCacheService.get cache
    (LocalCacheService.set cache fs written key payload) now other
  = LocalCacheService.get cache fs now other
  /\ LocalCacheService.get cache (LocalCacheService.invalidate cache fs key) now other
     = LocalCacheService.get cache fs now other
  /\ LocalCacheService.get cache (LocalCacheService.invalidate cache fs key) now key
     = None
  /\ (glob_json (LocalCacheService.cache_dir cache)
        (LocalCacheService._get_cache_file cache other) = true ->
      LocalCacheService.get cache (LocalCacheService.clear_all cache fs) now other
      = None)
  /\ (glob_json (LocalCacheService.cache_dir cache)
        (LocalCacheService._get_cache_file cache other) = false ->
      LocalCacheService.get cache (LocalCacheService.clear_all cache fs) now other
      = LocalCacheService.get cache fs now other).
Proof.
  intros Hne.
  unfold LocalCacheService.get, LocalCacheService._is_cache_valid,
    LocalCacheService.set, LocalCacheService.invalidate, LocalCacheService.clear_all.
  cbv zeta.
  rewrite lookup_insert_ne, lookup_delete_ne, lookup_delete_eq by done.
  split; [reflexivity|]. split; [reflexivity|]. split; [reflexivity|]. split.
  - intros Hglob.
    assert (Hgone : filter (fun entry : string * LocalCacheService.file =>
                              glob_json (LocalCacheService.cache_dir cache) entry.1 = false)
                      fs !! LocalCacheService._get_cache_file cache other = None).
    { apply map_lookup_filter_None. right. intros f _ Hkeep.
      cbn in Hkeep. congruence. }
    now rewrite Hgone.
  - intros Hglob.
    assert (Hkept : filter (fun entry : string * LocalCacheService.file =>
                              glob_json (LocalCacheService.cache_dir cache) entry.1 = false)
                      fs !! LocalCacheService._get_cache_file cache other
                    = fs !! LocalCacheService._get_cache_file cache other).
    { destruct (fs !! LocalCacheService._get_cache_file cache other) as [f|] eqn:E.
      - apply map_lookup_filter_Some. split; [exact E|exact Hglob].
      - apply map_lookup_filter_None. now left. }
    now rewrite Hkept.
Qed.

(** X23.  Two keys that name one file share an entry: what is written
    under one is what [get] serves under the other, wrapper and all, for
    as long as the TTL of the key asked for allows; and invalidating one
    invalidates the other. *)
Theorem local_cache_aliased_keys
    (cache : LocalCacheService.service) (fs : gmap string LocalCacheService.file)
    (key other : string) (payload : json) (written now : Q) :
  LocalCacheService._get_cache_file cache key
  = LocalCacheService._get_cache_file cache other ->
  LocalCacheService.get cache
    (LocalCacheService.set cache fs written key payload) now other
  = (if Qltb (now - written) (inject_Z (LocalCacheService.ttl_of cache other))
     then Some (LocalCacheService.cache_data cache written key payload)
     else None)
  /\ LocalCacheService.get cache (LocalCacheService.invalidate cache fs key) now other
     = None.
Proof.
  intros Hsame.
  unfold LocalCacheService.get, LocalCacheService._is_cache_valid,
    LocalCacheService.set, LocalCacheService.invalidate.
  cbv zeta. rewrite <- Hsame, lookup_insert_eq, lookup_delete_eq.
  cbn [LocalCacheService.st_mtime LocalCacheService.content]. split; [|reflexivity].
  now destruct (Qltb _ _).
Qed.

(** X20.  The status endpoint serves a computed status for five minutes:
    after a call that found no valid entry, a call less than 300 seconds
    later returns the status of the first call, with the timestamp of the
    first call, and leaves the cache as it is; a call 300 seconds later or
    more computes a new one. *)
Theorem status_served_from_cache
    (fs : gmap string LocalCacheService.file) (now1 now2 : Q) :
  let first := ApiServer.system_status fs now1 in
  let second := ApiServer.system_status (snd first) now2 in
  LocalCacheService.get LocalCacheService.local_cache fs now1 "system_status" = None ->
  fst first = Some (ApiServer.fresh_status now1)
  /\ ((now2 < now1 + 300)%Q ->
      second = (Some (ApiServer.fresh_status now1), snd first))
  /\ ((now1 + 300 <= now2)%Q ->
      fst second = Some (ApiServer.fresh_status now2)).
Proof.
  intros first second Hmiss.
  assert (Hfirst : first
                   = (Some (ApiServer.fresh_status now1),
                      LocalCacheService.set LocalCacheService.local_cache fs now1
                        "system_status" (ApiServer.fresh_status now1)))
    by (subst first; unfold ApiServer.system_status; cbv zeta; now rewrite Hmiss).
  subst second. rewrite Hfirst. cbn [fst snd]. clear Hfirst first.
  split; [reflexivity|].
  pose proof (local_cache_get_after_set LocalCacheService.local_cache fs
                "system_status" (ApiServer.fresh_status now1) now1 now2) as Hget.
  change (inject_Z (LocalCacheService.ttl_of LocalCacheService.local_cache
                      "system_status")) with 300%Q in Hget.
  unfold ApiServer.system_status. cbv zeta. rewrite Hget. split.
  - intros Hsoon. apply age_below_ttl in Hsoon. now rewrite Hsoon.
  - intros Hlate. apply age_reaches_ttl in Hlate. now rewrite Hlate.
Qed.

End MoreCache.

(** ** More on deduplication *)
Section MoreDedup.
Import RemoveDuplicates.

Lemma select_first_sublist (window : list row) :
  forall seen, select_first (row_numbers seen window) `sublist_of` window.
Proof.
  induction window as [|x window IH]; intros seen; [constructor|].
  rewrite select_first_cons.
  destruct (count_key (dedup_key x) seen =? 0)%nat.
  - apply sublist_skip, IH.
  - apply sublist_cons, IH.
Qed.

(** X21.  Deduplication only removes rows: the table afterwards is a
    sub-bag of the table before, and it has as many rows as the table
    before had distinct (beer_id, name) pairs. *)
Theorem dedup_only_removes (table window : list row) :
  window_order table window ->
  remove_duplicates window table ⊆+ table
  /\ length (remove_duplicates window table) = length (remove_dups (keys table)).
Proof.
  intros [Hperm Hord].
  assert (Hnd : NoDup (keys (remove_duplicates window table))).
  { apply duplicates_found_false, remove_duplicates_clean. }
  assert (Hsub : remove_duplicates window table ⊆+ table).
  { unfold remove_duplicates. destruct (duplicates_found table); cbn [negb]; [|done].
    rewrite Hperm. apply sublist_submseteq, select_first_sublist. }
  split; [exact Hsub|].
  assert (Hkeys : forall k, k ∈ keys (remove_duplicates window table) <-> k ∈ keys table).
  { intros k. unfold keys. rewrite !list_elem_of_fmap. split.
    - intros (r & -> & Hr). exists r. split; [done|].
      now apply (elem_of_submseteq _ _ _ Hr Hsub).
    - intros (r & -> & Hr). unfold remove_duplicates.
      destruct (duplicates_found table); cbn [negb]; [|eauto].
      rewrite Hperm in Hr.
      destruct (select_first_covers window [] r Hr) as (r' & Hr' & Hk);
        [apply not_elem_of_nil|].
      exists r'. split; [now symmetry|exact Hr']. }
  rewrite <- (length_fmap dedup_key (remove_duplicates window table)).
  apply Permutation_length, NoDup_Permutation;
    [exact Hnd|apply NoDup_remove_dups|].
  intros k. rewrite elem_of_remove_dups. apply Hkeys.
Qed.

End MoreDedup.

(** ** The further properties at sample inputs *)
Section MoreSamples.
#[local] Existing Instance sample_file_system.
#[local] Existing Instance sample_builtins.
Import MultiAPIExtractor.

(** A brewery with a null state cannot be transformed. *)
Lemma loader_transform_raises_iff_witness :
  loader_transform_raises stateless_brewery = true
  /\ FullDatasetLoader.transform_brewery_to_beer 0 stateless_brewery = None
  /\ FullDatasetLoader.transform_brewery_to_beer 0 sample_brewery <> None.
Proof.
  split; [reflexivity|]. split.
  - apply (proj2 (loader_transform_raises_iff 0 stateless_brewery)). reflexivity.
  - intros Hnone.
    apply (proj1 (loader_transform_raises_iff 0 sample_brewery)) in Hnone.
    discriminate Hnone.
Defined.

(** A regional brewery in California: 4.9 + 0.3 and 28 + 5. *)
Lemma loader_estimates_in_range_witness :
  match FullDatasetLoader.transform_brewery_to_beer 0 sample_brewery with
  | Some record =>
      abv_of record = Some (26 # 5)
      /\ ibu_of record = Some 33
      /\ (exists abv, abv_of record = Some abv /\ (46 # 10 <= abv <= 65 # 10)%Q)
  | None => False
  end.
Proof.
  destruct (FullDatasetLoader.transform_brewery_to_beer 0 sample_brewery)
    as [record|] eqn:Hrecord; [|vm_compute in Hrecord; discriminate Hrecord].
  pose proof (proj1 (loader_estimates_in_range 0 sample_brewery record Hrecord)) as Hrange.
  vm_compute in Hrecord. injection Hrecord as <-.
  split; [reflexivity|]. split; [reflexivity|]. exact Hrange.
Defined.

(** Both sources up: the result is the primary's, on a network where the
    secondary is down as well. *)
Lemma fallback_primary_only_witness :
  (all_up punk_probe = Http 200 (Some (JList [sample_beer]))
   /\ test_api_connectivity all_up "punk" = true
   /\ extract_punk_api_data all_up 10 <> [])
  /\ extract_with_fallback all_up 10 = extract_punk_api_data all_up 10
  /\ extract_with_fallback
       (fun r => if String.prefix "https://api.punkapi.com" (url r)
                 then all_up r else NetworkError) 10
     = extract_with_fallback all_up 10.
Proof.
  assert (Hok : test_api_connectivity all_up "punk" = true) by reflexivity.
  assert (Hdata : extract_punk_api_data all_up 10 <> []) by (vm_compute; discriminate).
  split; [split; [reflexivity|split; [exact Hok|exact Hdata]]|].
  apply (fallback_primary_only all_up
           (fun r => if String.prefix "https://api.punkapi.com" (url r)
                     then all_up r else NetworkError) 10);
    [reflexivity|reflexivity|exact Hok|exact Hdata].
Defined.

(** One beer whose ingredients are null empties the batch of two. *)
Lemma batch_all_or_nothing_witness :
  (one_bad_beer (punk_request 10)
   = Http 200 (Some (JList [sample_beer; JDict [("ingredients", JNull)]]))
   /\ _transform_punk_beer (JDict [("ingredients", JNull)]) = None)
  /\ extract_punk_api_data one_bad_beer 10 = [].
Proof.
  assert (Hreply : forall r, one_bad_beer r
            = Http 200 (Some (JList [sample_beer; JDict [("ingredients", JNull)]])))
    by reflexivity.
  assert (Hbad : _transform_punk_beer (JDict [("ingredients", JNull)]) = None)
    by reflexivity.
  split; [split; [apply Hreply|exact Hbad]|].
  refine (proj1 (proj2 (proj2 (batch_all_or_nothing one_bad_beer 10 200 200 _ _
                                 (Hreply _) (Hreply _)))) _ _ Hbad).
  set_solver.
Defined.

(** A search made at 10 s and again at 100 s: one request. *)
Lemma repeated_request_served_from_cache_witness :
  (EnhancedAPIService.sent
     (EnhancedAPIService._make_request EnhancedAPIService.init one_result 10 (1 # 2)
        "/search" search_params) <> []
   /\ (100 < fst (EnhancedAPIService._rate_limit EnhancedAPIService.init 10) + (1 # 2)
             + EnhancedAPIService.cache_ttl EnhancedAPIService.init)%Q)
  /\ EnhancedAPIService.returned
       (EnhancedAPIService._make_request
          (EnhancedAPIService.after
             (EnhancedAPIService._make_request EnhancedAPIService.init one_result
                10 (1 # 2) "/search" search_params))
          all_down 100 (1 # 2) "/search" search_params)
     = JList [sample_brewery]
  /\ EnhancedAPIService.sent
       (EnhancedAPIService._make_request
          (EnhancedAPIService.after
             (EnhancedAPIService._make_request EnhancedAPIService.init one_result
                10 (1 # 2) "/search" search_params))
          all_down 100 (1 # 2) "/search" search_params)
     = [].
Proof.
  assert (Hmiss : EnhancedAPIService.sent
                    (EnhancedAPIService._make_request EnhancedAPIService.init
                       one_result 10 (1 # 2) "/search" search_params) <> [])
    by (vm_compute; discriminate).
  assert (Hsoon : (100 < fst (EnhancedAPIService._rate_limit EnhancedAPIService.init 10)
                         + (1 # 2)
                         + EnhancedAPIService.cache_ttl EnhancedAPIService.init)%Q)
    by (vm_compute; reflexivity).
  split; [split; [exact Hmiss|exact Hsoon]|].
  exact (proj2 (proj2 (repeated_request_served_from_cache EnhancedAPIService.init
                         one_result all_down 10 (1 # 2) 100 (1 # 2) "/search"
                         search_params 200 (JList [sample_brewery])
                         Hmiss eq_refl eq_refl Hsoon))).
Defined.

(** A search while the network is down leaves the cache empty. *)
Lemma failed_request_not_cached_witness :
  request_fails (all_down (api_request EnhancedAPIService.init "/search" search_params))
  = true
  /\ EnhancedAPIService.cache
       (EnhancedAPIService.after
          (EnhancedAPIService._make_request EnhancedAPIService.init all_down 10 (1 # 2)
             "/search" search_params))
     = ∅.
Proof.
  assert (Hfails : request_fails
                     (all_down (api_request EnhancedAPIService.init "/search"
                                  search_params)) = true) by reflexivity.
  split; [exact Hfails|].
  exact (proj1 (failed_request_not_cached EnhancedAPIService.init all_down 10 (1 # 2)
                  "/search" search_params Hfails)).
Defined.

(** A lookup with an empty cache: the brewery when the network serves
    one, the empty dict while the network is down, and the empty dict
    when the network serves a list. *)
Lemma lookups_return_dicts_witness :
  ((forall entry,
       EnhancedAPIService.cache EnhancedAPIService.init !! ("/" +:+ "5128df48")
       = Some entry ->
       EnhancedAPIService._is_cache_valid EnhancedAPIService.init 10 entry = false)
   /\ (forall entry,
         EnhancedAPIService.cache EnhancedAPIService.init !! "/meta" = Some entry ->
         EnhancedAPIService._is_cache_valid EnhancedAPIService.init 10 entry = false))
  /\ fst (EnhancedAPIService.get_brewery_by_id EnhancedAPIService.init
            (fun _ => Http 200 (Some sample_brewery)) 10 (1 # 2) "5128df48")
     = sample_brewery
  /\ fst (EnhancedAPIService.get_brewery_by_id EnhancedAPIService.init all_down
            10 (1 # 2) "5128df48") = JDict []
  /\ fst (EnhancedAPIService.get_metadata EnhancedAPIService.init one_result
            10 (1 # 2)) = JDict [].
Proof.
  assert (Hid : forall entry,
             EnhancedAPIService.cache EnhancedAPIService.init !! ("/" +:+ "5128df48")
             = Some entry ->
             EnhancedAPIService._is_cache_valid EnhancedAPIService.init 10 entry = false)
    by (intros entry Hentry; discriminate Hentry).
  assert (Hmeta : forall entry,
             EnhancedAPIService.cache EnhancedAPIService.init !! "/meta" = Some entry ->
             EnhancedAPIService._is_cache_valid EnhancedAPIService.init 10 entry = false)
    by (intros entry Hentry; discriminate Hentry).
  split; [split; [exact Hid|exact Hmeta]|]. split; [|split].
  - rewrite (proj1 (lookups_return_dicts EnhancedAPIService.init
                      (fun _ => Http 200 (Some sample_brewery)) 10 (1 # 2) "5128df48"
                      Hid Hmeta)).
    reflexivity.
  - rewrite (proj1 (lookups_return_dicts EnhancedAPIService.init all_down
                      10 (1 # 2) "5128df48" Hid Hmeta)).
    reflexivity.
  - rewrite (proj2 (lookups_return_dicts EnhancedAPIService.init one_result
                      10 (1 # 2) "5128df48" Hid Hmeta)).
    reflexivity.
Defined.

(** Writing the status leaves a miss on the summary a miss.  [clear_all]
    removes the summary, whose file is in the cache directory, and leaves
    an entry whose key leads out of the directory where it is. *)
Lemma local_cache_keys_independent_witness :
  (LocalCacheService._get_cache_file LocalCacheService.local_cache "system_status"
   <> LocalCacheService._get_cache_file LocalCacheService.local_cache "analytics_summary"
   /\ glob_json "cache"
        (LocalCacheService._get_cache_file LocalCacheService.local_cache
           "analytics_summary") = true)
  /\ (LocalCacheService._get_cache_file LocalCacheService.local_cache "system_status"
      <> LocalCacheService._get_cache_file LocalCacheService.local_cache "../archive"
      /\ glob_json "cache"
           (LocalCacheService._get_cache_file LocalCacheService.local_cache
              "../archive") = false)
  /\ LocalCacheService.get LocalCacheService.local_cache
       (LocalCacheService.set LocalCacheService.local_cache ∅ 1000
          "system_status" sample_status)
       1001 "analytics_summary"
     = None
  /\ LocalCacheService.get LocalCacheService.local_cache
       (LocalCacheService.invalidate LocalCacheService.local_cache
          (LocalCacheService.set LocalCacheService.local_cache ∅ 1000
             "system_status" sample_status) "system_status")
       1001 "system_status"
     = None
  /\ LocalCacheService.get LocalCacheService.local_cache
       (LocalCacheService.clear_all LocalCacheService.local_cache
          (LocalCacheService.set LocalCacheService.local_cache ∅ 1000
             "analytics_summary" sample_status))
       1001 "analytics_summary"
     = None
  /\ LocalCacheService.get LocalCacheService.local_cache
       (LocalCacheService.clear_all LocalCacheService.local_cache
          (LocalCacheService.set LocalCacheService.local_cache ∅ 1000
             "../archive" sample_status))
       1001 "../archive"
     = Some (LocalCacheService.cache_data LocalCacheService.local_cache 1000
               "../archive" sample_status).
Proof.
  assert (Hne : LocalCacheService._get_cache_file LocalCacheService.local_cache
                  "system_status"
                <> LocalCacheService._get_cache_file LocalCacheService.local_cache
                     "analytics_summary")
    by (vm_compute; discriminate).
  assert (Hin : glob_json "cache"
                  (LocalCacheService._get_cache_file LocalCacheService.local_cache
                     "analytics_summary") = true)
    by reflexivity.
  assert (Hne' : LocalCacheService._get_cache_file LocalCacheService.local_cache
                   "system_status"
                 <> LocalCacheService._get_cache_file LocalCacheService.local_cache
                      "../archive")
    by (vm_compute; discriminate).
  assert (Hout : glob_json "cache"
                   (LocalCacheService._get_cache_file LocalCacheService.local_cache
                      "../archive") = false)
    by reflexivity.
  split; [split; [exact Hne|exact Hin]|]. split; [split; [exact Hne'|exact Hout]|].
  split; [|split; [|split]].
  - rewrite (proj1 (local_cache_keys_independent LocalCacheService.local_cache ∅
                      "system_status" "analytics_summary"
                      sample_status 1000 1001 Hne)).
    reflexivity.
  - exact (proj1 (proj2 (proj2 (local_cache_keys_independent
                                  LocalCacheService.local_cache
                                  (LocalCacheService.set LocalCacheService.local_cache
                                     ∅ 1000 "system_status" sample_status)
                                  "system_status" "analytics_summary"
                                  sample_status 1000 1001 Hne)))).
  - exact (proj1 (proj2 (proj2 (proj2 (local_cache_keys_independent
                                         LocalCacheService.local_cache
                                         (LocalCacheService.set
                                            LocalCacheService.local_cache
                                            ∅ 1000 "analytics_summary" sample_status)
                                         "system_status" "analytics_summary"
                                         sample_status 1000 1001 Hne)))) Hin).
  - rewrite (proj2 (proj2 (proj2 (proj2 (local_cache_keys_independent
                                           LocalCacheService.local_cache
                                           (LocalCacheService.set
                                              LocalCacheService.local_cache
                                              ∅ 1000 "../archive" sample_status)
                                           "system_status" "../archive"
                                           sample_status 1000 1001 Hne')))) Hout).
    reflexivity.
Defined.

(** [./system_status] and [system_status] name one file.  What is written
    under the first is served under the second, with the first as its
    [cache_key]; at 1400 s the entry is still there under the first key,
    which has the default TTL of an hour, and gone under the second. *)
Lemma local_cache_aliased_keys_witness :
  LocalCacheService._get_cache_file LocalCacheService.local_cache "./system_status"
  = LocalCacheService._get_cache_file LocalCacheService.local_cache "system_status"
  /\ LocalCacheService.get LocalCacheService.local_cache
       (LocalCacheService.set LocalCacheService.local_cache ∅ 1000
          "./system_status" sample_status)
       1200 "system_status"
     = Some (LocalCacheService.cache_data LocalCacheService.local_cache 1000
               "./system_status" sample_status)
  /\ LocalCacheService.get LocalCacheService.local_cache
       (LocalCacheService.set LocalCacheService.local_cache ∅ 1000
          "./system_status" sample_status)
       1400 "system_status"
     = None
  /\ LocalCacheService.get LocalCacheService.local_cache
       (LocalCacheService.set LocalCacheService.local_cache ∅ 1000
          "./system_status" sample_status)
       1400 "./system_status"
     <> None.
Proof.
  assert (Hsame : LocalCacheService._get_cache_file LocalCacheService.local_cache
                    "./system_status"
                  = LocalCacheService._get_cache_file LocalCacheService.local_cache
                      "system_status")
    by reflexivity.
  split; [exact Hsame|]. split; [|split].
  - rewrite (proj1 (local_cache_aliased_keys LocalCacheService.local_cache ∅
                      "./system_status" "system_status" sample_status 1000 1200 Hsame)).
    reflexivity.
  - rewrite (proj1 (local_cache_aliased_keys LocalCacheService.local_cache ∅
                      "./system_status" "system_status" sample_status 1000 1400 Hsame)).
    reflexivity.
  - intros Heq. vm_compute in Heq. discriminate Heq.
Defined.

(** The status computed at 1000 s is still the answer at 1299 s. *)
Lemma status_served_from_cache_witness :
  (LocalCacheService.get LocalCacheService.local_cache ∅ 1000 "system_status" = None
   /\ (1299 < 1000 + 300)%Q)
  /\ ApiServer.system_status (snd (ApiServer.system_status ∅ 1000)) 1299
     = (Some (ApiServer.fresh_status 1000), snd (ApiServer.system_status ∅ 1000)).
Proof.
  assert (Hmiss : LocalCacheService.get LocalCacheService.local_cache ∅ 1000
                    "system_status" = None) by reflexivity.
  assert (Hsoon : (1299 < 1000 + 300)%Q) by (vm_compute; reflexivity).
  split; [split; [exact Hmiss|exact Hsoon]|].
  exact (proj1 (proj2 (status_served_from_cache ∅ 1000 1299 Hmiss)) Hsoon).
Defined.

End MoreSamples.

(** Three loads with two distinct keys: two rows are left. *)
Lemma dedup_only_removes_witness :
  RemoveDuplicates.window_order [buzz_old; buzz_v1; trashy] [trashy; buzz_v1; buzz_old]
  /\ length (RemoveDuplicates.remove_duplicates [trashy; buzz_v1; buzz_old]
               [buzz_old; buzz_v1; trashy]) = 2%nat
  /\ RemoveDuplicates.remove_duplicates [trashy; buzz_v1; buzz_old]
       [buzz_old; buzz_v1; trashy] ⊆+ [buzz_old; buzz_v1; trashy].
Proof.
  assert (Hw : RemoveDuplicates.window_order [buzz_old; buzz_v1; trashy]
                 [trashy; buzz_v1; buzz_old]).
  { split; [|reflexivity].
    change [buzz_old; buzz_v1; trashy] with ([buzz_old; buzz_v1] ++ [trashy]).
    rewrite (Permutation_app_comm [buzz_old; buzz_v1] [trashy]). cbn.
    apply perm_skip, perm_swap. }
  split; [exact Hw|]. split; [reflexivity|].
  exact (proj1 (dedup_only_removes _ _ Hw)).
Defined.

(** ** Time spent backing off *)
Section Backoff.
Import PunkAPIExtractor.

Variable self : extractor.
Variable srv : server.
Variable r : request.

Lemma backoff_bound_closed (todo : nat) :
  forall attempt : Z,
    0 <= attempt -> attempt + Z.of_nat (S todo) = retry_attempts self ->
    backoff_bound (retry_attempts self) (S todo) attempt
    = 2 ^ retry_attempts self + 2 ^ (retry_attempts self - 1) - 2 * 2 ^ attempt.
Proof.
  induction todo as [|todo IH]; intros attempt Hpos Hsum.
  - cbn [backoff_bound].
    replace (retry_attempts self) with (Z.succ attempt) by lia.
    rewrite Z.pow_succ_r by lia.
    replace (Z.succ attempt - 1) with attempt by lia.
    destruct (Z.ltb_spec attempt attempt); lia.
  - change (backoff_bound (retry_attempts self) (S (S todo)) attempt)
      with (2 ^ attempt
            + (if attempt <? retry_attempts self - 1 then 2 ^ attempt else 0)
            + backoff_bound (retry_attempts self) (S todo) (attempt + 1)).
    rewrite IH by lia.
    replace (attempt + 1) with (Z.succ attempt) by lia.
    rewrite Z.pow_succ_r by lia.
    destruct (Z.ltb_spec attempt (retry_attempts self - 1)); lia.
Qed.

Local Ltac slept_step :=
  split; [reflexivity|];
  split; [cbn [slept]; try change (inject_Z 0) with 0%Q; lra|lia].

Lemma try_attempt_slept (attempt : Z) (t : trace) :
  0 <= attempt ->
  exists res t1 k,
    try_attempt srv r attempt t = (res, t1)
    /\ (slept t1 == slept t + inject_Z k)%Q
    /\ 0 <= k <= 2 ^ attempt.
Proof.
  intros Hpos. assert (Hpow : 0 < 2 ^ attempt) by (apply Z.pow_pos_nonneg; lia).
  unfold try_attempt, bind, http_get.
  destruct (srv (requests_issued t) r) as [status [data|]| |].
  - destruct (status =? 200); [exists (Return data), (EvGet r :: t), 0;
      slept_step|].
    destruct (status =? 429).
    + exists FallThrough, (EvSleep (inject_Z (2 ^ attempt)) :: EvGet r :: t), (2 ^ attempt).
      slept_step.
    + exists FallThrough, (EvGet r :: t), 0. slept_step.
  - destruct (status =? 200); [exists FallThrough, (EvGet r :: t), 0;
      slept_step|].
    destruct (status =? 429).
    + exists FallThrough, (EvSleep (inject_Z (2 ^ attempt)) :: EvGet r :: t), (2 ^ attempt).
      slept_step.
    + exists FallThrough, (EvGet r :: t), 0. slept_step.
  - exists FallThrough, (EvGet r :: t), 0. slept_step.
  - exists FallThrough, (EvGet r :: t), 0. slept_step.
Qed.

Lemma attempts_slept (todo : nat) :
  forall (attempt : Z) (t : trace),
    0 <= attempt ->
    exists out t' k,
      attempts self srv r todo attempt t = (out, t')
      /\ (slept t' == slept t + inject_Z k)%Q
      /\ 0 <= k <= backoff_bound (retry_attempts self) todo attempt.
Proof.
  induction todo as [|todo IH]; intros attempt t Hpos.
  { exists [], t, 0. cbn [backoff_bound]. slept_step. }
  assert (Hpow : 0 < 2 ^ attempt) by (apply Z.pow_pos_nonneg; lia).
  cbn [attempts backoff_bound]. unfold bind at 1.
  destruct (try_attempt_slept attempt t Hpos) as (res & t1 & k1 & -> & Hs1 & Hk1).
  assert (Hb : 0 <= backoff_bound (retry_attempts self) todo (attempt + 1)).
  { destruct (IH (attempt + 1) t ltac:(lia)) as (_ & _ & k & _ & _ & Hk). lia. }
  destruct res as [data|].
  - exists data, t1, k1. split; [reflexivity|]. split; [exact Hs1|].
    destruct (attempt <? retry_attempts self - 1); lia.
  - unfold bind at 1.
    destruct (attempt <? retry_attempts self - 1); cbn [sleep ret].
    + destruct (IH (attempt + 1) (EvSleep (inject_Z (2 ^ attempt)) :: t1) ltac:(lia))
        as (out & t' & k & -> & Hs & Hk).
      exists out, t', (k1 + 2 ^ attempt + k). split; [reflexivity|].
      split; [|lia]. rewrite Hs. cbn [slept]. rewrite Hs1, !inject_Z_plus. lra.
    + destruct (IH (attempt + 1) t1 ltac:(lia)) as (out & t' & k & -> & Hs & Hk).
      exists out, t', (k1 + k). split; [reflexivity|].
      split; [|lia]. rewrite Hs, Hs1, inject_Z_plus. lra.
Qed.

(** X22.  Whatever the source answers, the backoff sleeps of
    [_fetch_page_with_retry] for one page add up to at most
    [3 * 2 ** (retry_attempts - 1) - 2] seconds (10 seconds for three
    attempts). *)
Theorem fetch_backoff_bounded (t : trace) :
  1 <= retry_attempts self ->
  (slept t <= slept (snd (_fetch_page_with_retry self srv r t))
   <= slept t + inject_Z (3 * 2 ^ (retry_attempts self - 1) - 2))%Q.
Proof.
  intros Hretry. unfold _fetch_page_with_retry.
  destruct (attempts_slept (Z.to_nat (retry_attempts self)) 0 t ltac:(lia))
    as (out & t' & k & -> & Hs & Hk). cbn [snd].
  destruct (Z.to_nat (retry_attempts self)) as [|todo] eqn:E; [lia|].
  rewrite (backoff_bound_closed todo 0) in Hk by lia.
  replace (retry_attempts self) with (Z.succ (retry_attempts self - 1)) in Hk at 1 by lia.
  rewrite Z.pow_succ_r in Hk by lia. change (2 ^ 0) with 1 in Hk.
  rewrite Hs. split.
  - assert (Hk0 : (inject_Z 0 <= inject_Z k)%Q) by (rewrite <- Zle_Qle; lia).
    change (inject_Z 0) with 0%Q in Hk0. lra.
  - assert (Hle : (inject_Z k <= inject_Z (3 * 2 ^ (retry_attempts self - 1) - 2))%Q)
      by (rewrite <- Zle_Qle; lia).
    lra.
Qed.

End Backoff.

(** Throttled at each of three attempts: 1 + 1 + 2 + 2 + 4 seconds. *)
Lemma fetch_backoff_bounded_witness :
  1 <= PunkAPIExtractor.retry_attempts default_extractor
  /\ slept (snd (PunkAPIExtractor._fetch_page_with_retry default_extractor
                   (throttled_source 3 []) sample_page_request [])) = 10%Q
  /\ (slept (snd (PunkAPIExtractor._fetch_page_with_retry default_extractor
                    (throttled_source 3 []) sample_page_request []))
      <= slept [] + inject_Z (3 * 2 ^ (PunkAPIExtractor.retry_attempts default_extractor - 1) - 2))%Q.
Proof.
  assert (H1 : 1 <= PunkAPIExtractor.retry_attempts default_extractor) by (cbn; lia).
  split; [exact H1|]. split; [vm_compute; reflexivity|].
  exact (proj2 (fetch_backoff_bounded default_extractor (throttled_source 3 [])
                  sample_page_request [] H1)).
Defined.
